(** * Program structure composition (server/routers/programs.py)

    A shallow embedding of the structure composition code of the handbook
    back end: subgroup resolution, the structure builder, general
    education resolution, the course list extractor and the prerequisite
    edge builder, with the properties of its specification. *)

From Stdlib Require Import String Ascii List ZArith Bool Lia Permutation.
From Stdlib Require Import DecimalString Sorted.
Import ListNotations.
Open Scope string_scope.
Open Scope list_scope.

Set Implicit Arguments.
Set Warnings "-register-all".

(** ** Python strings *)

Module PyStr.

(** [sub in s] *)
Fixpoint contains (sub s : string) : bool :=
  String.prefix sub s ||
  match s with
  | EmptyString => false
  | String _ s' => contains sub s'
  end.

(** [s.endswith(suf)] *)
Fixpoint endswith (s suf : string) : bool :=
  String.eqb s suf ||
  match s with
  | EmptyString => false
  | String _ s' => endswith s' suf
  end.

Definition is_upper (c : ascii) : bool :=
  let n := nat_of_ascii c in (65 <=? n)%nat && (n <=? 90)%nat.

Definition is_digit (c : ascii) : bool :=
  let n := nat_of_ascii c in (48 <=? n)%nat && (n <=? 57)%nat.

Definition lower_char (c : ascii) : ascii :=
  if is_upper c then ascii_of_nat (nat_of_ascii c + 32) else c.

(** [s.lower()] on the letters A to Z.  It is used only to look for the
    word "core" in a title, where the letters of other alphabets make no
    difference: none of them is lowered to c, o, r or e. *)
Fixpoint lower (s : string) : string :=
  match s with
  | EmptyString => EmptyString
  | String c s' => String (lower_char c) (lower s')
  end.

(** [s.split(sep)] for a separator of at least one character.  [skip]
    counts the characters of a separator still to be dropped and [cur]
    holds the piece read so far. *)
Fixpoint split_go (sep s : string) (skip : nat) (cur : string) : list string :=
  match s with
  | EmptyString => [cur]
  | String c s' =>
      match skip with
      | S k => split_go sep s' k cur
      | O =>
          if String.prefix sep s
          then cur :: split_go sep s' (String.length sep - 1) EmptyString
          else split_go sep s' 0 (cur ++ String c EmptyString)
      end
  end.

Definition split (s sep : string) : list string := split_go sep s 0 EmptyString.

(** [n] leading characters all satisfy [p] *)
Fixpoint all_prefix (p : ascii -> bool) (n : nat) (s : string) : option string :=
  match n with
  | O => Some s
  | S k =>
      match s with
      | EmptyString => None
      | String c s' => if p c then all_prefix p k s' else None
      end
  end.

(** [re.match(r"[A-Z]{4}[0-9]{4}", s)]: the pattern is anchored at the
    start of [s] only. *)
Definition match_course_code (s : string) : bool :=
  match all_prefix is_upper 4 s with
  | Some rest =>
      match all_prefix is_digit 4 rest with
      | Some _ => true
      | None => false
      end
  | None => false
  end.

End PyStr.

(** ** Python dictionaries: insertion ordered, one entry per key *)

Module Dict.

Definition t (V : Type) : Type := list (string * V).

Section Ops.
Variable V : Type.

Fixpoint get (k : string) (d : t V) : option V :=
  match d with
  | [] => None
  | (k', v) :: d' => if String.eqb k k' then Some v else get k d'
  end.

(** [d[k] = v]: an existing key keeps its place, a new key goes last *)
Fixpoint set (k : string) (v : V) (d : t V) : t V :=
  match d with
  | [] => [(k, v)]
  | (k', v') :: d' =>
      if String.eqb k k' then (k', v) :: d' else (k', v') :: set k v d'
  end.

Definition keys (d : t V) : list string := map fst d.

Definition mem (k : string) (d : t V) : bool :=
  match get k d with Some _ => true | None => false end.

(** [rest | new] *)
Definition union (rest new : t V) : t V :=
  fold_left (fun acc kv => set (fst kv) (snd kv) acc) new rest.

(** a dict display or comprehension over the pairs [l] *)
Definition of_pairs (l : list (string * V)) : t V := union [] l.

End Ops.

End Dict.

(** [x in l] for a list of strings *)
Definition mem_str (x : string) (l : list string) : bool :=
  existsb (String.eqb x) l.

(** ** Exceptions and results *)

Inductive exn : Type :=
| KeyError (key : string)
| IndexError
| AttributeError
| TypeError
| HTTPException (status_code : Z) (detail : string).

Inductive result (A : Type) : Type :=
| Ok (a : A)
| Raise (e : exn).

Arguments Ok {A} a.
Arguments Raise {A} e.

(** ** Prerequisite graph (GraphBuilder) *)

(** A field of a record read from a document: the key may be missing,
    or present with the value [None]. *)
Inductive field (A : Type) : Type :=
| Missing
| Null
| Val (a : A).

Arguments Missing {A}.
Arguments Null {A}.
Arguments Val {A} a.

Record ProtoEdge : Type := mkProtoEdge {
  original : option string;
  pe_courses : field (list string)
}.

Record Edge : Type := mkEdge {
  source : string;
  target : string
}.

(** [not proto_edge]: the dict has no key at all *)
Definition proto_edge_empty (pe : ProtoEdge) : bool :=
  match original pe, pe_courses pe with
  | None, Missing => true
  | _, _ => false
  end.

(** the inner loop of [proto_edges_to_edges]: [proto_edge["original"]] is
    read once per appended edge *)
Fixpoint edges_of (orig : option string) (cs : list string) : result (list Edge) :=
  match cs with
  | [] => Ok []
  | c :: cs' =>
      match orig with
      | None => Raise (KeyError "original")
      | Some o =>
          match edges_of orig cs' with
          | Ok es => Ok (mkEdge c o :: es)
          | Raise e => Raise e
          end
      end
  end.

Fixpoint proto_edges_to_edges (proto_edges : list ProtoEdge) : result (list Edge) :=
  match proto_edges with
  | [] => Ok []
  | pe :: rest =>
      let continue := proto_edges_to_edges rest in
      if proto_edge_empty pe then continue
      else
        match pe_courses pe with
        | Missing => Raise (KeyError "courses")
        | Null => continue
        | Val [] => continue
        | Val cs =>
            match edges_of (original pe) cs with
            | Raise e => Raise e
            | Ok es =>
                match continue with
                | Ok es' => Ok (es ++ es')
                | Raise e => Raise e
                end
            end
        end
  end.

Definition prune_edges (edges : list Edge) (courses : list string) : list Edge :=
  filter (fun edge => mem_str (source edge) courses && mem_str (target edge) courses) edges.

(** ** Data model *)

(** A course description: [str | list[str]] *)
Inductive Description : Type :=
| DStr (s : string)
| DList (l : list string).

(** An input container ([ProgramContainer | CourseContainer]); every key
    is read with [.get], so every key may be missing. *)
Record ContainerSpec : Type := mkContainerSpec {
  c_title : option string;
  c_type : option string;
  credits_to_complete : option Z;
  c_courses : field (Dict.t Description);
  c_notes : option string
}.

Record ContainerContent : Type := mkContainerContent {
  UOC : Z;
  courses : Dict.t Description;
  type : string;
  notes : string
}.

Record StructureContainer : Type := mkStructureContainer {
  name : string;
  content : Dict.t ContainerContent
}.

Definition Structure : Type := Dict.t StructureContainer.

Record Specialisation : Type := mkSpecialisation {
  s_name : string;
  curriculum : list ContainerSpec
}.

(** A program record; [non_spec_data] is [None] when
    [programsResult['components']['non_spec_data']] has a missing key. *)
Record Program : Type := mkProgram {
  p_UOC : Z;
  non_spec_data : option (list ContainerSpec)
}.

(** ** The mutable structure and the trace of its writes *)

Inductive event : Type :=
| NewGroup (key : string)                (* structure[key] = {...} *)
| NewContainer (group title : string).   (* structure[group]["content"][title] = {...} *)

Record state : Type := mkState {
  structure : Structure;
  trace : list event
}.

(** A computation on the shared structure.  The state is kept when an
    exception is raised: the writes made before it stay in the object. *)
Definition M (A : Type) : Type := state -> result A * state.

Definition ret {A} (a : A) : M A := fun st => (Ok a, st).

Definition raise {A} (e : exn) : M A := fun st => (Raise e, st).

Definition bind {A B} (m : M A) (f : A -> M B) : M B :=
  fun st =>
    match m st with
    | (Ok a, st') => f a st'
    | (Raise e, st') => (Raise e, st')
    end.

Declare Scope py_scope.
Delimit Scope py_scope with py.
Notation "x <- m ;; k" := (bind m (fun x => k))
  (at level 61, m at next level, right associativity) : py_scope.
Notation "m ;;; k" := (bind m (fun _ => k))
  (at level 61, right associativity) : py_scope.
Open Scope py_scope.

(** lift a pure result *)
Definition lift {A} (r : result A) : M A := fun st => (r, st).

(** [with suppress(KeyError): m] *)
Definition suppress_KeyError (m : M unit) : M unit :=
  fun st =>
    match m st with
    | (Raise (KeyError _), st') => (Ok tt, st')
    | r => r
    end.

Definition initial : state := mkState [] [].

(** ** Collaborators *)

(** The record store, the course search, the general education file and
    the manual fixes are outside this module.  [list_of_set] is the order
    in which [list(set)] enumerates a set, which Python leaves open. *)
Class Backend : Type := mkBackend {
  find_program : string -> option Program;
  find_specialisation : string -> option Specialisation;
  regex_search : string -> result (Dict.t string);
  gened_pool : string -> option (Dict.t string);
  list_of_set : list string -> list string;
  list_of_set_perm : forall l, Permutation (list_of_set l) l;
  apply_manual_fixes : Structure -> string -> result unit * Structure
}.

Definition default {A} (d : A) (o : option A) : A :=
  match o with Some a => a | None => d end.

Definition opt_eqb (o : option string) (s : string) : bool :=
  match o with Some x => String.eqb x s | None => false end.

Section Composition.

Context {B : Backend}.

(** *** SubgroupResolver *)

(** [{c: description[index] for index, c in enumerate(codes)}] *)
Fixpoint zip_codes (codes : list string) (index : nat) (description : list string)
    (acc : Dict.t Description) : result (Dict.t Description) :=
  match codes with
  | [] => Ok acc
  | c :: codes' =>
      match nth_error description index with
      | None => Raise IndexError
      | Some d => zip_codes codes' (S index) description (Dict.set c (DStr d) acc)
      end
  end.

Definition titles (d : Dict.t string) : Dict.t Description :=
  map (fun kv => (fst kv, DStr (snd kv))) d.

Definition convert_subgroup_object_to_courses_dict (object : string)
    (description : Description) : result (Dict.t Description) :=
  match PyStr.contains " or " object, description with
  | true, DList l => zip_codes (PyStr.split object " or ") 0 l []
  | _, _ =>
      if negb (PyStr.match_course_code object)
      then match regex_search ("^" ++ object) with
           | Ok d => Ok (titles d)
           | Raise e => Raise e
           end
      else Ok [(object, description)]
  end.

(** *** StructureBuilder *)

(** the [functools.reduce] over [container.get("courses", {}).items()] *)
Fixpoint reduce_courses (items : list (string * Description)) (exceptions : list string)
    (rest : Dict.t Description) : result (Dict.t Description) :=
  match items with
  | [] => Ok rest
  | current :: items' =>
      match convert_subgroup_object_to_courses_dict (fst current) (snd current) with
      | Raise e => Raise e
      | Ok d =>
          reduce_courses items' exceptions
            (Dict.union rest
               (Dict.of_pairs
                  (filter (fun kv => negb (mem_str (fst kv) exceptions)) d)))
      end
  end.

Definition container_courses (container : ContainerSpec) (exceptions : list string)
    : result (Dict.t Description) :=
  match c_courses container with
  | Missing => reduce_courses [] exceptions []
  | Null => Raise AttributeError
  | Val d => reduce_courses d exceptions []
  end.

Definition container_title (container : ContainerSpec) : string :=
  if opt_eqb (c_type container) "gened" then "General Education"
  else default "" (c_title container).

Definition is_rule (container : ContainerSpec) : bool :=
  match c_type container with
  | Some conditional_type => PyStr.contains "rule" conditional_type
  | None => false
  end.

Definition container_group (type : string) (container : ContainerSpec) : string :=
  if is_rule container then "Rules" else type.

Definition add_subgroup_container (type : string) (container : ContainerSpec)
    (exceptions : list string) : M (list string) :=
  fun st =>
    let title := container_title container in
    let type := container_group type container in
    match container_courses container exceptions with
    | Raise e => (Raise e, st)
    | Ok cs =>
        let item :=
          {| UOC := default 0%Z (credits_to_complete container);
             courses := cs;
             type := default "" (c_type container);
             notes := if String.eqb type "Rules"
                      then default "" (c_notes container) else "" |} in
        match Dict.get type (structure st) with
        | None => (Raise (KeyError type), st)
        | Some group =>
            (Ok (Dict.keys cs),
             {| structure :=
                  Dict.set type
                    {| name := name group;
                       content := Dict.set title item (content group) |}
                    (structure st);
                trace := trace st ++ [NewContainer type title] |})
        end
    end.

(** [structure[key] = {"name": name, "content": {}}] *)
Definition new_group (key name : string) : M unit :=
  fun st =>
    (Ok tt,
     {| structure := Dict.set key {| name := name; content := [] |} (structure st);
        trace := trace st ++ [NewGroup key] |}).

(** the first loop of [add_specialisation], over the [filter] on "Core" *)
Fixpoint add_cores (type : string) (curriculum : list ContainerSpec)
    (exceptions : list string) : M (list string) :=
  match curriculum with
  | [] => ret exceptions
  | a :: rest =>
      match c_title a with
      | None => raise (KeyError "title")
      | Some title =>
          if PyStr.contains "Core" title
          then new <- add_subgroup_container type a exceptions ;;
               add_cores type rest (exceptions ++ new)
          else add_cores type rest exceptions
      end
  end.

(** the second loop of [add_specialisation] *)
Fixpoint add_others (type : string) (curriculum : list ContainerSpec)
    (exceptions : list string) : M unit :=
  match curriculum with
  | [] => ret tt
  | container :: rest =>
      match c_title container with
      | None => raise (KeyError "title")
      | Some title =>
          if negb (PyStr.contains "Core" title)
          then add_subgroup_container type container exceptions ;;;
               add_others type rest exceptions
          else add_others type rest exceptions
      end
  end.

Definition spec_kind (code : string) : string :=
  if PyStr.endswith code "1" then "Major"
  else if PyStr.endswith code "2" then "Minor"
  else "Honours".

Definition spec_key (code : string) : string :=
  spec_kind code ++ " - " ++ code.

Definition add_specialisation (code : string) : M unit :=
  let type := spec_key code in
  match find_specialisation code with
  | None => raise (HTTPException 400 (code ++ " of type " ++ type ++ " not found"))
  | Some spnResult =>
      new_group type (s_name spnResult) ;;;
      exceptions <- add_cores type (curriculum spnResult) [] ;;
      add_others type (curriculum spnResult) exceptions
  end.

Fixpoint for_each {A} (f : A -> M unit) (l : list A) : M unit :=
  match l with
  | [] => ret tt
  | a :: l' => f a ;;; for_each f l'
  end.

Definition add_specialisations (spec : option string) : M unit :=
  match spec with
  | None => ret tt
  | Some "" => ret tt
  | Some spec =>
      let specs := if PyStr.contains "+" spec then PyStr.split spec "+" else [spec] in
      for_each add_specialisation specs
  end.

Definition add_program_code_details (programCode : string) : M Z :=
  match find_program programCode with
  | None => raise (HTTPException 400 "Program code was not found")
  | Some programsResult =>
      new_group "General" "General Program Requirements" ;;;
      new_group "Rules" "General Program Rules" ;;;
      ret (p_UOC programsResult)
  end.

(** *** GenEdResolver *)

(** the nested [sum(...)] of [add_geneds_courses]: every course of a
    container whose title contains "core", in every group whose key
    contains "Major" or "Honours" *)
Definition core_courses (structure : Structure) : list string :=
  flat_map
    (fun spec =>
       if PyStr.contains "Major" (fst spec) || PyStr.contains "Honours" (fst spec)
       then flat_map
              (fun sub_group =>
                 if PyStr.contains "core" (PyStr.lower (fst sub_group))
                 then Dict.keys (courses (snd sub_group))
                 else [])
              (content (snd spec))
       else [])
    structure.

(** [set(a) - set(b)], as the list of its members without repetition *)
Definition set_diff (a b : list string) : list string :=
  nodup string_dec (filter (fun c => negb (mem_str c b)) a).

(** [{course: geneds["courses"][course] for course in gen_ed_courses}] *)
Fixpoint pick_courses (pool : Dict.t string) (gen_ed_courses : list string)
    (acc : Dict.t Description) : result (Dict.t Description) :=
  match gen_ed_courses with
  | [] => Ok acc
  | course :: rest =>
      match Dict.get course pool with
      | None => Raise (KeyError course)
      | Some title => pick_courses pool rest (Dict.set course (DStr title) acc)
      end
  end.

(** [get_gen_eds(programCode)["courses"]] *)
Definition get_gen_eds (programCode : string) : result (Dict.t string) :=
  match gened_pool programCode with
  | Some all_geneds => Ok all_geneds
  | None => Raise (KeyError programCode)
  end.

(** [item["courses"] = cs] for
    [item = structure["General"]["content"]["General Education"]] *)
Definition set_item_courses (cs : Dict.t Description) (general : StructureContainer)
    (item : ContainerContent) : M unit :=
  fun st =>
    (Ok tt,
     {| structure :=
          Dict.set "General"
            {| name := name general;
               content :=
                 Dict.set "General Education"
                   {| UOC := UOC item; courses := cs;
                      type := type item; notes := notes item |}
                   (content general) |}
            (structure st);
        trace := trace st |}).

Definition courses_is_None (container : ContainerSpec) : bool :=
  match c_courses container with
  | Val _ => false
  | _ => true
  end.

Definition add_geneds_courses (programCode : string) (container : ContainerSpec)
    : M (list string) :=
  if negb (opt_eqb (c_type container) "gened") then ret []
  else
    fun st =>
      match Dict.get "General" (structure st) with
      | None => (Raise (KeyError "General"), st)
      | Some general =>
          match Dict.get "General Education" (content general) with
          | None => (Raise (KeyError "General Education"), st)
          | Some item =>
              (set_item_courses [] general item ;;;
               if courses_is_None container
               then
                 pool <- lift (get_gen_eds programCode) ;;
                 (fun st' =>
                    let gen_ed_courses :=
                      list_of_set
                        (set_diff (Dict.keys pool) (core_courses (structure st'))) in
                    (geneds <- lift (get_gen_eds programCode) ;;
                     cs <- lift (pick_courses geneds gen_ed_courses []) ;;
                     set_item_courses cs general item ;;;
                     ret (Dict.keys cs)) st')
               else ret []) st
          end
      end.

(** one round of the loop of [add_geneds_to_structure] *)
Definition gened_round (programCode : string) (container : ContainerSpec) : M unit :=
  add_subgroup_container "General" container [] ;;;
  if opt_eqb (c_type container) "gened"
  then add_geneds_courses programCode container ;;; ret tt
  else ret tt.

Definition add_geneds_to_structure (programCode : string) : M unit :=
  match find_program programCode with
  | None => raise (HTTPException 400 "Program code was not found")
  | Some programsResult =>
      suppress_KeyError
        match non_spec_data programsResult with
        | None => raise (KeyError "non_spec_data")
        | Some containers => for_each (gened_round programCode) containers
        end
  end.

(** [apply_manual_fixes(structure, programCode)] *)
Definition manual_fixes (programCode : string) : M unit :=
  fun st =>
    let (r, s) := apply_manual_fixes (structure st) programCode in
    (r, {| structure := s; trace := trace st |}).

Definition get_structure (programCode : string) (spec : option string)
    : result (Structure * Z) * state :=
  (add_specialisations spec ;;;
   uoc <- add_program_code_details programCode ;;
   add_geneds_to_structure programCode ;;;
   manual_fixes programCode ;;;
   (fun st => (Ok (structure st, uoc), st))) initial.

End Composition.

(** ** CourseListExtractor *)

(** [course_list_from_structure] takes an untyped [dict] and decides by
    probing the values, so it is modelled on Python values. *)
Inductive pyval : Type :=
| PNone
| PInt (z : Z)
| PStr (s : string)
| PList (l : list pyval)
| PDict (d : list (string * pyval)).

Definition is_str (s : string) (v : pyval) : bool :=
  match v with PStr x => String.eqb s x | _ => false end.

(** what the block [with suppress(KeyError): if not isinstance(v, dict) or
    "rule" in v["type"]: continue] decides *)
Inductive probe : Type :=
| Skip             (* continue *)
| Go               (* fall through, also after a suppressed KeyError *)
| Fail (e : exn).

Definition rule_probe (v : pyval) : probe :=
  match v with
  | PDict d =>
      match Dict.get "type" d with
      | None => Go
      | Some (PStr t) => if PyStr.contains "rule" t then Skip else Go
      | Some (PList l) => if existsb (is_str "rule") l then Skip else Go
      | Some (PDict d') => if Dict.mem "rule" d' then Skip else Go
      | Some _ => Fail TypeError
      end
  | _ => Skip
  end.

(** [v.keys()] *)
Definition pykeys (v : pyval) : list string :=
  match v with PDict d => Dict.keys d | _ => [] end.

Fixpoint recursive_course_search (structure : pyval) : result (list string) :=
  match structure with
  | PDict d =>
      (fix items (kvs : list (string * pyval)) : result (list string) :=
         match kvs with
         | [] => Ok []
         | (k, v) :: rest =>
             match rule_probe v with
             | Fail e => Raise e
             | Skip => items rest
             | Go =>
                 let here := if PyStr.contains "courses" k then pykeys v else [] in
                 match recursive_course_search v with
                 | Raise e => Raise e
                 | Ok below =>
                     match items rest with
                     | Raise e => Raise e
                     | Ok after => Ok (here ++ below ++ after)
                     end
                 end
             end
         end) d
  | PList _ => Raise AttributeError
  | _ => Ok []
  end.

(** the Python value of a composed structure *)
Definition py_of_description (d : Description) : pyval :=
  match d with
  | DStr s => PStr s
  | DList l => PList (map PStr l)
  end.

Definition py_of_courses (cs : Dict.t Description) : pyval :=
  PDict (map (fun kv => (fst kv, py_of_description (snd kv))) cs).

Definition py_of_content (c : ContainerContent) : pyval :=
  PDict [("UOC", PInt (UOC c)); ("courses", py_of_courses (courses c));
         ("type", PStr (type c)); ("notes", PStr (notes c))].

Definition py_of_group (g : StructureContainer) : pyval :=
  PDict [("name", PStr (name g));
         ("content", PDict (map (fun kv => (fst kv, py_of_content (snd kv))) (content g)))].

Definition py_of_structure (s : Structure) : pyval :=
  PDict (map (fun kv => (fst kv, py_of_group (snd kv))) s).

Definition course_list_from_structure (structure : Structure) : result (list string) :=
  recursive_course_search (py_of_structure structure).

Section CourseList.

Context {B : Backend}.

Definition get_structure_course_list (programCode : string) (spec : option string)
    : result (list string) * state :=
  (add_specialisations spec ;;;
   add_program_code_details programCode ;;;
   manual_fixes programCode ;;;
   (fun st => (course_list_from_structure (structure st), st))) initial.

End CourseList.

(** *** The walk as the specification words it

    The same walk, except that a mapping reached under a key containing
    "courses" contributes its keys and is not entered. *)
Fixpoint spec_course_search (structure : pyval) : result (list string) :=
  match structure with
  | PDict d =>
      (fix items (kvs : list (string * pyval)) : result (list string) :=
         match kvs with
         | [] => Ok []
         | (k, v) :: rest =>
             match rule_probe v with
             | Fail e => Raise e
             | Skip => items rest
             | Go =>
                 match (if PyStr.contains "courses" k then Ok (pykeys v)
                        else spec_course_search v) with
                 | Raise e => Raise e
                 | Ok below =>
                     match items rest with
                     | Raise e => Raise e
                     | Ok after => Ok (below ++ after)
                     end
                 end
             end
         end) d
  | PList _ => Raise AttributeError
  | _ => Ok []
  end.

(** ** A small handbook, for running the code *)

Module Demo.

Definition container (title type : string) (uoc : Z)
    (cs : Dict.t Description) : ContainerSpec :=
  mkContainerSpec (Some title) (Some type) (Some uoc) (Val cs) None.

Definition comp1511 : string * Description := ("COMP1511", DStr "Programming Fundamentals").
Definition comp1521 : string * Description := ("COMP1521", DStr "Computer Systems Fundamentals").
Definition comp2521 : string * Description := ("COMP2521", DStr "Data Structures and Algorithms").

(** a major whose Core container comes second in the curriculum *)
Definition COMPA1 : Specialisation :=
  mkSpecialisation "Computer Science"
    [container "Computing Electives" "elective" 12%Z [comp1511; comp1521];
     container "Core Courses" "core" 6%Z [comp1511];
     container "Level 2 Electives" "elective" 6%Z [comp1521; comp2521]].

(** a major with a container typed as a rule *)
Definition COMPR1 : Specialisation :=
  mkSpecialisation "Computer Science (Rules)"
    [container "Core Courses" "core" 6%Z [comp1511];
     container "Maturity" "maturity_rule" 0%Z []].

(** a major with a container whose title has the word "courses" *)
Definition COMPC1 : Specialisation :=
  mkSpecialisation "Computer Science (Courses)"
    [container "Elective courses" "elective" 6%Z [comp1511]].

Definition gened : ContainerSpec :=
  mkContainerSpec (Some "General Education") (Some "gened") (Some 12%Z) Missing None.

(** a general education container that lists its courses *)
Definition gened_listed : ContainerSpec :=
  mkContainerSpec (Some "General Education") (Some "gened") (Some 12%Z)
    (Val [("ARTS1010", DStr "The Life of Words")]) None.

Definition maturity : ContainerSpec :=
  mkContainerSpec (Some "Maturity Requirement") (Some "maturity_rule") None Missing
    (Some "Complete 30 UOC of level 1 courses first").

Definition pool : Dict.t string :=
  [("COMP1511", "Programming Fundamentals");
   ("ARTS1010", "The Life of Words");
   ("ADAD2610", "Art and Design for Environmental Challenges")].

Definition programs (code : string) : option Program :=
  if String.eqb code "3778" then Some (mkProgram 144 (Some [gened; maturity]))
  else if String.eqb code "3707" then Some (mkProgram 192 (Some [gened_listed]))
  else None.

Definition specialisations (code : string) : option Specialisation :=
  if String.eqb code "COMPA1" then Some COMPA1
  else if String.eqb code "COMPR1" then Some COMPR1
  else if String.eqb code "COMPC1" then Some COMPC1
  else None.

Definition geneds (code : string) : option (Dict.t string) :=
  if String.eqb code "3778" then Some pool
  else if String.eqb code "3707" then Some pool
  else None.

#[export] Instance backend : Backend :=
  {| find_program := programs;
     find_specialisation := specialisations;
     regex_search := fun _ => Ok [];
     gened_pool := geneds;
     list_of_set := fun l => l;
     list_of_set_perm := fun l => Permutation_refl l;
     apply_manual_fixes := fun s _ => (Ok tt, s) |}.

(** the structure of program 3778 with the major COMPA1, when the
    general education container has just been added *)
Definition before_geneds : state :=
  snd ((add_specialisations (Some "COMPA1") ;;;
        add_program_code_details "3778" ;;;
        add_subgroup_container "General" gened []) initial).

Definition general_item : ContainerContent :=
  {| UOC := 12; courses := []; type := "gened"; notes := "" |}.

Definition general_group : StructureContainer :=
  {| name := "General Program Requirements";
     content := [("General Education", general_item)] |}.

(** the structure of program 3707, whose general education container
    lists its courses, when that container has just been added *)
Definition listed_added : state :=
  snd ((add_program_code_details "3707" ;;;
        add_subgroup_container "General" gened_listed []) initial).

End Demo.

(** ** Definitions used to state the properties *)

(** *** Prerequisite graph *)

(** the edges the specification gives for a sequence of proto-edges *)
Definition specified_edges (proto_edges : list ProtoEdge) : list Edge :=
  flat_map
    (fun pe =>
       match pe_courses pe, original pe with
       | Val cs, Some o => map (fun c => mkEdge c o) cs
       | _, _ => []
       end)
    proto_edges.

(** a proto-edge whose keys can all be read: it is the empty mapping, or
    it has a "courses" key and, when that list is not empty, an
    "original" key *)
Definition well_keyed (pe : ProtoEdge) : bool :=
  match original pe, pe_courses pe with
  | None, Missing => true
  | Some _, Missing => false
  | _, Null => true
  | _, Val [] => true
  | Some _, Val _ => true
  | None, Val _ => false
  end.

(** every course code mentioned in the proto-edges *)
Definition mentioned_courses (proto_edges : list ProtoEdge) : list string :=
  flat_map
    (fun pe =>
       match original pe with Some o => [o] | None => [] end ++
       match pe_courses pe with Val cs => cs | _ => [] end)
    proto_edges.

(** *** Course list *)

Definition container_fields : list string := ["UOC"; "courses"; "type"; "notes"].
Definition group_fields : list string := ["name"; "content"].

(** what the probe for "rule" decides on a courses mapping: it reads the
    description of a course called "type", if there is one *)
Definition courses_skipped (cs : Dict.t Description) : bool :=
  match Dict.get "type" cs with
  | Some (DStr t) => PyStr.contains "rule" t
  | Some (DList l) => mem_str "rule" l
  | None => false
  end.

Definition container_list (title : string) (c : ContainerContent) : list string :=
  if PyStr.contains "rule" (type c) then []
  else (if PyStr.contains "courses" title then container_fields else []) ++
       (if courses_skipped (courses c) then [] else Dict.keys (courses c)).

Definition group_list (key : string) (g : StructureContainer) : list string :=
  (if PyStr.contains "courses" key then group_fields else []) ++
  flat_map (fun kv => container_list (fst kv) (snd kv)) (content g).

Definition structure_list (s : Structure) : list string :=
  flat_map (fun kv => group_list (fst kv) (snd kv)) s.

(** *** Trace of a composition *)

Definition creates (key : string) (e : event) : bool :=
  match e with
  | NewGroup k => String.eqb k key
  | NewContainer _ _ => false
  end.

Definition adds_to (key : string) (e : event) : bool :=
  match e with
  | NewGroup _ => false
  | NewContainer g _ => String.eqb g key
  end.

Definition created_once (key : string) (tr : list event) : Prop :=
  List.length (filter (creates key) tr) = 1%nat.

Definition created_before_use (key : string) (tr : list event) : Prop :=
  forall pre e post,
    tr = pre ++ e :: post -> adds_to key e = true -> existsb (creates key) pre = true.

(** the write a container of the program makes when it is added *)
Definition container_event (c : ContainerSpec) : event :=
  NewContainer (if is_rule c then "Rules" else "General") (container_title c).

Section Requests.

Context {B : Backend}.

Definition program_containers (programCode : string) : list ContainerSpec :=
  match find_program programCode with
  | Some p => default [] (non_spec_data p)
  | None => []
  end.

(** the specialisation codes a [spec] string asks for *)
Definition requested (spec : option string) : list string :=
  match spec with
  | None => []
  | Some "" => []
  | Some spec => if PyStr.contains "+" spec then PyStr.split spec "+" else [spec]
  end.

(** the course codes the entries of a container resolve to *)
Definition container_resolution (container : ContainerSpec) : list string :=
  match c_courses container with
  | Val items =>
      flat_map
        (fun it =>
           match convert_subgroup_object_to_courses_dict (fst it) (snd it) with
           | Ok d => Dict.keys d
           | Raise _ => []
           end)
        items
  | _ => []
  end.

Definition specialisation_courses (spec : option string) : list string :=
  flat_map
    (fun code =>
       match find_specialisation code with
       | Some sp => flat_map container_resolution (curriculum sp)
       | None => []
       end)
    (requested spec).

(** the courses of the "General Education" container of a structure *)
Definition gened_courses (s : Structure) : list string :=
  match Dict.get "General" s with
  | Some general =>
      match Dict.get "General Education" (content general) with
      | Some item => Dict.keys (courses item)
      | None => []
      end
  | None => []
  end.

End Requests.

(** the courses of one container of one group of a structure *)
Definition courses_at (s : Structure) (key title : string) : list string :=
  match Dict.get key s with
  | Some g =>
      match Dict.get title (content g) with
      | Some item => Dict.keys (courses item)
      | None => []
      end
  | None => []
  end.

(** *** Invariants of a composition *)

(** the keys of the two program level groups *)
Definition reserved (key : string) : bool :=
  String.eqb key "General" || String.eqb key "Rules".

Definition event_key (e : event) : string :=
  match e with
  | NewGroup k => k
  | NewContainer g _ => g
  end.

(** no group and no write of the state is on a program level group *)
Definition unreserved (st : state) : Prop :=
  (forall k, In k (Dict.keys (structure st)) -> reserved k = false) /\
  Forall (fun e => reserved (event_key e) = false) (trace st).

(** [m] keeps [I], whether it returns or raises *)
Definition preserves {A} (I : state -> Prop) (m : M A) : Prop :=
  forall st r st', m st = (r, st') -> I st -> I st'.

(** every course of every container of the structure is in [S] *)
Definition courses_within (S : list string) (s : Structure) : Prop :=
  forall key g title item c,
    In (key, g) s -> In (title, item) (content g) ->
    In c (Dict.keys (courses item)) -> In c S.

(** *** Further code of [programs.py] *)

(** [compose]: a [functools.reduce] over the functions given, with no
    initial value; here on functions of one type *)
Definition compose {A} (functions : list (A -> A)) : result (A -> A) :=
  match functions with
  | [] => Raise TypeError
  | first :: rest => Ok (fold_left (fun f g => fun x => f (g x)) rest first)
  end.

(** the keys of a dict after [d[k] = v] *)
Definition add_key (k : string) (ks : list string) : list string :=
  if mem_str k ks then ks else ks ++ [k].

(** the group keys of the requested specialisations, in order *)
Definition spec_keys (codes : list string) : list string :=
  fold_left (fun ks code => add_key (spec_key code) ks) codes [].

(** a container that the first loop of [add_specialisation] takes *)
Definition is_core (a : ContainerSpec) : bool :=
  match c_title a with
  | Some title => PyStr.contains "Core" title
  | None => false
  end.

(** the write a container of a specialisation makes under the group [key] *)
Definition spec_event (key : string) (c : ContainerSpec) : event :=
  NewContainer (container_group key c) (container_title c).

(** where a container of a specialisation is stored: its group and title *)
Definition container_loc (key : string) (c : ContainerSpec) : string * string :=
  (container_group key c, container_title c).

(** *** A handbook whose general education file is empty *)

Module Bare.

Definition flexible : ContainerSpec :=
  mkContainerSpec (Some "Flexible Education") (Some "flexi") (Some 6%Z) Missing None.

Definition programs (code : string) : option Program :=
  if String.eqb code "3502"
  then Some (mkProgram 144 (Some [flexible; Demo.gened; Demo.maturity]))
  else if String.eqb code "3503" then Some (mkProgram 144 None)
  else None.

Definition backend : Backend :=
  {| find_program := programs;
     find_specialisation := fun _ => None;
     regex_search := fun _ => Ok [];
     gened_pool := fun _ => None;
     list_of_set := fun l => l;
     list_of_set_perm := fun l => Permutation_refl l;
     apply_manual_fixes := fun s _ => (Ok tt, s) |}.

(** the structure of program 3502 when its details have been added *)
Definition details_added : state :=
  snd (add_program_code_details (B := backend) "3502" initial).

End Bare.

(** *** A handbook whose course search finds courses *)

Module Search.

(** the level 3 computing courses, found by the prefix of their codes *)
Definition level3 : Dict.t string :=
  [("COMP3121", "Algorithms and Programming Techniques");
   ("COMP3311", "Database Systems")].

Definition backend : Backend :=
  {| find_program := fun _ => None;
     find_specialisation := fun _ => None;
     regex_search := fun pattern =>
       if String.eqb pattern "^COMP3" then Ok level3 else Ok [];
     gened_pool := fun _ => None;
     list_of_set := fun l => l;
     list_of_set_perm := fun l => Permutation_refl l;
     apply_manual_fixes := fun s _ => (Ok tt, s) |}.

(** a container typed as a rule that lists a prefix and two courses *)
Definition level3_rule : ContainerSpec :=
  mkContainerSpec (Some "Level 3 Rule") (Some "level_rule") (Some 12%Z)
    (Val [("COMP3", DStr "any level 3 computing course");
          Demo.comp1511; Demo.comp1521])
    (Some "Complete 12 UOC of level 3 courses").

End Search.

(** a course is a declared core course of a structure: it is listed
    under a container whose title contains "core", letter case ignored,
    in a group whose key contains "Major" or "Honours" *)
Definition declared_core (s : Structure) (c : string) : Prop :=
  exists key group title item,
    In (key, group) s /\
    (PyStr.contains "Major" key = true \/ PyStr.contains "Honours" key = true) /\
    In (title, item) (content group) /\
    PyStr.contains "core" (PyStr.lower title) = true /\
    In c (Dict.keys (courses item)).

(** ** The caches ([cache/cache.py])

    Each function reads JSON files and writes one; the value read is a
    parameter here and the value written is the result. *)

Module Cache.

(** the part of a processed course the caches read; a key may be missing *)
Record CourseData : Type := mkCourseData {
  exclusions : option (Dict.t Z);
  equivalents : option (Dict.t Z)
}.

(** [data[key]] *)
Definition subscript {A} (key : string) (o : option A) : result A :=
  match o with
  | Some a => Ok a
  | None => Raise (KeyError key)
  end.

(** the loop [for course, data in courses.items(): cached[course] = f(data)] *)
Fixpoint cache_by (f : CourseData -> result (Dict.t Z))
    (courses : list (string * CourseData)) (cached : Dict.t (Dict.t Z))
    : result (Dict.t (Dict.t Z)) :=
  match courses with
  | [] => Ok cached
  | (course, data) :: rest =>
      match f data with
      | Raise e => Raise e
      | Ok v => cache_by f rest (Dict.set course v cached)
      end
  end.

Definition cache_equivalents (courses : Dict.t CourseData) : result (Dict.t (Dict.t Z)) :=
  cache_by (fun data => subscript "equivalents" (equivalents data)) courses [].

Definition cache_exclusions (courses : Dict.t CourseData) : result (Dict.t (Dict.t Z)) :=
  cache_by
    (fun data =>
       match subscript "exclusions" (exclusions data) with
       | Raise e => Raise e
       | Ok excl =>
           match subscript "equivalents" (equivalents data) with
           | Raise e => Raise e
           | Ok equiv => Ok (Dict.union excl equiv)
           end
       end)
    courses [].

(** the part of a formatted program [cache_program_mappings] reads *)
Record ProgramEntry : Type := mkProgramEntry {
  title : string;
  code : string
}.

(** [mappings[code][program_code] = 1] *)
Definition put_program (code program_code : string) (mappings : Dict.t (Dict.t Z))
    : result (Dict.t (Dict.t Z)) :=
  match Dict.get code mappings with
  | None => Raise (KeyError code)
  | Some programs => Ok (Dict.set code (Dict.set program_code 1%Z programs) mappings)
  end.

(** [for code in keyword_codes[keyword]: ...] *)
Fixpoint put_codes (codes : list string) (program_code : string)
    (mappings : Dict.t (Dict.t Z)) : result (Dict.t (Dict.t Z)) :=
  match codes with
  | [] => Ok mappings
  | code :: rest =>
      match put_program code program_code mappings with
      | Raise e => Raise e
      | Ok mappings' => put_codes rest program_code mappings'
      end
  end.

Section ProgramMappings.

(** [str.lower], which lowers the letters of every alphabet.  Strings are
    byte sequences here (UTF-8 text, on which the substring test on bytes
    and the one on characters agree), so it is a parameter. *)
Variable lower : string -> string.

(** [keyword.lower() in program["title"].lower()] *)
Definition keyword_in_title (keyword : string) (program : ProgramEntry) : bool :=
  PyStr.contains (lower keyword) (lower (title program)).

(** [for keyword in keyword_codes.keys(): ...] *)
Fixpoint scan_keywords (keyword_codes : list (string * list string))
    (program : ProgramEntry) (mappings : Dict.t (Dict.t Z))
    : result (Dict.t (Dict.t Z)) :=
  match keyword_codes with
  | [] => Ok mappings
  | (keyword, codes) :: rest =>
      if keyword_in_title keyword program
      then match put_codes codes (code program) mappings with
           | Raise e => Raise e
           | Ok mappings' => scan_keywords rest program mappings'
           end
      else scan_keywords rest program mappings
  end.

(** [for program in programs.values(): ...] *)
Fixpoint scan_programs (programs : list ProgramEntry)
    (keyword_codes : list (string * list string)) (mappings : Dict.t (Dict.t Z))
    : result (Dict.t (Dict.t Z)) :=
  match programs with
  | [] => Ok mappings
  | program :: rest =>
      match scan_keywords keyword_codes program mappings with
      | Raise e => Raise e
      | Ok mappings' => scan_programs rest keyword_codes mappings'
      end
  end.

(** [reduce(operator.add, keyword_codes.values())] *)
Definition all_codes (keyword_codes : Dict.t (list string)) : result (list string) :=
  match map snd keyword_codes with
  | [] => Raise TypeError
  | first :: rest => Ok (fold_left (@app string) rest first)
  end.

Definition cache_program_mappings (keyword_codes : Dict.t (list string))
    (programs : list ProgramEntry) : result (Dict.t (Dict.t Z)) :=
  match all_codes keyword_codes with
  | Raise e => Raise e
  | Ok codes =>
      scan_programs programs keyword_codes
        (Dict.of_pairs (map (fun code => (code, [])) codes))
  end.

End ProgramMappings.

(** the programs filed under a code *)
Definition programs_of (mappings : Dict.t (Dict.t Z)) (code : string) : list string :=
  match Dict.get code mappings with
  | Some programs => Dict.keys programs
  | None => []
  end.

End Cache.

(** ** Course lookup ([server/routers/courses.py]) *)

Module Courses.

(** a value held by a course document *)
Inductive value : Type :=
| VNone
| VBool (b : bool)
| VInt (n : Z)
| VStr (s : string)
| VList (l : list value)
| VDict (d : list (string * value)).

Definition doc : Type := Dict.t value.

(** [d.setdefault(k, v)] *)
Definition setdefault (k : string) (v : value) (d : doc) : doc :=
  if Dict.mem k d then d else Dict.set k v d.

(** [del d[k]] *)
Definition del_item (k : string) (d : doc) : result doc :=
  if Dict.mem k d
  then Ok (filter (fun kv => negb (String.eqb k (fst kv))) d)
  else Raise (KeyError k).

(** the truth value of what [find_one] returned: [None] and the empty
    dict are false *)
Definition truthy (res : option doc) : bool :=
  match res with
  | Some (_ :: _) => true
  | _ => false
  end.

(** [str(year)] *)
Definition str (year : Z) : string := NilZero.string_of_int (Z.to_int year).

Fixpoint insert_desc (year : Z) (years : list Z) : list Z :=
  match years with
  | [] => [year]
  | y :: rest =>
      if (y <? year)%Z then year :: years else y :: insert_desc year rest
  end.

(** [sorted(years, reverse=True)] *)
Definition sorted_reverse (years : list Z) : list Z :=
  fold_right insert_desc [] years.

(** [del result["exclusions"]["leftover_plaintext"]] *)
Definition del_leftover (res : doc) : result doc :=
  match Dict.get "exclusions" res with
  | None => Raise (KeyError "exclusions")
  | Some (VDict excl) =>
      match del_item "leftover_plaintext" excl with
      | Raise e => Raise e
      | Ok excl' => Ok (Dict.set "exclusions" (VDict excl') res)
      end
  | Some _ => Raise TypeError
  end.

(** [with suppress(KeyError):] around a statement that changes [res]
    only when it succeeds *)
Definition suppress (res : doc) (r : result doc) : result doc :=
  match r with
  | Raise (KeyError _) => Ok res
  | _ => r
  end.

(** lines 84 to 88 of [get_course], on a document that was found *)
Definition respond (res : doc) : result doc :=
  let res := setdefault "school" VNone res in
  match del_item "_id" res with
  | Raise e => Raise e
  | Ok res => suppress res (del_leftover res)
  end.

(** what the loop over the archives does to the document it finds *)
Definition mark_legacy (res : doc) : doc :=
  Dict.set "is_legacy" (VBool true) (setdefault "raw_requirements" (VStr "") res).

Section Routes.

(** [coursesCOL.find_one({"code": courseCode})] *)
Variable coursesCOL : string -> option doc.
(** [archivesDB[name].find_one({"code": courseCode})] *)
Variable archivesDB : string -> string -> option doc.
Variable ARCHIVED_YEARS : list Z.

(** the loop of [get_course] over the archived years; [res] is the value
    of the variable [result] when the loop is entered *)
Fixpoint search_archives (years : list Z) (courseCode : string)
    (res : option doc) : option doc :=
  match years with
  | [] => res
  | year :: rest =>
      match archivesDB (str year) courseCode with
      | Some found => Some (mark_legacy found)
      | None => search_archives rest courseCode None
      end
  end.

Definition get_course (courseCode : string) : result doc :=
  let res :=
    match coursesCOL courseCode with
    | Some ((_ :: _) as live) => Some (Dict.set "is_legacy" (VBool false) live)
    | res => search_archives (sorted_reverse ARCHIVED_YEARS) courseCode res
    end in
  match res with
  | Some ((_ :: _) as res) => respond res
  | _ => Raise (HTTPException 400
                  ("Course code " ++ courseCode ++ " was not found")%string)
  end.

Definition get_legacy_course (year courseCode : string) : result doc :=
  match archivesDB year courseCode with
  | Some ((_ :: _) as res) =>
      match del_item "_id" res with
      | Raise e => Raise e
      | Ok res => Ok (Dict.set "is_legacy" (VBool true) res)
      end
  | _ => Raise (HTTPException 400 "invalid course code or year")
  end.

End Routes.

End Courses.

(** a small database: one live course, one course found in two archived
    years only *)
Module CourseDemo.

Import Courses.

Definition comp1511 : doc :=
  [("_id", VInt 1); ("code", VStr "COMP1511");
   ("exclusions",
    VDict [("DPST1091", VInt 1); ("leftover_plaintext", VStr "")])].

Definition engg1000_2019 : doc :=
  [("_id", VInt 7); ("code", VStr "ENGG1000"); ("terms", VList [VStr "T1"])].

Definition engg1000_2020 : doc :=
  [("_id", VInt 9); ("code", VStr "ENGG1000");
   ("terms", VList [VStr "T1"; VStr "T3"])].

Definition coursesCOL (courseCode : string) : option doc :=
  if String.eqb courseCode "COMP1511" then Some comp1511 else None.

Definition archivesDB (name courseCode : string) : option doc :=
  if String.eqb courseCode "ENGG1000"
  then if String.eqb name "2020" then Some engg1000_2020
       else if String.eqb name "2019" then Some engg1000_2019
       else None
  else None.

Definition ARCHIVED_YEARS : list Z := [2019; 2021; 2020]%Z.

(** the answers for the two courses *)
Definition comp1511_out : doc :=
  [("code", VStr "COMP1511");
   ("exclusions", VDict [("DPST1091", VInt 1)]);
   ("is_legacy", VBool false);
   ("school", VNone)].

Definition engg1000_out : doc :=
  [("code", VStr "ENGG1000");
   ("terms", VList [VStr "T1"; VStr "T3"]);
   ("raw_requirements", VStr "");
   ("is_legacy", VBool true);
   ("school", VNone)].

Definition engg1000_legacy : doc :=
  [("code", VStr "ENGG1000");
   ("terms", VList [VStr "T1"; VStr "T3"]);
   ("is_legacy", VBool true)].

End CourseDemo.

(** ** The processor driver ([runprocessors.py]) *)

Module Driver.

(** the functions registered in [run] *)
Inductive processor : Type :=
| scrape_prg_data | format_prg_data | process_prg_data
| scrape_spn_data | format_spn_data | customise_spn_data
| scrape_course_data | format_course_data | process_course_data.

Definition run : Dict.t (Dict.t processor) :=
  [("program",
    [("scrape", scrape_prg_data);
     ("format", format_prg_data);
     ("process", process_prg_data)]);
   ("specialisation",
    [("scrape", scrape_spn_data);
     ("format", format_spn_data);
     ("process", customise_spn_data)]);
   ("course",
    [("scrape", scrape_course_data);
     ("format", format_course_data);
     ("process", process_course_data)])].

(** how the script ends *)
Inductive outcome : Type :=
| Returned
| Exited
| Raised (e : exn).

(** [arg == s] for a command line argument that may be [None] *)
Definition arg_is (arg : option string) (s : string) : bool :=
  match arg with
  | Some a => String.eqb a s
  | None => false
  end.

(** [d[arg]] for a key that may be [None]; no dict here has the key
    [None] *)
Definition lookup {V} (arg : option string) (d : Dict.t V) : option V :=
  match arg with
  | Some a => Dict.get a d
  | None => None
  end.

(** the key a failed lookup reports *)
Definition key (arg : option string) : string :=
  match arg with
  | Some a => a
  | None => "None"
  end.

Section Main.

(** what calling a registered function does *)
Variable call : processor -> result unit.

(** a loop over the stages of one type that calls the function of every
    stage [keep] accepts; the log lists the functions called so far *)
Fixpoint for_stages (keep : string -> bool) (stages : list (string * processor))
    (log : list processor) : outcome * list processor :=
  match stages with
  | [] => (Returned, log)
  | (stage, function) :: rest =>
      if keep stage
      then match call function with
           | Ok _ => for_stages keep rest (log ++ [function])
           | Raise e => (Raised e, log ++ [function])
           end
      else for_stages keep rest log
  end.

(** [for t, type in run.items(): for stage, function in type.items(): ...] *)
Fixpoint for_types (keep : string -> bool)
    (types : list (string * Dict.t processor)) (log : list processor)
    : outcome * list processor :=
  match types with
  | [] => (Returned, log)
  | (t, type) :: rest =>
      match for_stages keep type log with
      | (Returned, log') => for_types keep rest log'
      | stopped => stopped
      end
  end.

(** [for s in run[args.type]: run[args.type][s]()] *)
Definition all_stages (type : option string) : outcome * list processor :=
  match lookup type run with
  | None => (Raised (KeyError (key type)), [])
  | Some stages => for_stages (fun _ => true) stages []
  end.

(** [try: run[args.type][args.stage]() except KeyError: ...] *)
Definition one_stage (type stage : option string) : outcome * list processor :=
  match lookup type run with
  | None => (Returned, [])
  | Some stages =>
      match lookup stage stages with
      | None => (Returned, [])
      | Some function =>
          match call function with
          | Ok _ => (Returned, [function])
          | Raise (KeyError _) => (Returned, [function])
          | Raise e => (Raised e, [function])
          end
      end
  end.

(** the script, from the two arguments and the answer typed at the one
    prompt it may show *)
Definition main (type stage : option string) (answer : string)
    : outcome * list processor :=
  match
    match type, stage with
    | None, None =>
        if String.eqb answer "y" then Some (Some "data-fix", Some "all") else None
    | _, _ => Some (type, stage)
    end
  with
  | None => (Exited, [])
  | Some (type, stage) =>
      if arg_is type "data-fix" && arg_is stage "all"
      then for_types (fun stage => negb (String.eqb stage "scrape")) run []
      else if arg_is stage "all"
      then
        if existsb (arg_is type) ["program"; "specialisation"; "course"; "gened"]
        then if String.eqb answer "y" then all_stages type else (Returned, [])
        else all_stages type
      else one_stage type stage
  end.

End Main.

Definition is_scraper (function : processor) : bool :=
  match function with
  | scrape_prg_data | scrape_spn_data | scrape_course_data => true
  | _ => false
  end.

End Driver.

(** ** Properties of the prerequisite graph *)

Lemma mem_str_In : forall x l, mem_str x l = true <-> In x l.
Proof.
  intros x l. unfold mem_str. rewrite existsb_exists. split.
  - intros [y [Hin Heq]]. apply String.eqb_eq in Heq. now subst.
  - intros Hin. exists x. split; [assumption | apply String.eqb_refl].
Qed.

Lemma edges_of_some : forall o cs,
  edges_of (Some o) cs = Ok (map (fun c => mkEdge c o) cs).
Proof.
  intros o cs. induction cs as [|c cs IH]; simpl.
  - reflexivity.
  - now rewrite IH.
Qed.

Lemma proto_edges_well_keyed : forall pes,
  forallb well_keyed pes = true ->
  proto_edges_to_edges pes = Ok (specified_edges pes).
Proof.
  induction pes as [|pe pes IH]; simpl; intros H.
  - reflexivity.
  - apply andb_true_iff in H. destruct H as [Hpe Hrest].
    specialize (IH Hrest).
    destruct pe as [[o|] [| |[|c cs]]]; simpl in *; try discriminate;
      try assumption.
    rewrite edges_of_some, IH. reflexivity.
Qed.

Lemma proto_edges_ok_well_keyed : forall pes es,
  proto_edges_to_edges pes = Ok es -> forallb well_keyed pes = true.
Proof.
  induction pes as [|pe pes IH]; simpl; intros es H.
  - reflexivity.
  - destruct pe as [[o|] [| |[|c cs]]]; simpl in *; try discriminate;
      try (now apply IH with es).
    rewrite edges_of_some in H.
    destruct (proto_edges_to_edges pes) as [es'|]; [|discriminate].
    now apply IH with es'.
Qed.

Lemma specified_edges_mentioned : forall pes e,
  In e (specified_edges pes) ->
  In (source e) (mentioned_courses pes) /\ In (target e) (mentioned_courses pes).
Proof.
  induction pes as [|pe pes IH]; simpl; intros e H.
  - contradiction.
  - apply in_app_or in H. destruct H as [H|H].
    + destruct pe as [[o|] [| |cs]]; simpl in *; try contradiction.
      apply in_map_iff in H. destruct H as [c [<- Hc]]. simpl.
      split; [right; apply in_or_app; left; assumption | now left].
    + destruct (IH e H) as [Hs Ht].
      split; apply in_or_app; right; assumption.
Qed.

Lemma filter_all : forall (A : Type) (p : A -> bool) (l : list A),
  (forall x, In x l -> p x = true) -> filter p l = l.
Proof.
  intros A p l. induction l as [|x l IH]; simpl; intros H.
  - reflexivity.
  - rewrite (H x (or_introl eq_refl)). f_equal. apply IH. intros y Hy.
    apply H. now right.
Qed.

(** C4 (amended).  [proto_edges_to_edges] returns, for each proto-edge
    whose courses list is not empty, one edge from each prerequisite to the
    original, in input order; a proto-edge that is the empty mapping, or
    whose courses value is empty or [None], contributes no edge.  A
    proto-edge that has other keys but no "courses" key is not skipped: the
    call raises [KeyError]. *)
Theorem proto_edges_to_edges_spec : forall pes,
  (forallb well_keyed pes = true ->
   proto_edges_to_edges pes = Ok (specified_edges pes)) /\
  (forall pre pe post,
     pes = pre ++ pe :: post ->
     forallb well_keyed pre = true ->
     proto_edge_empty pe = false ->
     pe_courses pe = Missing ->
     proto_edges_to_edges pes = Raise (KeyError "courses")).
Proof.
  intros pes. split.
  - apply proto_edges_well_keyed.
  - intros pre pe post -> Hpre Hne Hmiss.
    induction pre as [|p pre IH]; simpl in *.
    + rewrite Hne, Hmiss. reflexivity.
    + apply andb_true_iff in Hpre. destruct Hpre as [Hp Hpre].
      specialize (IH Hpre). rewrite IH.
      destruct p as [[o|] [| |[|c cs]]]; simpl in *; try discriminate;
        try reflexivity.
      now rewrite edges_of_some.
Qed.

Lemma proto_edges_to_edges_spec_witness :
  proto_edges_to_edges
    [mkProtoEdge (Some "COMP2521") (Val ["COMP1511"; "COMP1521"]);
     mkProtoEdge None Missing;
     mkProtoEdge (Some "COMP1511") (Val [])]
  = Ok [mkEdge "COMP1511" "COMP2521"; mkEdge "COMP1521" "COMP2521"].
Proof.
  exact (proj1 (proto_edges_to_edges_spec
                  [mkProtoEdge (Some "COMP2521") (Val ["COMP1511"; "COMP1521"]);
                   mkProtoEdge None Missing;
                   mkProtoEdge (Some "COMP1511") (Val [])]) eq_refl).
Defined.

(** C4, as stated, fails: a proto-edge with an original and no courses
    key does not contribute the empty list of edges, the call raises. *)
Lemma proto_edges_absent_courses_raises :
  proto_edges_to_edges [mkProtoEdge (Some "COMP2521") Missing]
    = Raise (KeyError "courses") /\
  proto_edges_to_edges [mkProtoEdge (Some "COMP2521") Missing]
    <> Ok (specified_edges [mkProtoEdge (Some "COMP2521") Missing]).
Proof.
  split; [reflexivity | discriminate].
Qed.

(** C8.  Pruning the edges built from a sequence of proto-edges against
    all the course codes the proto-edges mention returns every edge,
    unchanged and in order; the edges are built unless some proto-edge
    lacks a key that is read. *)
Theorem prune_edges_retains_all : forall pes,
  match proto_edges_to_edges pes with
  | Ok es => prune_edges es (mentioned_courses pes) = es
  | Raise _ => forallb well_keyed pes = false
  end.
Proof.
  intros pes. destruct (proto_edges_to_edges pes) as [es|e] eqn:E.
  - pose proof (proto_edges_ok_well_keyed _ E) as Hwk.
    rewrite (proto_edges_well_keyed _ Hwk) in E. injection E as <-.
    unfold prune_edges. apply filter_all. intros edge Hin.
    destruct (specified_edges_mentioned _ _ Hin) as [Hs Ht].
    apply andb_true_iff. split; apply mem_str_In; assumption.
  - destruct (forallb well_keyed pes) eqn:Hwk; [|reflexivity].
    rewrite (proto_edges_well_keyed _ Hwk) in E. discriminate.
Qed.

(** ** Facts about dictionaries *)

Module DictFacts.

Section Facts.
Variable V : Type.
Implicit Types (d : Dict.t V) (k : string) (v : V).

Lemma keys_set : forall d k v k',
  In k' (Dict.keys (Dict.set k v d)) <-> k' = k \/ In k' (Dict.keys d).
Proof.
  induction d as [|[k0 v0] d IH]; simpl; intros k v k'.
  - intuition.
  - destruct (String.eqb_spec k k0) as [->|Hne]; simpl.
    + intuition.
    + rewrite IH. intuition.
Qed.

Lemma in_set : forall d k v k' v',
  In (k', v') (Dict.set k v d) -> (k' = k /\ v' = v) \/ In (k', v') d.
Proof.
  induction d as [|[k0 v0] d IH]; simpl; intros k v k' v' H.
  - destruct H as [H|[]]. injection H as <- <-. now left.
  - destruct (String.eqb_spec k k0) as [->|Hne]; simpl in H.
    + destruct H as [H|H]; [injection H as <- <-; now left | right; now right].
    + destruct H as [H|H]; [right; now left|].
      destruct (IH _ _ _ _ H) as [?|?]; [now left | right; now right].
Qed.

Lemma get_set_same : forall d k v, Dict.get k (Dict.set k v d) = Some v.
Proof.
  induction d as [|[k0 v0] d IH]; simpl; intros k v.
  - now rewrite String.eqb_refl.
  - destruct (String.eqb_spec k k0) as [->|Hne]; simpl.
    + now rewrite String.eqb_refl.
    + apply String.eqb_neq in Hne. rewrite Hne. apply IH.
Qed.

Lemma get_set_other : forall d k v k',
  k' <> k -> Dict.get k' (Dict.set k v d) = Dict.get k' d.
Proof.
  induction d as [|[k0 v0] d IH]; simpl; intros k v k' Hne.
  - apply String.eqb_neq in Hne. now rewrite Hne.
  - destruct (String.eqb_spec k k0) as [->|Hne0]; simpl.
    + apply String.eqb_neq in Hne. now rewrite Hne.
    + destruct (String.eqb k' k0); [reflexivity | now apply IH].
Qed.

Lemma get_in : forall d k v, Dict.get k d = Some v -> In (k, v) d.
Proof.
  induction d as [|[k0 v0] d IH]; simpl; intros k v H.
  - discriminate.
  - destruct (String.eqb_spec k k0) as [->|Hne].
    + injection H as ->. now left.
    + right. now apply IH.
Qed.

Lemma get_none : forall d k, Dict.get k d = None <-> ~ In k (Dict.keys d).
Proof.
  induction d as [|[k0 v0] d IH]; simpl; intros k.
  - intuition.
  - destruct (String.eqb_spec k k0) as [->|Hne].
    + split; [discriminate | intros H; exfalso; apply H; now left].
    + rewrite IH. intuition congruence.
Qed.

Lemma get_some_key : forall d k,
  In k (Dict.keys d) -> exists v, Dict.get k d = Some v.
Proof.
  intros d k Hin. destruct (Dict.get k d) as [v|] eqn:E.
  - now exists v.
  - apply get_none in E. contradiction.
Qed.

Lemma set_fresh : forall d k v,
  ~ In k (Dict.keys d) -> Dict.set k v d = d ++ [(k, v)].
Proof.
  induction d as [|[k0 v0] d IH]; simpl; intros k v Hnin.
  - reflexivity.
  - destruct (String.eqb_spec k k0) as [->|Hne].
    + exfalso. apply Hnin. now left.
    + f_equal. apply IH. intros H. apply Hnin. now right.
Qed.

Lemma set_set : forall d k v v',
  Dict.set k v' (Dict.set k v d) = Dict.set k v' d.
Proof.
  induction d as [|[k0 v0] d IH]; simpl; intros k v v'.
  - now rewrite String.eqb_refl.
  - destruct (String.eqb_spec k k0) as [->|Hne]; simpl.
    + now rewrite String.eqb_refl.
    + apply String.eqb_neq in Hne. rewrite Hne. now rewrite IH.
Qed.

Lemma keys_union : forall (new rest : Dict.t V) k,
  In k (Dict.keys (Dict.union rest new)) <->
  In k (Dict.keys rest) \/ In k (map fst new).
Proof.
  unfold Dict.union.
  induction new as [|[k0 v0] new IH]; simpl; intros rest k.
  - intuition.
  - rewrite IH, keys_set. intuition.
Qed.

Lemma keys_of_pairs : forall (l : list (string * V)) k,
  In k (Dict.keys (Dict.of_pairs l)) <-> In k (map fst l).
Proof.
  intros l k. unfold Dict.of_pairs. rewrite keys_union. simpl. intuition.
Qed.

End Facts.

End DictFacts.

(** ** Properties of the subgroup resolver *)

Lemma skipn_nth_error : forall (A : Type) (l : list A) i d,
  nth_error l i = Some d -> skipn i l = d :: skipn (S i) l.
Proof.
  intros A l. induction l as [|x l IH]; intros [|i] d H; simpl in *;
    try discriminate.
  - now injection H as ->.
  - now apply IH.
Qed.

Section Resolver.

Context {B : Backend}.

Lemma zip_codes_ok : forall codes index l acc,
  List.length codes + index <= List.length l ->
  zip_codes codes index l acc =
    Ok (Dict.union acc (combine codes (map DStr (skipn index l)))).
Proof.
  induction codes as [|c codes IH]; simpl; intros index l acc Hlen.
  - reflexivity.
  - destruct (nth_error l index) as [d|] eqn:E.
    + rewrite IH by lia. rewrite (skipn_nth_error _ _ E). reflexivity.
    + apply nth_error_None in E. lia.
Qed.

Lemma zip_codes_short : forall codes index l acc,
  index <= List.length l ->
  List.length l < List.length codes + index ->
  zip_codes codes index l acc = Raise IndexError.
Proof.
  induction codes as [|c codes IH]; simpl; intros index l acc Hle Hlen.
  - lia.
  - destruct (nth_error l index) as [d|] eqn:E.
    + assert (index < List.length l) by (apply nth_error_Some; congruence).
      apply IH; lia.
    + reflexivity.
Qed.

Lemma convert_disjunction : forall object l,
  PyStr.contains " or " object = true ->
  convert_subgroup_object_to_courses_dict object (DList l) =
    zip_codes (PyStr.split object " or ") 0 l [].
Proof.
  intros object l H. unfold convert_subgroup_object_to_courses_dict.
  now rewrite H.
Qed.

Lemma convert_otherwise : forall object description,
  PyStr.contains " or " object = false \/ (exists s, description = DStr s) ->
  convert_subgroup_object_to_courses_dict object description =
    if negb (PyStr.match_course_code object)
    then match regex_search ("^" ++ object) with
         | Ok d => Ok (titles d)
         | Raise e => Raise e
         end
    else Ok [(object, description)].
Proof.
  intros object description H. unfold convert_subgroup_object_to_courses_dict.
  destruct H as [H|[s ->]].
  - now rewrite H.
  - now destruct (PyStr.contains " or " object).
Qed.

Lemma map_fst_combine : forall (A C : Type) (l : list A) (l' : list C),
  List.length l <= List.length l' -> map fst (combine l l') = l.
Proof.
  intros A C l. induction l as [|x l IH]; intros [|y l'] H; simpl in *;
    try reflexivity; try lia.
  f_equal. apply IH. lia.
Qed.

Lemma combine_firstn_r : forall (A C : Type) (l : list A) (l' : list C),
  combine l (firstn (List.length l) l') = combine l l'.
Proof.
  intros A C l. induction l as [|x l IH]; intros [|y l']; simpl;
    try reflexivity.
  f_equal. apply IH.
Qed.

End Resolver.

Lemma keys_titles : forall (d : Dict.t string), Dict.keys (titles d) = Dict.keys d.
Proof.
  intros d. unfold titles, Dict.keys. rewrite map_map. reflexivity.
Qed.

Lemma get_titles : forall (d : Dict.t string) c,
  Dict.get c (titles d) = option_map DStr (Dict.get c d).
Proof.
  intros d c. induction d as [|[k v] d IH]; simpl.
  - reflexivity.
  - destruct (String.eqb c k); [reflexivity | exact IH].
Qed.

(** C6.  [convert_subgroup_object_to_courses_dict] dispatches three ways:
    on an object with " or " and a list of descriptions it zips the codes
    split on " or " with the descriptions, one for one (every code having
    its description); otherwise, on an object that does not match the
    course code pattern, it returns the mapping the course search yields
    for the object anchored at the start: the same codes in the same
    order, each with the title found, and it fails as the search fails;
    otherwise the single entry mapping. *)
Theorem convert_dispatch : forall (B : Backend) object description,
  (forall l,
     PyStr.contains " or " object = true ->
     description = DList l ->
     List.length (PyStr.split object " or ") <= List.length l ->
     convert_subgroup_object_to_courses_dict object description =
       Ok (Dict.of_pairs (combine (PyStr.split object " or ") (map DStr l)))) /\
  (PyStr.contains " or " object = false \/ (exists s, description = DStr s) ->
   PyStr.match_course_code object = false ->
   match regex_search ("^" ++ object) with
   | Ok found =>
       exists cs,
         convert_subgroup_object_to_courses_dict object description = Ok cs /\
         Dict.keys cs = Dict.keys found /\
         (forall code,
            Dict.get code cs = option_map DStr (Dict.get code found)) /\
         (forall code title, In (code, title) found <-> In (code, DStr title) cs)
   | Raise e =>
       convert_subgroup_object_to_courses_dict object description = Raise e
   end) /\
  (PyStr.contains " or " object = false \/ (exists s, description = DStr s) ->
   PyStr.match_course_code object = true ->
   convert_subgroup_object_to_courses_dict object description =
     Ok [(object, description)]).
Proof.
  intros B object description. repeat split.
  - intros l Hor -> Hlen. rewrite convert_disjunction by exact Hor.
    rewrite zip_codes_ok by lia. reflexivity.
  - intros H Hm. rewrite convert_otherwise by exact H. rewrite Hm.
    cbn [negb]. cbv iota.
    destruct (regex_search ("^" ++ object)) as [found|e]; [|reflexivity].
    exists (titles found). split; [reflexivity|].
    split; [apply keys_titles|]. split; [apply get_titles|].
    intros code title. unfold titles. rewrite in_map_iff. split.
    + intros Hin. now exists (code, title).
    + intros [[k v] [Heq Hin]]. simpl in Heq. now injection Heq as -> ->.
  - intros H Hm. rewrite convert_otherwise by exact H. rewrite Hm. reflexivity.
Qed.

Lemma convert_dispatch_witness :
  convert_subgroup_object_to_courses_dict (B := Demo.backend)
    "COMP1511 or COMP1911" (DList ["Programming Fundamentals"; "Computing 1A"])
    = Ok [("COMP1511", DStr "Programming Fundamentals");
          ("COMP1911", DStr "Computing 1A")] /\
  (exists cs,
     convert_subgroup_object_to_courses_dict (B := Search.backend)
       "COMP3" (DStr "any level 3 computing course") = Ok cs /\
     Dict.keys cs = ["COMP3121"; "COMP3311"] /\
     Dict.get "COMP3311" cs = Some (DStr "Database Systems")) /\
  convert_subgroup_object_to_courses_dict (B := Demo.backend)
    "COMP1511" (DStr "Programming Fundamentals")
    = Ok [("COMP1511", DStr "Programming Fundamentals")].
Proof.
  split; [|split].
  - exact (proj1 (convert_dispatch Demo.backend "COMP1511 or COMP1911"
                    (DList ["Programming Fundamentals"; "Computing 1A"]))
             ["Programming Fundamentals"; "Computing 1A"]
             eq_refl eq_refl (le_n 2)).
  - destruct (proj1 (proj2 (convert_dispatch Search.backend "COMP3"
                              (DStr "any level 3 computing course")))
                (or_introl eq_refl) eq_refl) as [cs [Hrun [Hkeys [Hget _]]]].
    exists cs. split; [exact Hrun|]. split; [exact Hkeys|]. apply Hget.
  - exact (proj2 (proj2 (convert_dispatch Demo.backend "COMP1511"
                           (DStr "Programming Fundamentals")))
             (or_introl eq_refl) eq_refl).
Defined.

(** C9.  With " or " in the object and a list of descriptions shorter
    than the list of codes, the resolver fails with [IndexError]; with a
    longer list the surplus descriptions are dropped and the mapping has
    exactly the split codes as keys. *)
Theorem convert_mismatched_lengths : forall (B : Backend) object l,
  PyStr.contains " or " object = true ->
  (List.length l < List.length (PyStr.split object " or ") ->
   convert_subgroup_object_to_courses_dict object (DList l) = Raise IndexError) /\
  (List.length (PyStr.split object " or ") < List.length l ->
   exists d,
     convert_subgroup_object_to_courses_dict object (DList l) = Ok d /\
     convert_subgroup_object_to_courses_dict object
       (DList (firstn (List.length (PyStr.split object " or ")) l)) = Ok d /\
     forall c, In c (Dict.keys d) <-> In c (PyStr.split object " or ")).
Proof.
  intros B object l Hor. split; intros Hlen.
  - rewrite convert_disjunction by exact Hor. apply zip_codes_short; lia.
  - exists (Dict.of_pairs (combine (PyStr.split object " or ") (map DStr l))).
    rewrite !convert_disjunction by exact Hor. repeat split.
    + rewrite zip_codes_ok by lia. reflexivity.
    + rewrite zip_codes_ok by (rewrite length_firstn; lia).
      simpl. rewrite <- firstn_map, combine_firstn_r. reflexivity.
    + intros Hin. apply (proj1 (DictFacts.keys_of_pairs _ _)) in Hin.
      rewrite map_fst_combine in Hin by (rewrite length_map; lia). assumption.
    + intros Hin. apply (proj2 (DictFacts.keys_of_pairs _ _)).
      rewrite map_fst_combine by (rewrite length_map; lia). assumption.
Qed.

Lemma convert_mismatched_lengths_witness :
  convert_subgroup_object_to_courses_dict (B := Demo.backend)
    "COMP1511 or COMP1911" (DList ["Programming Fundamentals"])
    = Raise IndexError.
Proof.
  exact (proj1 (convert_mismatched_lengths Demo.backend "COMP1511 or COMP1911"
                  ["Programming Fundamentals"] eq_refl) (le_n 2)).
Defined.

(** ** Properties of the course list extractor *)

Lemma search_cons : forall k v rest,
  recursive_course_search (PDict ((k, v) :: rest)) =
    match rule_probe v with
    | Fail e => Raise e
    | Skip => recursive_course_search (PDict rest)
    | Go =>
        match recursive_course_search v with
        | Raise e => Raise e
        | Ok below =>
            match recursive_course_search (PDict rest) with
            | Raise e => Raise e
            | Ok after =>
                Ok ((if PyStr.contains "courses" k then pykeys v else [])
                      ++ below ++ after)
            end
        end
    end.
Proof. reflexivity. Qed.

Lemma get_map : forall (V W : Type) (f : V -> W) (d : Dict.t V) k,
  Dict.get k (map (fun kv => (fst kv, f (snd kv))) d) = option_map f (Dict.get k d).
Proof.
  intros V W f d k. induction d as [|[k0 v0] d IH]; simpl.
  - reflexivity.
  - destruct (String.eqb k k0); [reflexivity | apply IH].
Qed.

Lemma keys_map : forall (V W : Type) (f : V -> W) (d : Dict.t V),
  Dict.keys (map (fun kv => (fst kv, f (snd kv))) d) = Dict.keys d.
Proof.
  intros V W f d. unfold Dict.keys. rewrite map_map. reflexivity.
Qed.

Lemma existsb_is_str : forall s l,
  existsb (is_str s) (map PStr l) = mem_str s l.
Proof.
  intros s l. unfold mem_str. induction l as [|x l IH]; simpl.
  - reflexivity.
  - now rewrite IH.
Qed.

Lemma probe_description : forall d, rule_probe (py_of_description d) = Skip.
Proof. now intros [s|l]. Qed.

Lemma probe_courses : forall cs,
  rule_probe (py_of_courses cs) = if courses_skipped cs then Skip else Go.
Proof.
  intros cs. unfold py_of_courses, courses_skipped. simpl.
  rewrite get_map. destruct (Dict.get "type" cs) as [[t|l]|]; simpl.
  - reflexivity.
  - now rewrite existsb_is_str.
  - reflexivity.
Qed.

Lemma probe_content : forall c,
  rule_probe (py_of_content c) = if PyStr.contains "rule" (type c) then Skip else Go.
Proof. reflexivity. Qed.

Lemma probe_contents : forall (cont : Dict.t ContainerContent),
  rule_probe (PDict (map (fun kv => (fst kv, py_of_content (snd kv))) cont)) = Go.
Proof.
  intros cont. simpl. rewrite get_map.
  now destruct (Dict.get "type" cont).
Qed.

Lemma probe_group : forall g, rule_probe (py_of_group g) = Go.
Proof. reflexivity. Qed.

Lemma search_courses : forall cs,
  recursive_course_search (py_of_courses cs) = Ok [].
Proof.
  unfold py_of_courses. induction cs as [|[k d] cs IH]; simpl map.
  - reflexivity.
  - rewrite search_cons, probe_description. exact IH.
Qed.

Lemma search_content : forall c,
  recursive_course_search (py_of_content c) =
    Ok (if courses_skipped (courses c) then [] else Dict.keys (courses c)).
Proof.
  intros c. unfold py_of_content.
  rewrite search_cons. simpl rule_probe.
  rewrite search_cons, probe_courses.
  destruct (courses_skipped (courses c)).
  - reflexivity.
  - rewrite search_courses. simpl.
    unfold py_of_courses. rewrite keys_map, app_nil_r. reflexivity.
Qed.

Lemma search_contents : forall (cont : Dict.t ContainerContent),
  recursive_course_search
    (PDict (map (fun kv => (fst kv, py_of_content (snd kv))) cont)) =
    Ok (flat_map (fun kv => container_list (fst kv) (snd kv)) cont).
Proof.
  induction cont as [|[title c] cont IH]; simpl map.
  - reflexivity.
  - rewrite search_cons, probe_content. simpl flat_map. simpl fst. simpl snd.
    unfold container_list at 1.
    destruct (PyStr.contains "rule" (type c)).
    + exact IH.
    + rewrite search_content, IH. simpl pykeys.
      rewrite app_assoc. reflexivity.
Qed.

Lemma search_group : forall g,
  recursive_course_search (py_of_group g) =
    Ok (flat_map (fun kv => container_list (fst kv) (snd kv)) (content g)).
Proof.
  intros g. unfold py_of_group.
  rewrite search_cons. simpl rule_probe.
  rewrite search_cons, probe_contents, search_contents. simpl.
  now rewrite app_nil_r.
Qed.

Lemma course_list_typed : forall s,
  course_list_from_structure s = Ok (structure_list s).
Proof.
  unfold course_list_from_structure, py_of_structure, structure_list.
  induction s as [|[key g] s IH]; simpl map.
  - reflexivity.
  - rewrite search_cons, probe_group, search_group, IH. simpl.
    unfold group_list at 1. simpl. rewrite app_assoc. reflexivity.
Qed.

(** C5 (amended).  [course_list_from_structure] walks the structure depth
    first in insertion order and skips every mapping whose type field
    contains "rule"; under a key containing "courses" it appends every key
    of the mapping and then enters the mapping like any other, which adds
    nothing for a courses mapping (its values are strings and lists) and
    adds the courses of a container whose title contains "courses" after
    the names of its four fields.  Course codes are not deduplicated. *)
Theorem course_list_from_structure_spec : forall s,
  course_list_from_structure s = Ok (structure_list s) /\
  (forall key g s',
     course_list_from_structure ((key, g) :: s') =
       match course_list_from_structure s' with
       | Ok after => Ok (group_list key g ++ after)
       | Raise e => Raise e
       end) /\
  (forall title c,
     PyStr.contains "rule" (type c) = false ->
     PyStr.contains "courses" title = true ->
     courses_skipped (courses c) = false ->
     container_list title c = container_fields ++ Dict.keys (courses c)).
Proof.
  intros s. split; [apply course_list_typed | split].
  - intros key g s'. rewrite !course_list_typed. reflexivity.
  - intros title c Hr Ht Hs. unfold container_list. now rewrite Hr, Ht, Hs.
Qed.

Lemma course_list_from_structure_spec_witness :
  container_list "Elective courses"
    (mkContainerContent 6 [Demo.comp1511] "elective" "")
  = ["UOC"; "courses"; "type"; "notes"; "COMP1511"].
Proof.
  exact (proj2 (proj2 (course_list_from_structure_spec []))
           "Elective courses" (mkContainerContent 6 [Demo.comp1511] "elective" "")
           eq_refl eq_refl eq_refl).
Defined.

(** C5, as stated, fails: the mapping reached under a key containing
    "courses" is entered after its keys are appended. *)
Lemma course_list_enters_courses_key :
  let s := structure (snd (get_structure_course_list (B := Demo.backend)
                             "3778" (Some "COMPC1"))) in
  course_list_from_structure s
    = Ok ["UOC"; "courses"; "type"; "notes"; "COMP1511"] /\
  spec_course_search (py_of_structure s)
    = Ok ["UOC"; "courses"; "type"; "notes"] /\
  course_list_from_structure s <> spec_course_search (py_of_structure s).
Proof.
  split; [reflexivity | split; [reflexivity | discriminate]].
Qed.

(** ** Running computations on the structure *)

Lemma bind_inv : forall (A C : Type) (m : M A) (f : A -> M C) st r st',
  bind m f st = (r, st') ->
  (exists a st1, m st = (Ok a, st1) /\ f a st1 = (r, st')) \/
  (exists e, m st = (Raise e, st') /\ r = Raise e).
Proof.
  intros A C m f st r st' H. unfold bind in H.
  destruct (m st) as [[a|e] st1].
  - left. now exists a, st1.
  - right. exists e. now injection H as <- <-.
Qed.

Lemma bind_ok : forall (A C : Type) (m : M A) (f : A -> M C) st c st',
  bind m f st = (Ok c, st') ->
  exists a st1, m st = (Ok a, st1) /\ f a st1 = (Ok c, st').
Proof.
  intros A C m f st c st' H. apply bind_inv in H.
  destruct H as [H|[e [_ H]]]; [assumption | discriminate].
Qed.

Lemma preserves_ret : forall (A : Type) (I : state -> Prop) (a : A),
  preserves I (ret a).
Proof. intros A I a st r st' H. now injection H as _ <-. Qed.

Lemma preserves_raise : forall (A : Type) (I : state -> Prop) e,
  preserves I (@raise A e).
Proof. intros A I e st r st' H. now injection H as _ <-. Qed.

Lemma preserves_lift : forall (A : Type) (I : state -> Prop) (x : result A),
  preserves I (lift x).
Proof. intros A I x st r st' H. now injection H as _ <-. Qed.

Lemma preserves_bind : forall (A C : Type) (I : state -> Prop) (m : M A) (f : A -> M C),
  preserves I m -> (forall a, preserves I (f a)) -> preserves I (bind m f).
Proof.
  intros A C I m f Hm Hf st r st' H HI. apply bind_inv in H.
  destruct H as [[a [st1 [H1 H2]]]|[e [H1 _]]].
  - apply (Hf a _ _ _ H2). apply (Hm _ _ _ H1 HI).
  - apply (Hm _ _ _ H1 HI).
Qed.

Lemma preserves_suppress : forall (I : state -> Prop) (m : M unit),
  preserves I m -> preserves I (suppress_KeyError m).
Proof.
  intros I m Hm st r st' H HI. unfold suppress_KeyError in H.
  destruct (m st) as [[[]|e] st1] eqn:E.
  - injection H as _ <-. apply (Hm _ _ _ E HI).
  - destruct e; injection H as _ <-; apply (Hm _ _ _ E HI).
Qed.

Section Preservation.

Context {B : Backend}.

Lemma preserves_for_each : forall (A : Type) (I : state -> Prop) (f : A -> M unit) l,
  (forall a, In a l -> preserves I (f a)) -> preserves I (for_each f l).
Proof.
  intros A I f l. induction l as [|a l IH]; simpl; intros H.
  - apply preserves_ret.
  - apply preserves_bind.
    + apply H. now left.
    + intros _. apply IH. intros a' Ha'. apply H. now right.
Qed.

Lemma add_specialisations_requested : forall spec,
  add_specialisations spec = for_each add_specialisation (requested spec).
Proof. intros [[|c s]|]; reflexivity. Qed.

(** what one call of [add_subgroup_container] does to the state *)
Lemma add_subgroup_container_inv : forall type container exceptions st r st',
  add_subgroup_container type container exceptions st = (r, st') ->
  (exists cs group,
     container_courses container exceptions = Ok cs /\
     Dict.get (container_group type container) (structure st) = Some group /\
     r = Ok (Dict.keys cs) /\
     structure st' =
       Dict.set (container_group type container)
         {| name := name group;
            content :=
              Dict.set (container_title container)
                {| UOC := default 0%Z (credits_to_complete container);
                   courses := cs;
                   type := default "" (c_type container);
                   notes := if String.eqb (container_group type container) "Rules"
                            then default "" (c_notes container) else "" |}
                (content group) |}
         (structure st) /\
     trace st' =
       trace st ++ [NewContainer (container_group type container)
                      (container_title container)]) \/
  (exists e, r = Raise e /\ st' = st).
Proof.
  intros type container exceptions st r st' H.
  unfold add_subgroup_container in H.
  destruct (container_courses container exceptions) as [cs|e] eqn:Ecs.
  - destruct (Dict.get (container_group type container) (structure st))
      as [group|] eqn:Eg.
    + left. exists cs, group. injection H as <- <-. simpl. auto.
    + right. injection H as <- <-. eauto.
  - right. injection H as <- <-. eauto.
Qed.

End Preservation.

(** ** Unknown program codes *)

(** C7 (amended).  For a program code absent from the record store
    [get_structure] raises and returns no structure.  When the
    specialisations were added without error, it raises the HTTP error 400
    whose detail is the fixed text "Program code was not found", which does
    not name the code; otherwise it raises the error of the
    specialisations. *)
Theorem get_structure_unknown_program : forall (B : Backend) programCode spec,
  find_program programCode = None ->
  (exists e, fst (get_structure programCode spec) = Raise e) /\
  (forall st,
     add_specialisations spec initial = (Ok tt, st) ->
     get_structure programCode spec =
       (Raise (HTTPException 400 "Program code was not found"), st)) /\
  (forall e st,
     add_specialisations spec initial = (Raise e, st) ->
     get_structure programCode spec = (Raise e, st)).
Proof.
  intros B programCode spec Hnone.
  assert (Hdet : forall st,
             add_program_code_details programCode st =
               (Raise (HTTPException 400 "Program code was not found"), st)).
  { intros st. unfold add_program_code_details. now rewrite Hnone. }
  unfold get_structure, bind.
  destruct (add_specialisations spec initial) as [[[]|e] st] eqn:E.
  - rewrite Hdet. repeat split.
    + eexists. reflexivity.
    + intros st' H. now injection H as <-.
    + intros e st' H. discriminate.
  - repeat split.
    + eexists. reflexivity.
    + intros st' H. discriminate.
    + intros e' st' H. now injection H as <- <-.
Qed.

Lemma get_structure_unknown_program_witness :
  get_structure (B := Demo.backend) "9999" (Some "COMPA1+COMPC1") =
    (Raise (HTTPException 400 "Program code was not found"),
     snd (add_specialisations (B := Demo.backend) (Some "COMPA1+COMPC1") initial)).
Proof.
  exact (proj1 (proj2 (get_structure_unknown_program Demo.backend "9999"
                         (Some "COMPA1+COMPC1") eq_refl))
           _ eq_refl).
Defined.

(** C7, as stated, fails: the error raised for an unknown program code
    does not carry the code. *)
Lemma unknown_program_detail_lacks_code :
  ~ (exists detail,
       fst (get_structure (B := Demo.backend) "9999" None)
         = Raise (HTTPException 400 detail) /\
       PyStr.contains "9999" detail = true).
Proof.
  intros [detail [H Hc]]. vm_compute in H. injection H as <-.
  vm_compute in Hc. discriminate.
Qed.

(** ** The program level groups *)

Lemma reserved_spec_key : forall code, reserved (spec_key code) = false.
Proof.
  intros code. unfold spec_key, spec_kind.
  destruct (PyStr.endswith code "1"); [reflexivity|].
  destruct (PyStr.endswith code "2"); reflexivity.
Qed.

Lemma keys_set_unreserved : forall (V : Type) (d : Dict.t V) key v,
  reserved key = false ->
  (forall k, In k (Dict.keys d) -> reserved k = false) ->
  forall k, In k (Dict.keys (Dict.set key v d)) -> reserved k = false.
Proof.
  intros V d key v Hkey Hd k Hin.
  apply DictFacts.keys_set in Hin. destruct Hin as [->|Hin]; auto.
Qed.

Section Groups.

Context {B : Backend}.

Lemma unreserved_new_group : forall key name,
  reserved key = false -> preserves unreserved (new_group key name).
Proof.
  intros key name Hkey st r st' H [Hs Ht]. injection H as _ <-. split; simpl.
  - now apply keys_set_unreserved.
  - apply Forall_app. split; [assumption | now repeat constructor].
Qed.

Lemma unreserved_add_subgroup_container : forall type container exceptions,
  preserves unreserved (add_subgroup_container type container exceptions).
Proof.
  intros type container exceptions st r st' H [Hs Ht].
  apply add_subgroup_container_inv in H.
  destruct H as [[cs [group [_ [Hg [_ [Hst Htr]]]]]]|[e [_ ->]]];
    [|now split].
  assert (Hkey : reserved (container_group type container) = false).
  { apply Hs. apply DictFacts.get_in in Hg.
    unfold Dict.keys. apply in_map_iff. now exists (container_group type container, group). }
  split.
  - rewrite Hst. now apply keys_set_unreserved.
  - rewrite Htr. apply Forall_app. split; [assumption | now repeat constructor].
Qed.

Lemma unreserved_add_cores : forall type curriculum exceptions,
  preserves unreserved (add_cores type curriculum exceptions).
Proof.
  intros type curriculum. induction curriculum as [|a rest IH]; simpl;
    intros exceptions.
  - apply preserves_ret.
  - destruct (c_title a) as [title|]; [|apply preserves_raise].
    destruct (PyStr.contains "Core" title); [|apply IH].
    apply preserves_bind; [apply unreserved_add_subgroup_container|].
    intros new. apply IH.
Qed.

Lemma unreserved_add_others : forall type curriculum exceptions,
  preserves unreserved (add_others type curriculum exceptions).
Proof.
  intros type curriculum exceptions. induction curriculum as [|a rest IH]; simpl.
  - apply preserves_ret.
  - destruct (c_title a) as [title|]; [|apply preserves_raise].
    destruct (negb (PyStr.contains "Core" title)); [|apply IH].
    apply preserves_bind; [apply unreserved_add_subgroup_container|].
    intros _. apply IH.
Qed.

Lemma unreserved_add_specialisation : forall code,
  preserves unreserved (add_specialisation code).
Proof.
  intros code. unfold add_specialisation.
  destruct (find_specialisation code) as [spn|]; [|apply preserves_raise].
  apply preserves_bind.
  - apply unreserved_new_group, reserved_spec_key.
  - intros _. apply preserves_bind; [apply unreserved_add_cores|].
    intros exceptions. apply unreserved_add_others.
Qed.

Lemma unreserved_add_specialisations : forall spec,
  preserves unreserved (add_specialisations spec).
Proof.
  intros spec. rewrite add_specialisations_requested.
  apply preserves_for_each. intros code _. apply unreserved_add_specialisation.
Qed.

Lemma unreserved_initial : unreserved initial.
Proof. split; simpl; [contradiction | constructor]. Qed.

(** the trace of the program level steps *)

Lemma add_program_code_details_trace : forall programCode st uoc st',
  add_program_code_details programCode st = (Ok uoc, st') ->
  trace st' = trace st ++ [NewGroup "General"; NewGroup "Rules"].
Proof.
  intros programCode st uoc st' H. unfold add_program_code_details in H.
  destruct (find_program programCode) as [p|]; [|discriminate].
  injection H as _ <-. simpl. rewrite <- app_assoc. reflexivity.
Qed.

Lemma set_item_courses_trace : forall cs general item st r st',
  set_item_courses cs general item st = (r, st') -> trace st' = trace st.
Proof. intros cs general item st r st' H. now injection H as _ <-. Qed.

Lemma add_geneds_courses_trace : forall programCode container st r st',
  add_geneds_courses programCode container st = (r, st') -> trace st' = trace st.
Proof.
  intros programCode container st r st' H. unfold add_geneds_courses in H.
  destruct (negb (opt_eqb (c_type container) "gened")).
  { now injection H as _ <-. }
  destruct (Dict.get "General" (structure st)) as [general|];
    [|now injection H as _ <-].
  destruct (Dict.get "General Education" (content general)) as [item|];
    [|now injection H as _ <-].
  unfold bind, lift, ret, set_item_courses in H. simpl in H.
  destruct (courses_is_None container); [|now injection H as _ <-].
  destruct (get_gen_eds programCode) as [pool|e]; [|now injection H as _ <-].
  destruct (pick_courses pool _ []) as [cs|e]; now injection H as _ <-.
Qed.

Lemma manual_fixes_trace : forall programCode st r st',
  manual_fixes programCode st = (r, st') -> trace st' = trace st.
Proof.
  intros programCode st r st' H. unfold manual_fixes in H.
  destruct (apply_manual_fixes (structure st) programCode) as [r0 s].
  now injection H as _ <-.
Qed.

End Groups.

Lemma split_after_prefix : forall (A : Type) (p : A -> bool) (a b pre post : list A) e,
  a ++ b = pre ++ e :: post ->
  (forall x, In x a -> p x = false) ->
  p e = true ->
  exists b1, pre = a ++ b1.
Proof.
  intros A p a. induction a as [|x a IH]; simpl; intros b pre post e Heq Ha He.
  - now exists pre.
  - destruct pre as [|y pre]; simpl in Heq; injection Heq as -> Heq.
    + rewrite (Ha e (or_introl eq_refl)) in He. discriminate.
    + destruct (IH b pre post e Heq) as [b1 ->]; auto.
      now exists b1.
Qed.

Lemma filter_none : forall (A : Type) (p : A -> bool) (l : list A),
  (forall x, In x l -> p x = false) -> filter p l = [].
Proof.
  intros A p l. induction l as [|x l IH]; simpl; intros H.
  - reflexivity.
  - rewrite (H x (or_introl eq_refl)). apply IH. intros y Hy. apply H. now right.
Qed.

Lemma unreserved_event : forall e key,
  reserved (event_key e) = false -> reserved key = true ->
  creates key e = false /\ adds_to key e = false.
Proof.
  intros e key He Hkey.
  assert (Hne : forall k, reserved k = false -> String.eqb k key = false).
  { intros k Hk. destruct (String.eqb_spec k key) as [->|]; congruence. }
  destruct e as [k|g title]; simpl in *; split; auto.
Qed.

Section ProgramTrace.

Context {B : Backend}.

Lemma gened_round_trace : forall programCode container st r st',
  gened_round programCode container st = (r, st') ->
  trace st' = trace st ++ [container_event container] \/
  (trace st' = trace st /\ exists e, r = Raise e).
Proof.
  intros programCode container st r st' H. unfold gened_round in H.
  apply bind_inv in H. destruct H as [[ks [st1 [H1 H2]]]|[e [H1 ->]]].
  - left. apply add_subgroup_container_inv in H1.
    destruct H1 as [[cs [group [_ [_ [_ [_ Htr]]]]]]|[e [He _]]];
      [|discriminate].
    assert (Hsame : trace st' = trace st1).
    { destruct (opt_eqb (c_type container) "gened").
      - apply bind_inv in H2.
        destruct H2 as [[ks' [st2 [H2 H3]]]|[e [H2 _]]].
        + injection H3 as _ <-. now apply add_geneds_courses_trace in H2.
        + now apply add_geneds_courses_trace in H2.
      - now injection H2 as _ <-. }
    rewrite Hsame, Htr. reflexivity.
  - right. apply add_subgroup_container_inv in H1.
    destruct H1 as [[cs [group [_ [_ [Hr _]]]]]|[e' [_ ->]]];
      [discriminate|].
    split; [reflexivity | now exists e].
Qed.

Lemma gened_rounds_trace : forall programCode containers st r st',
  for_each (gened_round programCode) containers st = (r, st') ->
  exists n, trace st' = trace st ++ map container_event (firstn n containers).
Proof.
  intros programCode containers.
  induction containers as [|c containers IH]; simpl; intros st r st' H.
  - injection H as _ <-. exists 0. now rewrite app_nil_r.
  - apply bind_inv in H. destruct H as [[[] [st1 [H1 H2]]]|[e [H1 _]]].
    + apply gened_round_trace in H1.
      destruct H1 as [H1|[_ [e He]]]; [|discriminate].
      destruct (IH _ _ _ H2) as [n Hn]. exists (S n).
      rewrite Hn, H1, <- app_assoc. reflexivity.
    + apply gened_round_trace in H1. destruct H1 as [H1|[H1 _]].
      * exists 1. rewrite H1. simpl. now destruct containers.
      * exists 0. rewrite H1. now rewrite app_nil_r.
Qed.

Lemma add_geneds_to_structure_trace : forall programCode st r st',
  add_geneds_to_structure programCode st = (r, st') ->
  exists n,
    trace st' =
      trace st ++ map container_event (firstn n (program_containers programCode)).
Proof.
  intros programCode st r st' H.
  unfold add_geneds_to_structure, program_containers in *.
  destruct (find_program programCode) as [p|].
  - unfold suppress_KeyError in H.
    destruct (non_spec_data p) as [containers|]; simpl.
    + destruct (for_each (gened_round programCode) containers st)
        as [r0 st1] eqn:E.
      apply gened_rounds_trace in E.
      assert (st' = st1) as ->; [|assumption].
      destruct r0 as [[]|[]]; now injection H as _ <-.
    + exists 0. simpl in H. injection H as _ <-. now rewrite app_nil_r.
  - exists 0. injection H as _ <-. now rewrite app_nil_r.
Qed.

Lemma get_structure_trace : forall programCode spec s uoc st,
  get_structure programCode spec = (Ok (s, uoc), st) ->
  exists tr n,
    trace st =
      tr ++ [NewGroup "General"; NewGroup "Rules"] ++
      map container_event (firstn n (program_containers programCode)) /\
    Forall (fun e => reserved (event_key e) = false) tr.
Proof.
  intros programCode spec s uoc st H. unfold get_structure in H.
  apply bind_ok in H. destruct H as [[] [st1 [H1 H]]].
  apply bind_ok in H. destruct H as [uoc' [st2 [H2 H]]].
  apply bind_ok in H. destruct H as [[] [st3 [H3 H]]].
  apply bind_ok in H. destruct H as [[] [st4 [H4 H]]].
  injection H as _ _ <-.
  pose proof (unreserved_add_specialisations spec H1 unreserved_initial) as [_ Hun].
  apply add_program_code_details_trace in H2.
  apply add_geneds_to_structure_trace in H3. destruct H3 as [n H3].
  apply manual_fixes_trace in H4.
  exists (trace st1), n. split; [|exact Hun].
  rewrite H4, H3, H2, <- app_assoc. reflexivity.
Qed.

End ProgramTrace.

(** X23.  In every invocation of [get_structure] that returns, the
    writes this module makes (the manual fixes are not its own) are, in
    order: writes to groups of specialisations only, the creation of
    "General", the creation of "Rules", and then the additions of an
    initial segment of the containers of the program's own data, in their
    order.  So the "General" and the "Rules" group are each created
    exactly once, after the specialisations and before any container is
    added to either, and no specialisation writes to them. *)
Theorem general_and_rules_created_once :
  forall (B : Backend) programCode spec s uoc st,
    get_structure programCode spec = (Ok (s, uoc), st) ->
    (created_once "General" (trace st) /\ created_once "Rules" (trace st)) /\
    (created_before_use "General" (trace st) /\
     created_before_use "Rules" (trace st)) /\
    exists tr n,
      trace st =
        tr ++ [NewGroup "General"; NewGroup "Rules"] ++
        map container_event (firstn n (program_containers programCode)) /\
      Forall (fun e => reserved (event_key e) = false) tr.
Proof.
  intros B programCode spec s uoc st H.
  destruct (get_structure_trace _ _ H) as [tr [n [Htr Hun]]].
  rewrite Forall_forall in Hun.
  assert (Honce : forall key, reserved key = true ->
            List.length (filter (creates key) [NewGroup "General"; NewGroup "Rules"]) = 1 ->
            created_once key (trace st)).
  { intros key Hkey Hlen. unfold created_once. rewrite Htr, !filter_app.
    rewrite (filter_none (creates key) tr).
    - rewrite (filter_none (creates key) (map container_event _)).
      + now rewrite app_nil_r.
      + intros x Hx. apply in_map_iff in Hx. now destruct Hx as [c [<- _]].
    - intros x Hx. now apply unreserved_event; [apply Hun|]. }
  assert (Hbefore : forall key, reserved key = true ->
            existsb (creates key) [NewGroup "General"; NewGroup "Rules"] = true ->
            created_before_use key (trace st)).
  { intros key Hkey Hex pre e post Heq He.
    rewrite Htr, app_assoc in Heq.
    apply split_after_prefix with (p := adds_to key) in Heq; auto.
    - destruct Heq as [b1 ->]. rewrite !existsb_app, Hex.
      now rewrite orb_true_r.
    - intros x Hx. apply in_app_or in Hx. destruct Hx as [Hx|Hx].
      + now apply unreserved_event; [apply Hun|].
      + now destruct Hx as [<-|[<-|[]]]. }
  split; [|split].
  - split; now apply Honce.
  - split; now apply Hbefore.
  - exists tr, n. split; [exact Htr | now apply Forall_forall].
Qed.

Lemma general_and_rules_created_once_witness :
  created_once "Rules"
    (trace (snd (get_structure (B := Demo.backend) "3778" (Some "COMPA1")))).
Proof.
  refine (proj2 (proj1 (@general_and_rules_created_once Demo.backend
                          "3778" (Some "COMPA1")
                          (structure (snd (get_structure (B := Demo.backend)
                                             "3778" (Some "COMPA1"))))
                          144%Z
                          (snd (get_structure (B := Demo.backend) "3778"
                                  (Some "COMPA1")))
                          _))).
  reflexivity.
Defined.

(** C3.  A container of a specialisation whose type contains "rule"
    should be placed under "Rules", created before it.  It is not: the
    groups are created after the specialisations were added, so for
    program 3778 with the major COMPR1, whose curriculum has a container of
    type "maturity_rule", [get_structure] raises [KeyError] on "Rules" and
    the group is never created. *)
Theorem rule_container_of_specialisation_raises :
  fst (get_structure (B := Demo.backend) "3778" (Some "COMPR1"))
    = Raise (KeyError "Rules") /\
  ~ created_once "Rules"
      (trace (snd (get_structure (B := Demo.backend) "3778" (Some "COMPR1")))).
Proof.
  split; [reflexivity | discriminate].
Qed.

(** ** General education *)

Lemma core_courses_set : forall (s : Structure) key g,
  PyStr.contains "Major" key || PyStr.contains "Honours" key = false ->
  core_courses (Dict.set key g s) = core_courses s.
Proof.
  intros s key g Hkey. unfold core_courses.
  induction s as [|[k0 g0] s IH]; simpl.
  - now rewrite Hkey.
  - destruct (String.eqb_spec key k0) as [->|Hne]; simpl.
    + now rewrite Hkey.
    + now rewrite IH.
Qed.

Lemma core_courses_none : forall (s : Structure),
  (forall k, In k (Dict.keys s) ->
     PyStr.contains "Major" k || PyStr.contains "Honours" k = false) ->
  core_courses s = [].
Proof.
  intros s. unfold core_courses. induction s as [|[k0 g0] s IH]; simpl; intros H.
  - reflexivity.
  - rewrite (H k0 (or_introl eq_refl)). simpl. apply IH. intros k Hk.
    apply H. now right.
Qed.

Lemma get_tabulate : forall (V : Type) (f : string -> V) (l : list string) c,
  Dict.get c (map (fun x => (x, f x)) l) = if mem_str c l then Some (f c) else None.
Proof.
  intros V f l c. unfold mem_str. induction l as [|x l IH]; simpl.
  - reflexivity.
  - destruct (String.eqb_spec c x) as [->|Hne]; [reflexivity | apply IH].
Qed.

Lemma keys_tabulate : forall (V : Type) (f : string -> V) (l : list string),
  Dict.keys (map (fun x => (x, f x)) l) = l.
Proof.
  intros V f l. unfold Dict.keys. rewrite map_map. simpl. apply map_id.
Qed.

Lemma in_set_diff : forall a b c,
  In c (set_diff a b) <-> In c a /\ ~ In c b.
Proof.
  intros a b c. unfold set_diff. rewrite nodup_In, filter_In, negb_true_iff.
  rewrite <- (mem_str_In c b). now destruct (mem_str c b); intuition.
Qed.

Lemma pick_courses_fresh : forall (pool : Dict.t string) l acc,
  NoDup l ->
  (forall c, In c l -> ~ In c (Dict.keys acc)) ->
  (forall c, In c l -> In c (Dict.keys pool)) ->
  pick_courses pool l acc =
    Ok (acc ++ map (fun c => (c, DStr (default "" (Dict.get c pool)))) l).
Proof.
  intros pool l. induction l as [|c l IH]; simpl; intros acc Hnd Hacc Hpool.
  - now rewrite app_nil_r.
  - inversion Hnd as [|? ? Hc Hnd']; subst.
    destruct (DictFacts.get_some_key pool c (Hpool c (or_introl eq_refl)))
      as [title Htitle].
    rewrite Htitle. simpl.
    rewrite DictFacts.set_fresh by (apply Hacc; now left).
    rewrite IH; auto.
    + now rewrite <- app_assoc.
    + intros c' Hc' Hin. unfold Dict.keys in Hin. rewrite map_app in Hin.
      apply in_app_or in Hin. destruct Hin as [Hin|[<-|[]]].
      * apply (Hacc c'); [now right | assumption].
      * contradiction.
Qed.

Section GenEds.

Context {B : Backend}.

(** the courses picked from the pool for a structure *)
Lemma pick_from_pool : forall (pool : Dict.t string) (s : Structure),
  exists cs,
    pick_courses pool (list_of_set (set_diff (Dict.keys pool) (core_courses s))) []
      = Ok cs /\
    Permutation (Dict.keys cs) (set_diff (Dict.keys pool) (core_courses s)) /\
    (forall c, Dict.get c cs =
               if mem_str c (core_courses s) then None
               else option_map DStr (Dict.get c pool)).
Proof.
  intros pool s.
  set (l := list_of_set (set_diff (Dict.keys pool) (core_courses s))).
  assert (Hperm : Permutation l (set_diff (Dict.keys pool) (core_courses s)))
    by apply list_of_set_perm.
  assert (Hin : forall c, In c l <-> In c (Dict.keys pool) /\ ~ In c (core_courses s)).
  { intros c. rewrite <- in_set_diff. split; apply Permutation_in;
      [assumption | now apply Permutation_sym]. }
  exists (map (fun c => (c, DStr (default "" (Dict.get c pool)))) l).
  split; [|split].
  - rewrite pick_courses_fresh; [reflexivity | | auto | apply Hin].
    apply (Permutation_NoDup (Permutation_sym Hperm)). apply NoDup_nodup.
  - now rewrite keys_tabulate.
  - intros c. rewrite get_tabulate.
    destruct (mem_str c (core_courses s)) eqn:Ecore.
    + destruct (mem_str c l) eqn:El; [|reflexivity].
      apply mem_str_In in El, Ecore. apply Hin in El. tauto.
    + destruct (Dict.get c pool) as [title|] eqn:Eget; simpl.
      * assert (In c l) as Hl.
        { apply Hin. split.
          - apply DictFacts.get_in in Eget. unfold Dict.keys.
            apply in_map_iff. now exists (c, title).
          - intros Hc. apply mem_str_In in Hc. congruence. }
        apply mem_str_In in Hl. now rewrite Hl.
      * destruct (mem_str c l) eqn:El; [|reflexivity].
        apply mem_str_In, Hin in El. destruct El as [El _].
        apply DictFacts.get_none in Eget. contradiction.
Qed.

End GenEds.

(** General education resolution on a container of type "gened", from
    the state before it: with listed courses the "General Education"
    container is left empty; otherwise it receives the courses of the pool
    that [core_courses] does not list. *)
Lemma add_geneds_courses_spec :
  forall (B : Backend) programCode container st general item,
    c_type container = Some "gened" ->
    Dict.get "General" (structure st) = Some general ->
    Dict.get "General Education" (content general) = Some item ->
    (courses_is_None container = false ->
     add_geneds_courses programCode container st =
       (Ok [], snd (set_item_courses [] general item st))) /\
    (forall pool,
       courses_is_None container = true ->
       gened_pool programCode = Some pool ->
       exists cs,
         add_geneds_courses programCode container st =
           (Ok (Dict.keys cs), snd (set_item_courses cs general item st)) /\
         Permutation (Dict.keys cs)
           (set_diff (Dict.keys pool) (core_courses (structure st))) /\
         (forall c, Dict.get c cs =
                    if mem_str c (core_courses (structure st)) then None
                    else option_map DStr (Dict.get c pool)) /\
         (forall c, In c (core_courses (structure st)) -> ~ In c (Dict.keys cs)) /\
         ((forall k, In k (Dict.keys (structure st)) ->
             PyStr.contains "Major" k || PyStr.contains "Honours" k = false) ->
          forall c, Dict.get c cs = option_map DStr (Dict.get c pool))).
Proof.
  intros B programCode container st general item Htype Hg Hi.
  unfold add_geneds_courses. rewrite Htype.
  change (negb (opt_eqb (Some "gened") "gened")) with false. cbv beta iota.
  rewrite Hg, Hi. split.
  - intros Hlisted. rewrite Hlisted. reflexivity.
  - intros pool Hnone Hpool. rewrite Hnone.
    unfold get_gen_eds. rewrite Hpool.
    unfold bind, lift, ret, set_item_courses. cbv beta iota zeta.
    simpl structure. simpl trace.
    rewrite core_courses_set by reflexivity.
    destruct (pick_from_pool pool (structure st)) as [cs [Hpick [Hperm Hget]]].
    exists cs. rewrite Hpick. split; [|split; [|split; [|split]]].
    + simpl. now rewrite DictFacts.set_set.
    + exact Hperm.
    + exact Hget.
    + intros c Hc Hin. apply (Permutation_in _ Hperm), in_set_diff in Hin. tauto.
    + intros Hkeys c. rewrite Hget, (core_courses_none _ Hkeys). reflexivity.
Qed.

(** C2.  A general education container that lists its courses should
    keep them resolved as they are.  It does not: for program 3707, whose
    container lists ARTS1010, the "General Education" container holds
    ARTS1010 when it has just been added, and holds nothing once
    [add_geneds_courses] has run on it. *)
Theorem listed_gened_courses_are_discarded :
  gened_courses (structure Demo.listed_added) = ["ARTS1010"] /\
  gened_courses
    (structure (snd (add_geneds_courses (B := Demo.backend) "3707"
                       Demo.gened_listed Demo.listed_added))) = [] /\
  gened_courses
    (structure (snd (add_geneds_courses (B := Demo.backend) "3707"
                       Demo.gened_listed Demo.listed_added)))
    <> gened_courses (structure Demo.listed_added).
Proof.
  split; [reflexivity | split; [reflexivity | discriminate]].
Qed.

Lemma in_core_courses : forall (s : Structure) c,
  In c (core_courses s) <-> declared_core s c.
Proof.
  intros s c. unfold core_courses, declared_core. rewrite in_flat_map. split.
  - intros [[key group] [Hin Hc]]. simpl in Hc.
    destruct (PyStr.contains "Major" key || PyStr.contains "Honours" key) eqn:Ek;
      [|destruct Hc].
    apply in_flat_map in Hc. destruct Hc as [[title item] [Hitem Hc]].
    simpl in Hc.
    destruct (PyStr.contains "core" (PyStr.lower title)) eqn:Et; [|destruct Hc].
    exists key, group, title, item. apply orb_true_iff in Ek. auto.
  - intros [key [group [title [item [Hin [Hk [Hitem [Ht Hc]]]]]]]].
    exists (key, group). split; [exact Hin|]. simpl.
    apply orb_true_iff in Hk. rewrite Hk.
    apply in_flat_map. exists (title, item). split; [exact Hitem|].
    simpl. now rewrite Ht.
Qed.

Lemma gened_courses_set_item : forall cs general item st,
  gened_courses (structure (snd (set_item_courses cs general item st)))
  = Dict.keys cs.
Proof.
  intros cs general item st. unfold gened_courses, set_item_courses. simpl.
  rewrite DictFacts.get_set_same. simpl.
  now rewrite DictFacts.get_set_same.
Qed.

(** X22.  For a general education container that lists no courses, in
    a program that has a general education pool, resolution succeeds and
    the courses of the "General Education" container become exactly the
    courses of the pool that are not declared core courses of a Major or
    Honours group of the structure, each once. *)
Theorem geneds_are_pool_minus_core :
  forall (B : Backend) programCode container st general item pool,
    c_type container = Some "gened" ->
    courses_is_None container = true ->
    Dict.get "General" (structure st) = Some general ->
    Dict.get "General Education" (content general) = Some item ->
    gened_pool programCode = Some pool ->
    exists ks st',
      add_geneds_courses programCode container st = (Ok ks, st') /\
      gened_courses (structure st') = ks /\
      NoDup ks /\
      (forall c, In c ks <->
                 In c (Dict.keys pool) /\ ~ declared_core (structure st) c) /\
      ((forall key, In key (Dict.keys (structure st)) ->
          PyStr.contains "Major" key = false /\
          PyStr.contains "Honours" key = false) ->
       forall c, In c ks <-> In c (Dict.keys pool)).
Proof.
  intros B programCode container st general item pool Htype Hnone Hg Hi Hpool.
  destruct (proj2 (@add_geneds_courses_spec B programCode container st general
                     item Htype Hg Hi) pool Hnone Hpool)
    as [cs [Hrun [Hperm _]]].
  assert (Hks : forall c, In c (Dict.keys cs) <->
            In c (Dict.keys pool) /\ ~ declared_core (structure st) c).
  { intros c. rewrite <- in_core_courses, <- in_set_diff. split.
    - apply Permutation_in. exact Hperm.
    - apply Permutation_in. now apply Permutation_sym. }
  exists (Dict.keys cs), (snd (set_item_courses cs general item st)).
  split; [exact Hrun|]. split; [apply gened_courses_set_item|].
  split; [|split].
  - apply (Permutation_NoDup (Permutation_sym Hperm)).
    unfold set_diff. apply NoDup_nodup.
  - exact Hks.
  - intros Hkeys c. rewrite Hks. split; [tauto|]. intros Hc. split; [exact Hc|].
    intros [key [group [title [item0 [Hin [Hk _]]]]]].
    assert (Hkey : In key (Dict.keys (structure st))).
    { unfold Dict.keys. apply in_map_iff. now exists (key, group). }
    destruct (Hkeys key Hkey) as [H1 H2]. destruct Hk; congruence.
Qed.

Lemma geneds_are_pool_minus_core_witness :
  exists ks st',
    add_geneds_courses (B := Demo.backend) "3778" Demo.gened Demo.before_geneds
      = (Ok ks, st') /\
    gened_courses (structure st') = ks /\
    (In "ARTS1010" ks /\ ~ In "COMP1511" ks).
Proof.
  destruct (@geneds_are_pool_minus_core Demo.backend "3778" Demo.gened
              Demo.before_geneds Demo.general_group Demo.general_item Demo.pool
              eq_refl eq_refl eq_refl eq_refl eq_refl)
    as [ks [st' [Hrun [Hstored [_ [Hks _]]]]]].
  exists ks, st'. split; [exact Hrun|]. split; [exact Hstored|]. split.
  - apply Hks. split; [simpl; auto|]. rewrite <- in_core_courses.
    vm_compute. intuition discriminate.
  - intros Hin. apply Hks in Hin. destruct Hin as [_ Hcore]. apply Hcore.
    rewrite <- in_core_courses. vm_compute. auto.
Defined.

(** ** The course list of a program *)

Lemma courses_within_new_group : forall S (s : Structure) key name,
  courses_within S s ->
  courses_within S (Dict.set key {| name := name; content := [] |} s).
Proof.
  intros S s key nm Hs k g title item c Hg Hitem Hc.
  apply DictFacts.in_set in Hg. destruct Hg as [[-> ->]|Hg].
  - contradiction.
  - now apply (Hs k g title item c).
Qed.

Lemma courses_within_add : forall S (s : Structure) key group nm title item,
  courses_within S s ->
  Dict.get key s = Some group ->
  (forall c, In c (Dict.keys (courses item)) -> In c S) ->
  courses_within S
    (Dict.set key {| name := nm; content := Dict.set title item (content group) |} s).
Proof.
  intros S s key group nm title item Hs Hget Hitem k g t i c Hg Hi Hc.
  apply DictFacts.in_set in Hg. destruct Hg as [[-> ->]|Hg].
  - simpl in Hi. apply DictFacts.in_set in Hi. destruct Hi as [[-> ->]|Hi].
    + now apply Hitem.
    + apply DictFacts.get_in in Hget. now apply (Hs key group t i c).
  - now apply (Hs k g t i c).
Qed.

Lemma structure_list_in : forall (s : Structure) c,
  In c (structure_list s) ->
  In c group_fields \/ In c container_fields \/
  exists key g title item,
    In (key, g) s /\ In (title, item) (content g) /\
    In c (Dict.keys (courses item)).
Proof.
  intros s c H. unfold structure_list in H. apply in_flat_map in H.
  destruct H as [[key g] [Hg H]]. unfold group_list in H. simpl in H.
  apply in_app_or in H. destruct H as [H|H].
  - left. now destruct (PyStr.contains "courses" key).
  - right. apply in_flat_map in H. destruct H as [[title item] [Hi H]].
    unfold container_list in H. simpl in H.
    destruct (PyStr.contains "rule" (type item)); [contradiction|].
    apply in_app_or in H. destruct H as [H|H].
    + left. now destruct (PyStr.contains "courses" title).
    + right. destruct (courses_skipped (courses item)); [contradiction|].
      now exists key, g, title, item.
Qed.

Lemma course_code_not_field : forall c,
  PyStr.match_course_code c = true ->
  ~ In c group_fields /\ ~ In c container_fields.
Proof.
  intros c Hc. split; intros H; simpl in H;
    repeat (destruct H as [<-|H]; [discriminate Hc|]); contradiction.
Qed.

Section ProgramCourses.

Context {B : Backend}.

Lemma reduce_courses_keys : forall items exceptions rest cs,
  reduce_courses items exceptions rest = Ok cs ->
  forall c, In c (Dict.keys cs) ->
    In c (Dict.keys rest) \/
    In c (flat_map
            (fun it =>
               match convert_subgroup_object_to_courses_dict (fst it) (snd it) with
               | Ok d => Dict.keys d
               | Raise _ => []
               end) items).
Proof.
  induction items as [|it items IH]; simpl; intros exceptions rest cs H c Hc.
  - injection H as <-. now left.
  - destruct (convert_subgroup_object_to_courses_dict (fst it) (snd it))
      as [d|e]; [|discriminate].
    destruct (IH _ _ _ H c Hc) as [Hin|Hin].
    + apply DictFacts.keys_union in Hin. destruct Hin as [Hin|Hin];
        [now left|].
      right. apply in_or_app. left.
      apply (proj1 (DictFacts.keys_of_pairs _ _)) in Hin.
      apply in_map_iff in Hin. destruct Hin as [kv [<- Hkv]].
      apply filter_In in Hkv. unfold Dict.keys. apply in_map. apply Hkv.
    + right. apply in_or_app. now right.
Qed.

Lemma container_courses_keys : forall container exceptions cs,
  container_courses container exceptions = Ok cs ->
  forall c, In c (Dict.keys cs) -> In c (container_resolution container).
Proof.
  intros container exceptions cs H c Hc.
  unfold container_courses, container_resolution in *.
  destruct (c_courses container) as [| |items].
  - simpl in H. injection H as <-. contradiction.
  - discriminate.
  - destruct (reduce_courses_keys _ _ _ H c Hc) as [[]|Hin]. exact Hin.
Qed.

Lemma within_add_subgroup_container : forall S type container exceptions,
  (forall c, In c (container_resolution container) -> In c S) ->
  preserves (fun st => courses_within S (structure st))
    (add_subgroup_container type container exceptions).
Proof.
  intros S type container exceptions HS st r st' H Hst.
  apply add_subgroup_container_inv in H.
  destruct H as [[cs [group [Hcs [Hg [_ [-> _]]]]]]|[e [_ ->]]];
    [|assumption].
  apply courses_within_add; auto.
  simpl. intros c Hc. apply HS. now apply (container_courses_keys _ _ Hcs).
Qed.

Lemma within_add_cores : forall S type curriculum exceptions,
  (forall a c, In a curriculum -> In c (container_resolution a) -> In c S) ->
  preserves (fun st => courses_within S (structure st))
    (add_cores type curriculum exceptions).
Proof.
  intros S type curriculum. induction curriculum as [|a rest IH]; simpl;
    intros exceptions HS.
  - apply preserves_ret.
  - assert (Hrest : forall a' c, In a' rest ->
              In c (container_resolution a') -> In c S)
      by (intros a' c Ha'; apply HS; now right).
    destruct (c_title a) as [title|]; [|apply preserves_raise].
    destruct (PyStr.contains "Core" title); [|now apply IH].
    apply preserves_bind.
    + apply within_add_subgroup_container. intros c. apply HS. now left.
    + intros new. now apply IH.
Qed.

Lemma within_add_others : forall S type curriculum exceptions,
  (forall a c, In a curriculum -> In c (container_resolution a) -> In c S) ->
  preserves (fun st => courses_within S (structure st))
    (add_others type curriculum exceptions).
Proof.
  intros S type curriculum exceptions.
  induction curriculum as [|a rest IH]; simpl; intros HS.
  - apply preserves_ret.
  - assert (Hrest : forall a' c, In a' rest ->
              In c (container_resolution a') -> In c S)
      by (intros a' c Ha'; apply HS; now right).
    destruct (c_title a) as [title|]; [|apply preserves_raise].
    destruct (negb (PyStr.contains "Core" title)); [|now apply IH].
    apply preserves_bind.
    + apply within_add_subgroup_container. intros c. apply HS. now left.
    + intros _. now apply IH.
Qed.

Lemma within_new_group : forall S key nm,
  preserves (fun st => courses_within S (structure st)) (new_group key nm).
Proof.
  intros S key nm st r st' H Hst. injection H as _ <-. simpl.
  now apply courses_within_new_group.
Qed.

Lemma within_add_specialisation : forall S code,
  (forall sp a c,
     find_specialisation code = Some sp -> In a (curriculum sp) ->
     In c (container_resolution a) -> In c S) ->
  preserves (fun st => courses_within S (structure st)) (add_specialisation code).
Proof.
  intros S code HS. unfold add_specialisation.
  destruct (find_specialisation code) as [spn|]; [|apply preserves_raise].
  apply preserves_bind; [apply within_new_group|]. intros _.
  apply preserves_bind.
  - apply within_add_cores. intros a c. now apply HS.
  - intros exceptions. apply within_add_others. intros a c. now apply HS.
Qed.

Lemma within_add_specialisations : forall spec,
  preserves (fun st => courses_within (specialisation_courses spec) (structure st))
    (add_specialisations spec).
Proof.
  intros spec. rewrite add_specialisations_requested.
  apply preserves_for_each. intros code Hcode.
  apply within_add_specialisation. intros sp a c Hsp Ha Hc.
  unfold specialisation_courses. apply in_flat_map. exists code.
  split; [assumption|]. rewrite Hsp. apply in_flat_map. now exists a.
Qed.

Lemma within_add_program_code_details : forall S programCode,
  preserves (fun st => courses_within S (structure st))
    (add_program_code_details programCode).
Proof.
  intros S programCode. unfold add_program_code_details.
  destruct (find_program programCode) as [p|]; [|apply preserves_raise].
  apply preserves_bind; [apply within_new_group|]. intros _.
  apply preserves_bind; [apply within_new_group|]. intros _.
  apply preserves_ret.
Qed.

(** the state in which the manual fixes of a course list request run *)
Lemma course_list_before_fixes : forall programCode spec courses st,
  get_structure_course_list programCode spec = (Ok courses, st) ->
  exists st0,
    courses_within (specialisation_courses spec) (structure st0) /\
    apply_manual_fixes (structure st0) programCode = (Ok tt, structure st) /\
    course_list_from_structure (structure st) = Ok courses /\
    trace st = trace st0 /\
    exists tr,
      trace st0 = tr ++ [NewGroup "General"; NewGroup "Rules"] /\
      Forall (fun e => reserved (event_key e) = false) tr.
Proof.
  intros programCode spec courses st H. unfold get_structure_course_list in H.
  apply bind_ok in H. destruct H as [[] [st1 [H1 H]]].
  apply bind_ok in H. destruct H as [uoc [st2 [H2 H]]].
  apply bind_ok in H. destruct H as [[] [st3 [H3 H]]].
  injection H as H <-.
  exists st2. split; [|split; [|split; [|split]]].
  - apply (@within_add_program_code_details (specialisation_courses spec)
             programCode st1 (Ok uoc) st2 H2).
    apply (@within_add_specialisations spec initial (Ok tt) st1 H1).
    intros k g t i c [].
  - unfold manual_fixes in H3.
    destruct (apply_manual_fixes (structure st2) programCode) as [r s].
    now injection H3 as -> <-.
  - exact H.
  - now apply manual_fixes_trace in H3.
  - exists (trace st1). split.
    + now apply add_program_code_details_trace in H2.
    + apply (unreserved_add_specialisations spec H1 unreserved_initial).
Qed.

End ProgramCourses.

(** C10.  [get_structure_course_list] builds its structure from the
    specialisations and the program details only: no container is ever
    added to "General" or "Rules", so no general education is resolved.  A
    course code that no container of a requested specialisation resolves to
    does not occur in the returned list (as long as the manual fixes do not
    bring it in), even when [get_structure] for the same request has it in
    the "General Education" container. *)
Theorem course_list_has_no_geneds :
  (forall (B : Backend) programCode spec courses st c,
     get_structure_course_list programCode spec = (Ok courses, st) ->
     (forall s s' l',
        apply_manual_fixes s programCode = (Ok tt, s') ->
        course_list_from_structure s' = Ok l' -> In c l' ->
        exists l, course_list_from_structure s = Ok l /\ In c l) ->
     PyStr.match_course_code c = true ->
     mem_str c (specialisation_courses spec) = false ->
     ~ In c courses) /\
  (forall (B : Backend) programCode spec courses st,
     get_structure_course_list programCode spec = (Ok courses, st) ->
     exists tr,
       trace st = tr ++ [NewGroup "General"; NewGroup "Rules"] /\
       Forall (fun e => reserved (event_key e) = false) tr) /\
  (In "ARTS1010" (Dict.keys Demo.pool) /\
   (exists s uoc st,
      get_structure (B := Demo.backend) "3778" (Some "COMPA1") = (Ok (s, uoc), st) /\
      In "ARTS1010" (gened_courses s)) /\
   (exists courses st,
      get_structure_course_list (B := Demo.backend) "3778" (Some "COMPA1")
        = (Ok courses, st) /\
      ~ In "ARTS1010" courses)).
Proof.
  split; [|split].
  - intros B programCode spec courses st c Hrun Hfix Hcode Hout Hin.
    destruct (course_list_before_fixes _ _ Hrun)
      as [st0 [Hwithin [Hmf [Hlist _]]]].
    destruct (Hfix _ _ _ Hmf Hlist Hin) as [l [Hl Hc]].
    rewrite course_list_typed in Hl. injection Hl as <-.
    destruct (course_code_not_field _ Hcode) as [Hg Hf].
    apply structure_list_in in Hc.
    destruct Hc as [Hc|[Hc|[key [g [title [item [Hkey [Hitem Hc]]]]]]]];
      try contradiction.
    apply (Hwithin _ _ _ _ _ Hkey Hitem), mem_str_In in Hc. congruence.
  - intros B programCode spec courses st Hrun.
    destruct (course_list_before_fixes _ _ Hrun)
      as [st0 [_ [_ [_ [Htr [tr [Htr0 Hun]]]]]]].
    exists tr. split; [congruence | assumption].
  - split; [|split].
    + simpl. tauto.
    + eexists _, _, _. split; [reflexivity|]. simpl. tauto.
    + eexists _, _. split; [reflexivity|].
      simpl. intros [H|[H|[H|[H|[]]]]]; discriminate.
Qed.

Lemma course_list_has_no_geneds_witness :
  ~ In "ARTS1010"
      (match fst (get_structure_course_list (B := Demo.backend)
                    "3778" (Some "COMPA1")) with
       | Ok courses => courses
       | Raise _ => []
       end).
Proof.
  refine (proj1 course_list_has_no_geneds Demo.backend "3778" (Some "COMPA1")
            _ _ "ARTS1010" eq_refl _ eq_refl eq_refl).
  intros s s' l' Hfix Hl Hin. injection Hfix as <-. now exists l'.
Defined.

(** ** Courses repeated within a specialisation *)

Section Exceptions.

Context {B : Backend}.

Lemma reduce_courses_avoids : forall items exceptions rest cs,
  reduce_courses items exceptions rest = Ok cs ->
  (forall k, In k (Dict.keys rest) -> ~ In k exceptions) ->
  forall k, In k (Dict.keys cs) -> ~ In k exceptions.
Proof.
  induction items as [|it items IH]; simpl; intros exceptions rest cs H Hrest.
  - now injection H as <-.
  - destruct (convert_subgroup_object_to_courses_dict (fst it) (snd it))
      as [d|e]; [|discriminate].
    apply (IH _ _ _ H). intros k Hk.
    apply DictFacts.keys_union in Hk. destruct Hk as [Hk|Hk]; [now apply Hrest|].
    apply (proj1 (DictFacts.keys_of_pairs _ _)), in_map_iff in Hk.
    destruct Hk as [kv [<- Hkv]]. apply filter_In in Hkv.
    destruct Hkv as [_ Hkv]. apply negb_true_iff in Hkv.
    intros Hin. apply mem_str_In in Hin. congruence.
Qed.

(** a container never receives a course of the exceptions it is given *)
Lemma container_courses_avoid_exceptions : forall container exceptions cs,
  container_courses container exceptions = Ok cs ->
  forall k, In k (Dict.keys cs) -> ~ In k exceptions.
Proof.
  intros container exceptions cs H. unfold container_courses in H.
  destruct (c_courses container) as [| |items].
  - simpl in H. injection H as <-. intros k [].
  - discriminate.
  - apply (reduce_courses_avoids _ _ _ H). intros k [].
Qed.

(** the exceptions only grow while the Core containers are added *)
Lemma add_cores_extends : forall type curriculum exceptions st exceptions' st',
  add_cores type curriculum exceptions st = (Ok exceptions', st') ->
  forall k, In k exceptions -> In k exceptions'.
Proof.
  intros type curriculum.
  induction curriculum as [|a rest IH]; simpl;
    intros exceptions st exceptions' st' H k Hk.
  - now injection H as <- _.
  - destruct (c_title a) as [title|]; [|discriminate].
    destruct (PyStr.contains "Core" title).
    + apply bind_ok in H. destruct H as [new [st1 [_ H]]].
      apply (IH _ _ _ _ H). apply in_or_app. now left.
    + now apply (IH _ _ _ _ H).
Qed.

End Exceptions.

(** C1.  The major COMPA1 lists "Computing Electives" (COMP1511,
    COMP1521), then "Core Courses" (COMP1511), then "Level 2 Electives"
    (COMP1521, COMP2521).  The Core container is added first and keeps
    COMP1511 out of the electives, but the courses of a container that is
    not Core are not added to the exceptions: COMP1521 ends up in both
    elective containers. *)
Theorem non_core_containers_repeat_a_course :
  let st := snd (add_specialisation (B := Demo.backend) "COMPA1" initial) in
  trace st =
    [NewGroup "Major - COMPA1";
     NewContainer "Major - COMPA1" "Core Courses";
     NewContainer "Major - COMPA1" "Computing Electives";
     NewContainer "Major - COMPA1" "Level 2 Electives"] /\
  courses_at (structure st) "Major - COMPA1" "Core Courses" = ["COMP1511"] /\
  courses_at (structure st) "Major - COMPA1" "Computing Electives" = ["COMP1521"] /\
  courses_at (structure st) "Major - COMPA1" "Level 2 Electives"
    = ["COMP1521"; "COMP2521"].
Proof.
  repeat split.
Qed.

(** ** The string functions on examples *)

Example split_or :
  PyStr.split "COMP1511 or COMP1911 or COMP1917" " or "
    = ["COMP1511"; "COMP1911"; "COMP1917"].
Proof. reflexivity. Qed.

Example split_plus : PyStr.split "COMPA1++FINSA2" "+" = ["COMPA1"; ""; "FINSA2"].
Proof. reflexivity. Qed.

Example match_course_code_prefix :
  PyStr.match_course_code "COMP1511 or COMP1911" = true /\
  PyStr.match_course_code "comp1511" = false /\
  PyStr.match_course_code "COMP151" = false.
Proof. repeat split. Qed.

Example lower_title : PyStr.lower "Core Courses" = "core courses".
Proof. reflexivity. Qed.

Example spec_key_kinds :
  spec_key "COMPA1" = "Major - COMPA1" /\
  spec_key "FINSA2" = "Minor - FINSA2" /\
  spec_key "COMPAH" = "Honours - COMPAH".
Proof. repeat split. Qed.

(** ** Further properties of the prerequisite graph *)

(** X1.  [prune_edges] is a stable filter: an edge survives exactly when
    it is an input edge with both ends among the courses; pruning
    distributes over concatenation, pruning twice against the same courses
    changes nothing more, and two prunings commute. *)
Theorem prune_edges_filter : forall edges edges' courses courses' e,
  (In e (prune_edges edges courses) <->
   In e edges /\ In (source e) courses /\ In (target e) courses) /\
  prune_edges (edges ++ edges') courses =
    prune_edges edges courses ++ prune_edges edges' courses /\
  prune_edges (prune_edges edges courses) courses = prune_edges edges courses /\
  prune_edges (prune_edges edges courses) courses' =
    prune_edges (prune_edges edges courses') courses.
Proof.
  intros edges edges' courses courses' e. unfold prune_edges.
  split; [|split; [|split]].
  - rewrite filter_In, andb_true_iff, !mem_str_In. reflexivity.
  - apply filter_app.
  - apply filter_all. intros x Hx. now apply filter_In in Hx.
  - induction edges as [|x edges IH]; simpl; [reflexivity|].
    destruct (mem_str (source x) courses && mem_str (target x) courses) eqn:E1;
      destruct (mem_str (source x) courses' && mem_str (target x) courses') eqn:E2;
      simpl; rewrite ?E1, ?E2, IH; reflexivity.
Qed.

(** X2.  The edges of a concatenation of proto-edges are the edges of the
    first part followed by those of the second; an error in the first part
    is the one raised, whatever the second part holds. *)
Theorem proto_edges_to_edges_app : forall pes pes',
  proto_edges_to_edges (pes ++ pes') =
    match proto_edges_to_edges pes with
    | Raise e => Raise e
    | Ok es =>
        match proto_edges_to_edges pes' with
        | Raise e => Raise e
        | Ok es' => Ok (es ++ es')
        end
    end.
Proof.
  intros pes pes'. induction pes as [|pe pes IH]; simpl.
  - now destruct (proto_edges_to_edges pes').
  - rewrite IH.
    destruct (proto_edge_empty pe); [reflexivity|].
    destruct (pe_courses pe) as [| |[|c cs]]; try reflexivity.
    destruct (edges_of (original pe) (c :: cs)) as [es|e]; [|reflexivity].
    destruct (proto_edges_to_edges pes) as [es1|e]; [|reflexivity].
    destruct (proto_edges_to_edges pes') as [es2|e]; [|reflexivity].
    now rewrite app_assoc.
Qed.

(** ** [compose] *)

Lemma compose_fold : forall (A : Type) (rest : list (A -> A)) (f : A -> A) x,
  fold_left (fun f g => fun x => f (g x)) rest f x =
    f (fold_right (fun g acc => g acc) x rest).
Proof.
  intros A rest. induction rest as [|g rest IH]; simpl; intros f x.
  - reflexivity.
  - now rewrite IH.
Qed.

(** X3.  [compose] of no function raises [TypeError]; otherwise the
    composed function applies the functions from the last one given to
    the first one given. *)
Theorem compose_right_to_left : forall (A : Type) (functions : list (A -> A)),
  match compose functions with
  | Raise e => functions = [] /\ e = TypeError
  | Ok h =>
      functions <> [] /\
      forall x, h x = fold_right (fun g acc => g acc) x functions
  end.
Proof.
  intros A [|f rest]; simpl.
  - now split.
  - split; [discriminate|]. intros x. apply compose_fold.
Qed.

(** ** Further properties of the structure builder *)

Lemma keys_set_add : forall (V : Type) (d : Dict.t V) k v,
  Dict.keys (Dict.set k v d) = add_key k (Dict.keys d).
Proof.
  intros V d k v. unfold add_key, mem_str.
  induction d as [|[k0 v0] d IH]; simpl.
  - reflexivity.
  - destruct (String.eqb_spec k k0) as [->|Hne]; simpl.
    + reflexivity.
    + rewrite IH. now destruct (existsb (String.eqb k) (Dict.keys d)).
Qed.

Lemma keys_set_present : forall (V : Type) (d : Dict.t V) k v v0,
  Dict.get k d = Some v0 -> Dict.keys (Dict.set k v d) = Dict.keys d.
Proof.
  intros V d k v v0 H. rewrite keys_set_add. unfold add_key.
  assert (In k (Dict.keys d)) as Hin.
  { apply DictFacts.get_in in H. unfold Dict.keys. apply in_map_iff.
    now exists (k, v0). }
  apply mem_str_In in Hin. now rewrite Hin.
Qed.

Section Builder.

Context {B : Backend}.

Lemma keys_add_subgroup_container : forall K type container exceptions,
  preserves (fun st => Dict.keys (structure st) = K)
    (add_subgroup_container type container exceptions).
Proof.
  intros K type container exceptions st r st' H HK.
  apply add_subgroup_container_inv in H.
  destruct H as [[cs [group [_ [Hg [_ [-> _]]]]]]|[e [_ ->]]]; [|assumption].
  now rewrite (keys_set_present _ _ _ Hg).
Qed.

Lemma keys_add_cores : forall K type curriculum exceptions,
  preserves (fun st => Dict.keys (structure st) = K)
    (add_cores type curriculum exceptions).
Proof.
  intros K type curriculum. induction curriculum as [|a rest IH]; simpl;
    intros exceptions.
  - apply preserves_ret.
  - destruct (c_title a) as [title|]; [|apply preserves_raise].
    destruct (PyStr.contains "Core" title); [|apply IH].
    apply preserves_bind; [apply keys_add_subgroup_container|].
    intros new. apply IH.
Qed.

Lemma keys_add_others : forall K type curriculum exceptions,
  preserves (fun st => Dict.keys (structure st) = K)
    (add_others type curriculum exceptions).
Proof.
  intros K type curriculum exceptions. induction curriculum as [|a rest IH]; simpl.
  - apply preserves_ret.
  - destruct (c_title a) as [title|]; [|apply preserves_raise].
    destruct (negb (PyStr.contains "Core" title)); [|apply IH].
    apply preserves_bind; [apply keys_add_subgroup_container|].
    intros _. apply IH.
Qed.

Lemma keys_add_specialisation : forall code st st',
  add_specialisation code st = (Ok tt, st') ->
  Dict.keys (structure st') = add_key (spec_key code) (Dict.keys (structure st)).
Proof.
  intros code st st' H. unfold add_specialisation in H.
  destruct (find_specialisation code) as [spn|]; [|discriminate].
  apply bind_ok in H. destruct H as [[] [st1 [H1 H]]].
  apply bind_inv in H.
  assert (Hst1 : Dict.keys (structure st1) =
                 add_key (spec_key code) (Dict.keys (structure st))).
  { injection H1 as <-. simpl. apply keys_set_add. }
  destruct H as [[exceptions [st2 [H2 H3]]]|[e [_ He]]]; [|discriminate].
  apply (@keys_add_others _ (spec_key code) (curriculum spn) exceptions
           st2 (Ok tt) st' H3).
  now apply (@keys_add_cores _ (spec_key code) (curriculum spn) []
               st1 (Ok exceptions) st2 H2).
Qed.

Lemma keys_add_specialisations_fold : forall codes st st',
  for_each add_specialisation codes st = (Ok tt, st') ->
  Dict.keys (structure st') =
    fold_left (fun ks code => add_key (spec_key code) ks) codes
      (Dict.keys (structure st)).
Proof.
  induction codes as [|code codes IH]; simpl; intros st st' H.
  - now injection H as <-.
  - apply bind_ok in H. destruct H as [[] [st1 [H1 H2]]].
    rewrite (IH _ _ H2). now rewrite (keys_add_specialisation _ _ H1).
Qed.

Lemma keys_set_item_courses : forall K cs general item,
  preserves (fun st => Dict.keys (structure st) = K /\ In "General" K)
    (set_item_courses cs general item).
Proof.
  intros K cs general item st r st' H [HK Hin]. injection H as _ <-. simpl.
  split; [|assumption]. rewrite keys_set_add. unfold add_key.
  rewrite <- HK in Hin. apply mem_str_In in Hin. now rewrite Hin.
Qed.

Lemma keys_add_geneds_courses : forall K programCode container,
  preserves (fun st => Dict.keys (structure st) = K /\ In "General" K)
    (add_geneds_courses programCode container).
Proof.
  intros K programCode container. unfold add_geneds_courses.
  destruct (negb (opt_eqb (c_type container) "gened")); [apply preserves_ret|].
  intros st r st' H HK.
  destruct (Dict.get "General" (structure st)) as [general|];
    [|now injection H as _ <-].
  destruct (Dict.get "General Education" (content general)) as [item|];
    [|now injection H as _ <-].
  revert st r st' H HK.
  apply preserves_bind; [apply keys_set_item_courses|]. intros _.
  destruct (courses_is_None container); [|apply preserves_ret].
  apply preserves_bind; [apply preserves_lift|]. intros pool.
  intros st r st' H HK. cbv zeta in H.
  set (l := list_of_set _) in H. clearbody l. revert st r st' H HK.
  apply preserves_bind; [apply preserves_lift|]. intros geneds.
  apply preserves_bind; [apply preserves_lift|]. intros cs.
  apply preserves_bind; [apply keys_set_item_courses|]. intros _.
  apply preserves_ret.
Qed.

Lemma keys_add_geneds_to_structure : forall K programCode,
  preserves (fun st => Dict.keys (structure st) = K /\ In "General" K)
    (add_geneds_to_structure programCode).
Proof.
  intros K programCode. unfold add_geneds_to_structure.
  destruct (find_program programCode) as [p|]; [|apply preserves_raise].
  apply preserves_suppress.
  destruct (non_spec_data p) as [containers|]; [|apply preserves_raise].
  apply preserves_for_each. intros c _. unfold gened_round.
  apply preserves_bind.
  - intros st r st' H [HK Hin]. split; [|assumption].
    now apply (@keys_add_subgroup_container K "General" c [] st r st' H).
  - intros _. destruct (opt_eqb (c_type c) "gened"); [|apply preserves_ret].
    apply preserves_bind; [apply keys_add_geneds_courses|]. intros _.
    apply preserves_ret.
Qed.

Lemma spec_keys_unreserved : forall codes ks,
  (forall k, In k ks -> reserved k = false) ->
  forall k,
    In k (fold_left (fun ks code => add_key (spec_key code) ks) codes ks) ->
    reserved k = false.
Proof.
  induction codes as [|code codes IH]; simpl; intros ks Hks k Hk.
  - now apply Hks.
  - apply (IH (add_key (spec_key code) ks)); [|exact Hk].
    intros k' Hk'. unfold add_key in Hk'.
    destruct (mem_str (spec_key code) ks); [now apply Hks|].
    apply in_app_or in Hk'. destruct Hk' as [Hk'|[<-|[]]];
      [now apply Hks | apply reserved_spec_key].
Qed.

End Builder.

Lemma for_each_app : forall (A : Type) (f : A -> M unit) (l l' : list A) st,
  for_each f (l ++ l') st = bind (for_each f l) (fun _ => for_each f l') st.
Proof.
  intros A f l l'. induction l as [|a l IH]; simpl; intros st.
  - reflexivity.
  - unfold bind in *. destruct (f a st) as [[[]|e] st1]; [|reflexivity].
    apply IH.
Qed.

Lemma unreserved_not_mem : forall ks key,
  (forall k, In k ks -> reserved k = false) ->
  reserved key = true -> mem_str key ks = false.
Proof.
  intros ks key Hks Hkey. destruct (mem_str key ks) eqn:E; [|reflexivity].
  apply mem_str_In, Hks in E. congruence.
Qed.

(** X4.  The structure [get_structure] returns lists the groups of the
    requested specialisations in the order requested (a code requested
    twice keeps its first place), then "General", then "Rules", as long as
    the manual fixes add and remove no group. *)
Theorem get_structure_group_order : forall (B : Backend) programCode spec s uoc st,
  (forall s0 r s1,
     apply_manual_fixes s0 programCode = (r, s1) -> Dict.keys s1 = Dict.keys s0) ->
  get_structure programCode spec = (Ok (s, uoc), st) ->
  Dict.keys s = spec_keys (requested spec) ++ ["General"; "Rules"].
Proof.
  intros B programCode spec s uoc st Hfix H. unfold get_structure in H.
  apply bind_ok in H. destruct H as [[] [st1 [H1 H]]].
  apply bind_ok in H. destruct H as [uoc' [st2 [H2 H]]].
  apply bind_ok in H. destruct H as [[] [st3 [H3 H]]].
  apply bind_ok in H. destruct H as [[] [st4 [H4 H]]].
  injection H as <- _ <-.
  rewrite add_specialisations_requested in H1.
  apply keys_add_specialisations_fold in H1. simpl in H1.
  fold (spec_keys (requested spec)) in H1.
  assert (Hun : forall k, In k (spec_keys (requested spec)) -> reserved k = false).
  { intros k. apply spec_keys_unreserved. intros k' []. }
  assert (H2' : Dict.keys (structure st2) =
                spec_keys (requested spec) ++ ["General"; "Rules"]).
  { unfold add_program_code_details in H2.
    destruct (find_program programCode) as [p|]; [|discriminate].
    injection H2 as _ <-. simpl. rewrite !keys_set_add, H1. unfold add_key.
    rewrite (@unreserved_not_mem (spec_keys (requested spec)) "General" Hun eq_refl).
    assert (mem_str "Rules" (spec_keys (requested spec) ++ ["General"]) = false)
      as ->.
    { destruct (mem_str "Rules" (spec_keys (requested spec) ++ ["General"]))
        eqn:E; [|reflexivity].
      apply mem_str_In, in_app_or in E. destruct E as [E|[E|[]]].
      - apply Hun in E. discriminate.
      - discriminate. }
    now rewrite <- app_assoc. }
  assert (H3' : Dict.keys (structure st3) =
                spec_keys (requested spec) ++ ["General"; "Rules"]).
  { apply (@keys_add_geneds_to_structure B _ programCode st2 (Ok tt) st3 H3).
    split; [exact H2'|]. apply in_or_app. right. now left. }
  unfold manual_fixes in H4.
  destruct (apply_manual_fixes (structure st3) programCode) as [r s1] eqn:E.
  injection H4 as _ <-. simpl. now rewrite (Hfix _ _ _ E).
Qed.

Lemma get_structure_group_order_witness :
  Dict.keys (structure (snd (get_structure (B := Demo.backend) "3778"
                               (Some "COMPC1+COMPA1+COMPC1"))))
  = ["Major - COMPC1"; "Major - COMPA1"; "General"; "Rules"].
Proof.
  refine (@get_structure_group_order Demo.backend "3778"
            (Some "COMPC1+COMPA1+COMPC1")
            (structure (snd (get_structure (B := Demo.backend) "3778"
                               (Some "COMPC1+COMPA1+COMPC1"))))
            144%Z
            (snd (get_structure (B := Demo.backend) "3778"
                    (Some "COMPC1+COMPA1+COMPC1")))
            _ _).
  - intros s0 r s1 H. now injection H as _ <-.
  - reflexivity.
Defined.

(** X5.  When [get_structure] returns, the program is in the record
    store, the [uoc] returned is the UOC of its record and the structure
    returned is the one left by the manual fixes. *)
Theorem get_structure_returns_uoc : forall (B : Backend) programCode spec s uoc st,
  get_structure programCode spec = (Ok (s, uoc), st) ->
  (exists p, find_program programCode = Some p /\ uoc = p_UOC p) /\
  s = structure st /\
  exists st0,
    fst (apply_manual_fixes (structure st0) programCode) = Ok tt /\
    s = snd (apply_manual_fixes (structure st0) programCode).
Proof.
  intros B programCode spec s uoc st H. unfold get_structure in H.
  apply bind_ok in H. destruct H as [[] [st1 [H1 H]]].
  apply bind_ok in H. destruct H as [uoc' [st2 [H2 H]]].
  apply bind_ok in H. destruct H as [[] [st3 [H3 H]]].
  apply bind_ok in H. destruct H as [[] [st4 [H4 H]]].
  injection H as <- <- <-. split; [|split].
  - unfold add_program_code_details in H2.
    destruct (find_program programCode) as [p|]; [|discriminate].
    exists p. split; [reflexivity|]. now injection H2 as <- _.
  - reflexivity.
  - exists st3. unfold manual_fixes in H4.
    destruct (apply_manual_fixes (structure st3) programCode) as [r s1].
    now injection H4 as -> <-.
Qed.

Lemma get_structure_returns_uoc_witness :
  exists p, find_program (Backend := Demo.backend) "3778" = Some p /\ 144%Z = p_UOC p.
Proof.
  refine (proj1 (@get_structure_returns_uoc Demo.backend "3778" (Some "COMPA1")
                   (structure (snd (get_structure (B := Demo.backend) "3778"
                                      (Some "COMPA1"))))
                   144%Z
                   (snd (get_structure (B := Demo.backend) "3778" (Some "COMPA1")))
                   _)).
  reflexivity.
Defined.

(** X6.  When a requested specialisation is not in the record store and
    the ones requested before it were added, [get_structure] raises the
    HTTP error 400 whose detail names the code and the group key made
    from it; the program code is not even looked up, and the groups of the
    earlier specialisations stay in the structure object. *)
Theorem get_structure_unknown_specialisation :
  forall (B : Backend) programCode spec pre code post st1,
    requested spec = pre ++ code :: post ->
    for_each add_specialisation pre initial = (Ok tt, st1) ->
    find_specialisation code = None ->
    get_structure programCode spec =
      (Raise (HTTPException 400
                (code ++ " of type " ++ spec_key code ++ " not found")), st1).
Proof.
  intros B programCode spec pre code post st1 Hreq Hpre Hnone.
  unfold get_structure.
  unfold bind at 1. rewrite add_specialisations_requested, Hreq, for_each_app.
  unfold bind at 1. rewrite Hpre. simpl.
  unfold bind at 1. unfold add_specialisation. rewrite Hnone. reflexivity.
Qed.

Lemma get_structure_unknown_specialisation_witness :
  fst (get_structure (B := Demo.backend) "9999" (Some "COMPA1+COMPX2+COMPC1"))
  = Raise (HTTPException 400 "COMPX2 of type Minor - COMPX2 not found").
Proof.
  exact (f_equal fst
           (get_structure_unknown_specialisation Demo.backend "9999"
              (Some "COMPA1+COMPX2+COMPC1") ["COMPA1"] "COMPX2" ["COMPC1"]
              eq_refl eq_refl eq_refl)).
Defined.

Lemma add_key_nodup : forall k ks, NoDup ks -> NoDup (add_key k ks).
Proof.
  intros k ks Hnd. unfold add_key. destruct (mem_str k ks) eqn:E;
    [assumption|].
  apply NoDup_app; [assumption | repeat constructor; intros [] |].
  intros x Hx [<-|[]]. apply mem_str_In in Hx. congruence.
Qed.

Lemma keys_union_nodup : forall (V : Type) (new rest : Dict.t V),
  NoDup (Dict.keys rest) -> NoDup (Dict.keys (Dict.union rest new)).
Proof.
  intros V new. unfold Dict.union.
  induction new as [|[k v] new IH]; simpl; intros rest Hnd.
  - assumption.
  - apply IH. rewrite keys_set_add. now apply add_key_nodup.
Qed.

Section Containers.

Context {B : Backend}.

Lemma reduce_courses_nodup : forall items exceptions rest cs,
  reduce_courses items exceptions rest = Ok cs ->
  NoDup (Dict.keys rest) -> NoDup (Dict.keys cs).
Proof.
  induction items as [|it items IH]; simpl; intros exceptions rest cs H Hnd.
  - now injection H as <-.
  - destruct (convert_subgroup_object_to_courses_dict (fst it) (snd it))
      as [d|e]; [|discriminate].
    apply (IH _ _ _ H). now apply keys_union_nodup.
Qed.

Lemma container_courses_nodup : forall container exceptions cs,
  container_courses container exceptions = Ok cs -> NoDup (Dict.keys cs).
Proof.
  intros container exceptions cs H. unfold container_courses in H.
  destruct (c_courses container) as [| |items].
  - simpl in H. injection H as <-. constructor.
  - discriminate.
  - apply (reduce_courses_nodup _ _ _ H). constructor.
Qed.

(** the courses under a group and a title after one container is added *)
Lemma courses_at_after_add : forall type container exceptions st ks st' g t,
  add_subgroup_container type container exceptions st = (Ok ks, st') ->
  courses_at (structure st') g t =
    if String.eqb g (container_group type container) &&
       String.eqb t (container_title container)
    then ks
    else courses_at (structure st) g t.
Proof.
  intros type container exceptions st ks st' g t H.
  apply add_subgroup_container_inv in H.
  destruct H as [[cs [group [_ [Hg [Hr [-> _]]]]]]|[e [He _]]];
    [|discriminate].
  injection Hr as ->. unfold courses_at.
  destruct (String.eqb_spec g (container_group type container)) as [->|Hne].
  - rewrite DictFacts.get_set_same. simpl content. rewrite Hg.
    destruct (String.eqb_spec t (container_title container)) as [->|Hnt]; simpl.
    + now rewrite DictFacts.get_set_same.
    + now rewrite DictFacts.get_set_other.
  - simpl. now rewrite DictFacts.get_set_other.
Qed.

End Containers.

(** X7.  A container that is added without error can be read back: the
    courses stored under its group (or under "Rules" when its type
    contains "rule") and its title (or "General Education" when its type
    is "gened") are the courses returned; they have no repetition, none of
    them is one of the exceptions, each of them is a course an entry of the
    container resolves to, and the courses stored under every other group
    or title are as before. *)
Theorem add_subgroup_container_stores :
  forall (B : Backend) type container exceptions st ks st',
    add_subgroup_container type container exceptions st = (Ok ks, st') ->
    let group :=
      match c_type container with
      | Some conditional_type =>
          if PyStr.contains "rule" conditional_type then "Rules" else type
      | None => type
      end in
    let title :=
      if match c_type container with
         | Some conditional_type => String.eqb conditional_type "gened"
         | None => false
         end
      then "General Education"
      else match c_title container with Some t => t | None => "" end in
    courses_at (structure st') group title = ks /\
    NoDup ks /\
    (forall k, In k ks -> ~ In k exceptions) /\
    (forall k, In k ks -> In k (container_resolution container)) /\
    (forall g t,
       g <> group \/ t <> title ->
       courses_at (structure st') g t = courses_at (structure st) g t).
Proof.
  intros B type container exceptions st ks st' H group title.
  assert (Hgroup : group = container_group type container).
  { unfold group, container_group, is_rule.
    now destruct (c_type container). }
  assert (Htitle : title = container_title container).
  { unfold title, container_title, opt_eqb, default.
    now destruct (c_type container). }
  clearbody group title. subst group title.
  assert (Hat := fun g t => @courses_at_after_add B _ _ _ _ _ _ g t H).
  apply add_subgroup_container_inv in H.
  destruct H as [[cs [group [Hcs [_ [Hr _]]]]]|[e [He _]]]; [|discriminate].
  injection Hr as ->. split; [|split; [|split; [|split]]].
  - rewrite Hat, !String.eqb_refl. reflexivity.
  - exact (@container_courses_nodup B _ _ _ Hcs).
  - exact (@container_courses_avoid_exceptions B _ _ _ Hcs).
  - exact (@container_courses_keys B _ _ _ Hcs).
  - intros g t Hne. rewrite Hat.
    destruct (String.eqb_spec g (container_group type container)) as [->|];
      [|reflexivity].
    destruct (String.eqb_spec t (container_title container)) as [->|];
      [|reflexivity].
    now destruct Hne.
Qed.

Lemma add_subgroup_container_stores_witness :
  courses_at
    (structure (snd (add_subgroup_container (B := Search.backend) "General"
                       Search.level3_rule ["COMP1511"] Demo.before_geneds)))
    "Rules" "Level 3 Rule" = ["COMP3121"; "COMP3311"; "COMP1521"] /\
  courses_at
    (structure (snd (add_subgroup_container (B := Search.backend) "General"
                       Search.level3_rule ["COMP1511"] Demo.before_geneds)))
    "General" "Level 3 Rule" = [].
Proof.
  assert (Hrun :
    add_subgroup_container (B := Search.backend) "General"
      Search.level3_rule ["COMP1511"] Demo.before_geneds
    = (Ok ["COMP3121"; "COMP3311"; "COMP1521"],
       snd (add_subgroup_container (B := Search.backend) "General"
              Search.level3_rule ["COMP1511"] Demo.before_geneds))).
  { vm_compute. reflexivity. }
  destruct (@add_subgroup_container_stores Search.backend _ _ _ _ _ _ Hrun)
    as [Hat [_ [_ [_ Hframe]]]].
  split.
  - exact Hat.
  - rewrite Hframe by (left; discriminate). vm_compute. reflexivity.
Defined.

(** ** Order and priority within a specialisation *)

Lemma NoDup_map_filter : forall (A C : Type) (f : A -> C) (p : A -> bool) (l : list A),
  NoDup (map f l) -> NoDup (map f (filter p l)).
Proof.
  intros A C f p l. induction l as [|x l IH]; simpl; intros H.
  - constructor.
  - inversion H as [|? ? Hx Hl]; subst. destruct (p x); simpl; [|now apply IH].
    constructor; [|now apply IH].
    intros Hin. apply Hx. apply in_map_iff in Hin.
    destruct Hin as [y [Hy Hin]]. apply filter_In in Hin.
    apply in_map_iff. exists y. tauto.
Qed.

Lemma NoDup_map_inj : forall (A C : Type) (f : A -> C) (l : list A) x y,
  NoDup (map f l) -> In x l -> In y l -> f x = f y -> x = y.
Proof.
  intros A C f l. induction l as [|z l IH]; simpl; intros x y H Hx Hy Hf.
  - contradiction.
  - inversion H as [|? ? Hz Hl]; subst.
    destruct Hx as [->|Hx], Hy as [->|Hy]; auto.
    + exfalso. apply Hz. rewrite Hf. now apply in_map.
    + exfalso. apply Hz. rewrite <- Hf. now apply in_map.
Qed.

Lemma loc_eqb_false : forall g t g' t',
  (g, t) <> (g', t') -> String.eqb g g' && String.eqb t t' = false.
Proof.
  intros g t g' t' H.
  destruct (String.eqb_spec g g') as [->|]; [|reflexivity].
  destruct (String.eqb_spec t t') as [->|]; [|reflexivity].
  now destruct H.
Qed.

Section Priority.

Context {B : Backend}.

Lemma add_subgroup_container_new : forall type a exceptions st new st',
  add_subgroup_container type a exceptions st = (Ok new, st') ->
  (forall k, In k new -> ~ In k exceptions) /\
  trace st' = trace st ++ [spec_event type a].
Proof.
  intros type a exceptions st new st' H. apply add_subgroup_container_inv in H.
  destruct H as [[cs [group [Hcs [_ [Hr [_ Htr]]]]]]|[e [He _]]];
    [|discriminate].
  injection Hr as ->. split; [|exact Htr].
  exact (container_courses_avoid_exceptions _ _ Hcs).
Qed.

Lemma is_core_title : forall a title,
  c_title a = Some title -> is_core a = PyStr.contains "Core" title.
Proof. intros a title H. unfold is_core. now rewrite H. Qed.

Lemma add_cores_trace : forall type curriculum exceptions st exceptions' st',
  add_cores type curriculum exceptions st = (Ok exceptions', st') ->
  trace st' = trace st ++ map (spec_event type) (filter is_core curriculum).
Proof.
  intros type curriculum. induction curriculum as [|a rest IH]; simpl;
    intros exceptions st exceptions' st' H.
  - injection H as _ <-. now rewrite app_nil_r.
  - destruct (c_title a) as [title|] eqn:Et; [|discriminate].
    rewrite (is_core_title _ Et).
    destruct (PyStr.contains "Core" title).
    + apply bind_ok in H. destruct H as [new [st1 [H1 H2]]].
      apply add_subgroup_container_new in H1. destruct H1 as [_ H1].
      rewrite (IH _ _ _ _ H2), H1, <- app_assoc. reflexivity.
    + now apply IH in H.
Qed.

Lemma add_others_trace : forall type curriculum exceptions st st',
  add_others type curriculum exceptions st = (Ok tt, st') ->
  trace st' =
    trace st ++ map (spec_event type) (filter (fun c => negb (is_core c)) curriculum).
Proof.
  intros type curriculum exceptions.
  induction curriculum as [|a rest IH]; simpl; intros st st' H.
  - injection H as <-. now rewrite app_nil_r.
  - destruct (c_title a) as [title|] eqn:Et; [|discriminate].
    rewrite (is_core_title _ Et).
    destruct (PyStr.contains "Core" title); simpl in *.
    + now apply IH in H.
    + apply bind_ok in H. destruct H as [new [st1 [H1 H2]]].
      apply add_subgroup_container_new in H1. destruct H1 as [_ H1].
      rewrite (IH _ _ H2), H1, <- app_assoc. reflexivity.
Qed.

Lemma add_cores_courses : forall type curriculum exceptions st exceptions' st',
  add_cores type curriculum exceptions st = (Ok exceptions', st') ->
  NoDup (map (container_loc type) (filter is_core curriculum)) ->
  (forall g t,
     ~ In (g, t) (map (container_loc type) (filter is_core curriculum)) ->
     courses_at (structure st') g t = courses_at (structure st) g t) /\
  (forall a k,
     In a (filter is_core curriculum) ->
     In k (courses_at (structure st') (container_group type a) (container_title a)) ->
     In k exceptions' /\ ~ In k exceptions) /\
  (forall a b k,
     In a (filter is_core curriculum) -> In b (filter is_core curriculum) ->
     container_loc type a <> container_loc type b ->
     In k (courses_at (structure st') (container_group type a) (container_title a)) ->
     ~ In k (courses_at (structure st') (container_group type b) (container_title b))).
Proof.
  intros type curriculum. induction curriculum as [|a rest IH]; simpl;
    intros exceptions st exceptions' st' H Hnd.
  - injection H as <- <-. repeat split; intros; contradiction.
  - destruct (c_title a) as [title|] eqn:Et; [|discriminate].
    rewrite (is_core_title _ Et) in *.
    destruct (PyStr.contains "Core" title); [|now apply IH].
    apply bind_ok in H. destruct H as [new [st1 [H1 H2]]].
    simpl in Hnd. inversion Hnd as [|? ? Ha Hrest]; subst.
    destruct (IH _ _ _ _ H2 Hrest) as [HF [HP HD]].
    pose proof (add_cores_extends _ _ _ _ H2) as Hext.
    assert (Hat := fun g t => courses_at_after_add _ _ _ _ g t H1).
    destruct (add_subgroup_container_new _ _ _ _ H1) as [Havoid _].
    assert (Hnew : courses_at (structure st') (container_group type a)
                     (container_title a) = new).
    { rewrite (HF _ _ Ha), Hat, !String.eqb_refl. reflexivity. }
    split; [|split].
    + intros g t Hnin. rewrite HF by (intros Hin; apply Hnin; now right).
      rewrite Hat, loc_eqb_false; [reflexivity|].
      intros Heq. apply Hnin. left. now symmetry.
    + intros x k [<-|Hx] Hk.
      * rewrite Hnew in Hk. split; [|now apply Havoid].
        apply Hext, in_or_app. now right.
      * destruct (HP x k Hx Hk) as [Hin Hout]. split; [assumption|].
        intros Hex. apply Hout, in_or_app. now left.
    + intros x y k [<-|Hx] [<-|Hy] Hne Hk.
      * now destruct Hne.
      * rewrite Hnew in Hk. intros Hky.
        destruct (HP y k Hy Hky) as [_ Hout]. apply Hout, in_or_app. now right.
      * rewrite Hnew. intros Hkx.
        destruct (HP x k Hx Hk) as [_ Hout]. apply Hout, in_or_app. now right.
      * now apply (HD x y k).
Qed.

Lemma add_others_courses : forall type curriculum exceptions st st',
  add_others type curriculum exceptions st = (Ok tt, st') ->
  NoDup (map (container_loc type) (filter (fun c => negb (is_core c)) curriculum)) ->
  (forall g t,
     ~ In (g, t) (map (container_loc type)
                    (filter (fun c => negb (is_core c)) curriculum)) ->
     courses_at (structure st') g t = courses_at (structure st) g t) /\
  (forall c k,
     In c (filter (fun c => negb (is_core c)) curriculum) ->
     In k (courses_at (structure st') (container_group type c) (container_title c)) ->
     ~ In k exceptions).
Proof.
  intros type curriculum exceptions.
  induction curriculum as [|a rest IH]; simpl; intros st st' H Hnd.
  - injection H as <-. split; intros; [reflexivity | contradiction].
  - destruct (c_title a) as [title|] eqn:Et; [|discriminate].
    rewrite (is_core_title _ Et) in *.
    destruct (PyStr.contains "Core" title); simpl in *; [now apply IH|].
    apply bind_ok in H. destruct H as [new [st1 [H1 H2]]].
    inversion Hnd as [|? ? Ha Hrest]; subst.
    destruct (IH _ _ H2 Hrest) as [HF HP].
    assert (Hat := fun g t => courses_at_after_add _ _ _ _ g t H1).
    destruct (add_subgroup_container_new _ _ _ _ H1) as [Havoid _].
    split.
    + intros g t Hnin. rewrite HF by (intros Hin; apply Hnin; now right).
      rewrite Hat, loc_eqb_false; [reflexivity|].
      intros Heq. apply Hnin. left. now symmetry.
    + intros x k [<-|Hx] Hk; [|now apply (HP x k)].
      rewrite (HF _ _ Ha), Hat, !String.eqb_refl in Hk. now apply Havoid.
Qed.

End Priority.

(** X8.  A specialisation that is added without error is in the record
    store, and its writes are, in this order: the creation of its group,
    its containers whose title contains "Core" in curriculum order, then
    its other containers in curriculum order. *)
Theorem add_specialisation_order : forall (B : Backend) code st st',
  add_specialisation code st = (Ok tt, st') ->
  exists sp,
    find_specialisation code = Some sp /\
    trace st' =
      trace st ++
      NewGroup (spec_key code) ::
      map (spec_event (spec_key code)) (filter is_core (curriculum sp)) ++
      map (spec_event (spec_key code))
        (filter (fun c => negb (is_core c)) (curriculum sp)).
Proof.
  intros B code st st' H. unfold add_specialisation in H.
  destruct (find_specialisation code) as [sp|]; [|discriminate].
  exists sp. split; [reflexivity|].
  apply bind_ok in H. destruct H as [[] [st1 [H1 H]]].
  apply bind_ok in H. destruct H as [exceptions [st2 [H2 H3]]].
  apply add_cores_trace in H2. apply add_others_trace in H3.
  injection H1 as <-. simpl in H2.
  rewrite H3, H2, <- !app_assoc. reflexivity.
Qed.

Lemma add_specialisation_order_witness :
  exists sp,
    find_specialisation (Backend := Demo.backend) "COMPA1" = Some sp /\
    trace (snd (add_specialisation (B := Demo.backend) "COMPA1" initial)) =
      [] ++
      NewGroup (spec_key "COMPA1") ::
      map (spec_event (spec_key "COMPA1")) (filter is_core (curriculum sp)) ++
      map (spec_event (spec_key "COMPA1"))
        (filter (fun c => negb (is_core c)) (curriculum sp)).
Proof.
  exact (add_specialisation_order Demo.backend "COMPA1" initial eq_refl).
Defined.

(** X9.  In a specialisation whose containers are stored at places that
    differ two by two, a course stored under a Core container is stored
    under no other container of the specialisation. *)
Theorem core_courses_take_priority : forall (B : Backend) code sp st st' a c k,
  find_specialisation code = Some sp ->
  add_specialisation code st = (Ok tt, st') ->
  NoDup (map (container_loc (spec_key code)) (curriculum sp)) ->
  In a (curriculum sp) -> In c (curriculum sp) ->
  is_core a = true -> a <> c ->
  In k (courses_at (structure st')
          (container_group (spec_key code) a) (container_title a)) ->
  ~ In k (courses_at (structure st')
            (container_group (spec_key code) c) (container_title c)).
Proof.
  intros B code sp st st' a c k Hsp H Hnd Ha Hc Hcore Hac Hk.
  unfold add_specialisation in H. rewrite Hsp in H.
  apply bind_ok in H. destruct H as [[] [st1 [_ H]]].
  apply bind_ok in H. destruct H as [exceptions [st2 [H2 H3]]].
  set (key := spec_key code) in *.
  destruct (add_cores_courses _ _ _ _ H2 (NoDup_map_filter _ is_core _ Hnd))
    as [_ [HP HD]].
  destruct (add_others_courses _ _ _ _ H3
              (NoDup_map_filter _ (fun c => negb (is_core c)) _ Hnd))
    as [HF HQ].
  assert (Hloc : container_loc key a <> container_loc key c).
  { intros Heq. apply Hac. exact (NoDup_map_inj _ _ a c Hnd Ha Hc Heq). }
  assert (Hframe : forall x, In x (curriculum sp) -> is_core x = true ->
            courses_at (structure st') (container_group key x) (container_title x) =
            courses_at (structure st2) (container_group key x) (container_title x)).
  { intros x Hx Hxc. apply HF. intros Hin. apply in_map_iff in Hin.
    destruct Hin as [y [Heq Hy]]. apply filter_In in Hy. destruct Hy as [Hy Hyc].
    assert (y = x) by exact (NoDup_map_inj _ _ y x Hnd Hy Hx Heq).
    subst y. rewrite Hxc in Hyc. discriminate. }
  assert (Hacore : In a (filter is_core (curriculum sp)))
    by (apply filter_In; now split).
  rewrite (Hframe a Ha Hcore) in Hk.
  destruct (is_core c) eqn:Hccore.
  - rewrite (Hframe c Hc Hccore).
    assert (Hccore' : In c (filter is_core (curriculum sp)))
      by (apply filter_In; now split).
    exact (HD a c k Hacore Hccore' Hloc Hk).
  - intros Hkc. apply (HQ c k); [| exact Hkc |].
    + apply filter_In. split; [assumption | now rewrite Hccore].
    + apply (HP a k Hacore Hk).
Qed.

Lemma core_courses_take_priority_witness :
  ~ In "COMP1511"
      (courses_at
         (structure (snd (add_specialisation (B := Demo.backend) "COMPA1" initial)))
         "Major - COMPA1" "Computing Electives").
Proof.
  refine (@core_courses_take_priority Demo.backend "COMPA1" Demo.COMPA1 initial _
            (Demo.container "Core Courses" "core" 6 [Demo.comp1511])
            (Demo.container "Computing Electives" "elective" 12
               [Demo.comp1511; Demo.comp1521])
            "COMP1511" eq_refl eq_refl _ _ _ eq_refl _ _).
  - repeat constructor; simpl; intuition discriminate.
  - right. left. reflexivity.
  - left. reflexivity.
  - discriminate.
  - left. reflexivity.
Defined.

(** ** The general education step *)

Section GenEdStep.

Context {B : Backend}.

Lemma reserved_container_group : forall c,
  reserved (container_group "General" c) = true.
Proof.
  intros c. unfold container_group. now destruct (is_rule c).
Qed.

Lemma get_add_subgroup_general : forall key v container exceptions,
  reserved key = false ->
  preserves (fun st => Dict.get key (structure st) = v)
    (add_subgroup_container "General" container exceptions).
Proof.
  intros key v container exceptions Hkey st r st' H Hv.
  apply add_subgroup_container_inv in H.
  destruct H as [[cs [group [_ [_ [_ [-> _]]]]]]|[e [_ ->]]]; [|assumption].
  rewrite DictFacts.get_set_other; [assumption|].
  intros ->. rewrite reserved_container_group in Hkey. discriminate.
Qed.

Lemma get_set_item_courses : forall key v cs general item,
  reserved key = false ->
  preserves (fun st => Dict.get key (structure st) = v)
    (set_item_courses cs general item).
Proof.
  intros key v cs general item Hkey st r st' H Hv. injection H as _ <-. simpl.
  rewrite DictFacts.get_set_other; [assumption|]. now intros ->.
Qed.

Lemma get_add_geneds_courses : forall key v programCode container,
  reserved key = false ->
  preserves (fun st => Dict.get key (structure st) = v)
    (add_geneds_courses programCode container).
Proof.
  intros key v programCode container Hkey. unfold add_geneds_courses.
  destruct (negb (opt_eqb (c_type container) "gened")); [apply preserves_ret|].
  intros st r st' H Hv.
  destruct (Dict.get "General" (structure st)) as [general|];
    [|now injection H as _ <-].
  destruct (Dict.get "General Education" (content general)) as [item|];
    [|now injection H as _ <-].
  revert st r st' H Hv.
  apply preserves_bind; [now apply get_set_item_courses|]. intros _.
  destruct (courses_is_None container); [|apply preserves_ret].
  apply preserves_bind; [apply preserves_lift|]. intros pool.
  intros st r st' H Hv. cbv zeta in H.
  set (l := list_of_set _) in H. clearbody l. revert st r st' H Hv.
  apply preserves_bind; [apply preserves_lift|]. intros geneds.
  apply preserves_bind; [apply preserves_lift|]. intros cs.
  apply preserves_bind; [now apply get_set_item_courses|]. intros _.
  apply preserves_ret.
Qed.

End GenEdStep.

(** X10.  [add_geneds_to_structure] writes to "General" and "Rules" only:
    whether it returns or raises, every other group of the structure, so
    every specialisation, is left as it was. *)
Theorem add_geneds_to_structure_keeps_specialisations :
  forall (B : Backend) programCode st r st' key,
    add_geneds_to_structure programCode st = (r, st') ->
    reserved key = false ->
    Dict.get key (structure st') = Dict.get key (structure st).
Proof.
  intros B programCode st r st' key H Hkey.
  remember (Dict.get key (structure st)) as v eqn:Hv. symmetry in Hv.
  revert st r st' H Hv. unfold add_geneds_to_structure.
  destruct (find_program programCode) as [p|]; [|apply preserves_raise].
  apply preserves_suppress.
  destruct (non_spec_data p) as [containers|]; [|apply preserves_raise].
  apply preserves_for_each. intros c _. unfold gened_round.
  apply preserves_bind; [now apply get_add_subgroup_general|]. intros _.
  destruct (opt_eqb (c_type c) "gened"); [|apply preserves_ret].
  apply preserves_bind; [now apply get_add_geneds_courses|]. intros _.
  apply preserves_ret.
Qed.

Lemma add_geneds_to_structure_keeps_specialisations_witness :
  Dict.get "Major - COMPA1"
    (structure (snd (add_geneds_to_structure (B := Demo.backend) "3778"
                       Demo.before_geneds)))
  = Dict.get "Major - COMPA1" (structure Demo.before_geneds).
Proof.
  exact (add_geneds_to_structure_keeps_specialisations Demo.backend "3778"
           Demo.before_geneds "Major - COMPA1" eq_refl eq_refl).
Defined.

(** X11.  [add_geneds_to_structure] swallows every [KeyError].  For a
    program without [non_spec_data] it returns with the structure
    untouched.  For a program that the general education file does not
    list, it returns normally too, but it stops at the first general
    education container: that container is left with no course and the
    containers after it are never added. *)
Theorem add_geneds_to_structure_suppressed : forall (B : Backend) programCode p st,
  find_program programCode = Some p ->
  (non_spec_data p = None ->
   add_geneds_to_structure programCode st = (Ok tt, st)) /\
  (forall pre g post st1 general,
     non_spec_data p = Some (pre ++ g :: post) ->
     for_each (gened_round programCode) pre st = (Ok tt, st1) ->
     c_type g = Some "gened" ->
     c_courses g = Missing ->
     gened_pool programCode = None ->
     Dict.get "General" (structure st1) = Some general ->
     exists st2,
       add_geneds_to_structure programCode st = (Ok tt, st2) /\
       gened_round programCode g st1 = (Raise (KeyError programCode), st2) /\
       gened_courses (structure st2) = [] /\
       trace st2 = trace st1 ++ [NewContainer "General" "General Education"]).
Proof.
  intros B programCode p st Hp. unfold add_geneds_to_structure. rewrite Hp.
  split.
  - intros ->. reflexivity.
  - intros pre g post st1 general -> Hpre Htype Hcourses Hpool Hgeneral.
    assert (Hround : exists st2,
      gened_round programCode g st1 = (Raise (KeyError programCode), st2) /\
      gened_courses (structure st2) = [] /\
      trace st2 = trace st1 ++ [NewContainer "General" "General Education"]).
    { destruct g as [title ty credits cs nts]. simpl in Htype, Hcourses. subst.
      unfold gened_round, bind, add_subgroup_container.
      unfold container_courses, container_title, container_group, is_rule.
      cbn [c_type c_courses c_title credits_to_complete c_notes opt_eqb
           reduce_courses].
      change (PyStr.contains "rule" "gened") with false.
      change ("gened" =? "gened") with true. cbv iota.
      rewrite Hgeneral. unfold add_geneds_courses.
      cbn [c_type c_courses c_title credits_to_complete c_notes opt_eqb structure].
      change ("gened" =? "gened") with true. cbn [negb]. cbv iota beta.
      cbn [structure]. rewrite DictFacts.get_set_same. cbn [content].
      rewrite DictFacts.get_set_same.
      unfold bind, set_item_courses, courses_is_None, get_gen_eds, lift.
      cbn [c_courses]. rewrite Hpool. cbv iota beta.
      eexists. split; [reflexivity|]. split; [|reflexivity].
      unfold gened_courses. cbn [structure].
      rewrite DictFacts.get_set_same. cbn [content].
      rewrite DictFacts.get_set_same. reflexivity. }
    destruct Hround as [st2 [Hround [Hcs Htr]]].
    exists st2. split; [|now repeat split].
    unfold suppress_KeyError. rewrite for_each_app. unfold bind at 1.
    rewrite Hpre. simpl. unfold bind at 1. rewrite Hround. reflexivity.
Qed.

Lemma add_geneds_to_structure_suppressed_witness :
  exists st2,
    add_geneds_to_structure (B := Bare.backend) "3502" Bare.details_added
      = (Ok tt, st2) /\
    gened_courses (structure st2) = [] /\
    trace st2 =
      [NewGroup "General"; NewGroup "Rules";
       NewContainer "General" "Flexible Education";
       NewContainer "General" "General Education"].
Proof.
  destruct (proj2 (add_geneds_to_structure_suppressed Bare.backend "3502"
                     Bare.details_added eq_refl)
              [Bare.flexible] Demo.gened [Demo.maturity]
              (snd (gened_round (B := Bare.backend) "3502" Bare.flexible
                      Bare.details_added))
              _ eq_refl eq_refl eq_refl eq_refl eq_refl eq_refl)
    as [st2 [Hrun [_ [Hcs Htr]]]].
  exists st2. split; [exact Hrun | split; [exact Hcs | exact Htr]].
Defined.

(** ** Properties of the caches *)

Lemma in_union : forall (V : Type) (new rest : Dict.t V) k v,
  In (k, v) (Dict.union rest new) -> In (k, v) rest \/ In (k, v) new.
Proof.
  intros V new. unfold Dict.union.
  induction new as [|[k0 v0] new IH]; simpl; intros rest k v H.
  - now left.
  - destruct (IH _ _ _ H) as [H1|H1].
    + apply DictFacts.in_set in H1. destruct H1 as [[-> ->]|H2].
      * right. now left.
      * now left.
    + right. now right.
Qed.

Lemma keys_cache_by : forall f courses cached out,
  Cache.cache_by f courses cached = Ok out ->
  Dict.keys out = fold_left (fun ks c => add_key c ks) (map fst courses) (Dict.keys cached).
Proof.
  intros f courses. induction courses as [|[course data] rest IH]; simpl; intros cached out H.
  - now injection H as <-.
  - destruct (f data) as [v|e]; [|discriminate].
    rewrite (IH _ _ H). now rewrite keys_set_add.
Qed.

Lemma fold_add_key_fresh : forall cs ks,
  NoDup (ks ++ cs) -> fold_left (fun ks c => add_key c ks) cs ks = ks ++ cs.
Proof.
  induction cs as [|c cs IH]; simpl; intros ks Hnd.
  - now rewrite app_nil_r.
  - assert (Hc : mem_str c ks = false).
    { destruct (mem_str c ks) eqn:E; [|reflexivity].
      apply mem_str_In in E. apply NoDup_remove_2 in Hnd.
      exfalso. apply Hnd. apply in_or_app. now left. }
    unfold add_key at 2. rewrite Hc.
    rewrite IH; rewrite <- app_assoc; simpl; [reflexivity | exact Hnd].
Qed.

Lemma cache_by_keeps : forall f rest course v acc out,
  ~ In course (map fst rest) ->
  Dict.get course acc = Some v ->
  Cache.cache_by f rest acc = Ok out ->
  Dict.get course out = Some v.
Proof.
  intros f. induction rest as [|[c' d'] rest IH]; simpl; intros course v acc out Hc Hacc H.
  - now injection H as <-.
  - destruct (f d') as [v'|e']; [|discriminate].
    apply (IH course v) in H; [exact H | tauto |].
    rewrite DictFacts.get_set_other; [exact Hacc|].
    intros <-. apply Hc. now left.
Qed.

Lemma cache_by_get : forall f courses cached out,
  Cache.cache_by f courses cached = Ok out ->
  NoDup (map fst courses) ->
  forall course data, In (course, data) courses ->
  exists v, f data = Ok v /\ Dict.get course out = Some v.
Proof.
  intros f courses. induction courses as [|[c d] rest IH]; simpl;
    intros cached out H Hnd course data Hin.
  - contradiction.
  - destruct (f d) as [v|e] eqn:Ef; [|discriminate].
    inversion Hnd as [|? ? Hc Hnd']; subst.
    destruct Hin as [Heq|Hin].
    + injection Heq as -> ->. exists v. split; [exact Ef|].
      eapply cache_by_keeps; [exact Hc | apply DictFacts.get_set_same | exact H].
    + apply (IH _ _ H Hnd' _ _ Hin).
Qed.

Lemma cache_by_keys : forall f (courses : Dict.t Cache.CourseData) out,
  NoDup (Dict.keys courses) ->
  Cache.cache_by f courses [] = Ok out ->
  Dict.keys out = Dict.keys courses.
Proof.
  intros f courses out Hnd H. rewrite (keys_cache_by _ _ _ H). simpl.
  now rewrite fold_add_key_fresh.
Qed.

(** the two caches run the same loop, so where the second succeeds with a
    stronger body so does the first, on related values *)
Lemma cache_by_related : forall (f g : Cache.CourseData -> result (Dict.t Z))
    (R : Dict.t Z -> Dict.t Z -> Prop),
  (forall data w, g data = Ok w -> exists v, f data = Ok v /\ R v w) ->
  forall courses acc1 acc2 out2,
  Dict.keys acc1 = Dict.keys acc2 ->
  (forall c v, Dict.get c acc1 = Some v ->
     exists w, Dict.get c acc2 = Some w /\ R v w) ->
  Cache.cache_by g courses acc2 = Ok out2 ->
  exists out1,
    Cache.cache_by f courses acc1 = Ok out1 /\
    Dict.keys out1 = Dict.keys out2 /\
    forall c v, Dict.get c out1 = Some v ->
      exists w, Dict.get c out2 = Some w /\ R v w.
Proof.
  intros f g R Hfg courses. induction courses as [|[course data] rest IH]; simpl;
    intros acc1 acc2 out2 Hk Hacc H.
  - injection H as <-. exists acc1. now repeat split.
  - destruct (g data) as [w|e] eqn:Eg; [|discriminate].
    destruct (Hfg _ _ Eg) as [v [Ef Hvw]]. rewrite Ef.
    apply (IH (Dict.set course v acc1)) in H; [exact H | |].
    + now rewrite !keys_set_add, Hk.
    + intros c v' Hget. destruct (String.eqb_spec c course) as [->|Hne].
      * rewrite DictFacts.get_set_same in Hget. injection Hget as <-.
        exists w. split; [apply DictFacts.get_set_same | exact Hvw].
      * rewrite DictFacts.get_set_other in Hget by exact Hne.
        rewrite DictFacts.get_set_other by exact Hne. now apply Hacc.
Qed.

(** X12: whenever the exclusions cache can be built, so can the
    equivalents cache, over the same courses in the same order, and every
    course cached as an equivalent of a course is also cached as one of
    its exclusions. *)
Theorem cache_exclusions_cover_equivalents :
  forall (courses : Dict.t Cache.CourseData) cached_exclusions,
  Cache.cache_exclusions courses = Ok cached_exclusions ->
  exists cached_equivalents,
    Cache.cache_equivalents courses = Ok cached_equivalents /\
    Dict.keys cached_equivalents = Dict.keys cached_exclusions /\
    forall course equiv,
      Dict.get course cached_equivalents = Some equiv ->
      exists excl,
        Dict.get course cached_exclusions = Some excl /\
        forall c, In c (Dict.keys equiv) -> In c (Dict.keys excl).
Proof.
  intros courses out H. unfold Cache.cache_exclusions in H.
  unfold Cache.cache_equivalents.
  eapply (@cache_by_related _ _
            (fun v w => forall c, In c (Dict.keys v) -> In c (Dict.keys w)));
    [ | | | exact H]; [ | reflexivity | ].
  - intros data w Hw. cbv beta in Hw.
    destruct (Cache.exclusions data) as [excl|]; simpl in Hw; [|discriminate].
    destruct (Cache.equivalents data) as [equiv|]; simpl in Hw; [|discriminate].
    injection Hw as <-. exists equiv. split; [reflexivity|].
    intros c Hc. apply DictFacts.keys_union. now right.
  - intros c v Hget. discriminate.
Qed.

Lemma cache_exclusions_cover_equivalents_witness :
  exists cached_equivalents,
    Cache.cache_equivalents
      [("COMP1511", Cache.mkCourseData (Some [("COMP1911", 1%Z)])
                                       (Some [("DPST1091", 1%Z)]))]
      = Ok cached_equivalents /\
    Dict.keys cached_equivalents = ["COMP1511"] /\
    forall course equiv,
      Dict.get course cached_equivalents = Some equiv ->
      exists excl,
        Dict.get course
          [("COMP1511", [("COMP1911", 1%Z); ("DPST1091", 1%Z)])] = Some excl /\
        forall c, In c (Dict.keys equiv) -> In c (Dict.keys excl).
Proof.
  exact (cache_exclusions_cover_equivalents
           [("COMP1511", Cache.mkCourseData (Some [("COMP1911", 1%Z)])
                                            (Some [("DPST1091", 1%Z)]))]
           eq_refl).
Defined.

(** X13: over processed courses with pairwise different codes in which
    every course has both keys, the exclusions cache is built, lists the
    courses in their order, and holds for each course exactly the keys
    of its exclusions and of its equivalents. *)
Theorem cache_exclusions_spec :
  forall (courses : Dict.t Cache.CourseData),
  NoDup (Dict.keys courses) ->
  (forall course data, In (course, data) courses ->
     Cache.exclusions data <> None /\ Cache.equivalents data <> None) ->
  exists cached,
    Cache.cache_exclusions courses = Ok cached /\
    Dict.keys cached = Dict.keys courses /\
    forall course data, In (course, data) courses ->
      exists excl equiv both,
        Cache.exclusions data = Some excl /\
        Cache.equivalents data = Some equiv /\
        Dict.get course cached = Some both /\
        forall c, In c (Dict.keys both) <->
                  In c (Dict.keys excl) \/ In c (Dict.keys equiv).
Proof.
  intros courses Hnd Hall. unfold Cache.cache_exclusions.
  set (f := fun data : Cache.CourseData => _).
  assert (Hrun : forall cs acc,
            (forall course data, In (course, data) cs ->
               Cache.exclusions data <> None /\ Cache.equivalents data <> None) ->
            exists out, Cache.cache_by f cs acc = Ok out).
  { induction cs as [|[c d] cs IH]; simpl; intros acc Hcs.
    - now exists acc.
    - destruct (Hcs c d (or_introl eq_refl)) as [He Hq].
      subst f. simpl.
      destruct (Cache.exclusions d); [|congruence].
      destruct (Cache.equivalents d); [|congruence]. simpl.
      apply IH. intros course data Hin. apply (Hcs course). now right. }
  destruct (Hrun courses [] Hall) as [cached Hc]. exists cached.
  split; [exact Hc|]. split; [now apply (cache_by_keys f)|].
  intros course data Hin.
  destruct (cache_by_get _ _ _ Hc Hnd _ _ Hin) as [both [Hf Hget]].
  subst f. simpl in Hf.
  destruct (Cache.exclusions data) as [excl|]; simpl in Hf; [|discriminate].
  destruct (Cache.equivalents data) as [equiv|]; simpl in Hf; [|discriminate].
  injection Hf as <-. exists excl, equiv, (Dict.union excl equiv).
  repeat split; try assumption.
  - apply DictFacts.keys_union.
  - apply DictFacts.keys_union.
Qed.

Lemma cache_exclusions_spec_witness :
  exists cached,
    Cache.cache_exclusions
      [("COMP1511", Cache.mkCourseData (Some [("COMP1911", 1%Z)])
                                       (Some [("DPST1091", 1%Z)]));
       ("COMP1911", Cache.mkCourseData (Some [("COMP1511", 1%Z)]) (Some []))]
      = Ok cached /\
    Dict.keys cached = ["COMP1511"; "COMP1911"].
Proof.
  destruct (@cache_exclusions_spec
              [("COMP1511", Cache.mkCourseData (Some [("COMP1911", 1%Z)])
                                               (Some [("DPST1091", 1%Z)]));
               ("COMP1911", Cache.mkCourseData (Some [("COMP1511", 1%Z)]) (Some []))])
    as [cached [Hrun [Hkeys _]]].
  - repeat constructor; simpl; intuition discriminate.
  - intros course data [H|[H|[]]]; injection H as <- <-; split; discriminate.
  - exists cached. split; [exact Hrun | exact Hkeys].
Defined.

Lemma fold_app_concat : forall (rest : list (list string)) first,
  fold_left (@app string) rest first = first ++ concat rest.
Proof.
  induction rest as [|l rest IH]; simpl; intros first.
  - now rewrite app_nil_r.
  - now rewrite IH, app_assoc.
Qed.

Lemma in_all_codes : forall (keyword_codes : Dict.t (list string)) codes,
  Cache.all_codes keyword_codes = Ok codes ->
  forall c, In c codes <->
            exists keyword cs, In (keyword, cs) keyword_codes /\ In c cs.
Proof.
  unfold Cache.all_codes. intros [|[kw0 cs0] kc] codes; simpl; [discriminate|].
  intros H. injection H as <-. intros c.
  rewrite fold_app_concat, in_app_iff, in_concat. split.
  - intros [H|[l [Hl Hc]]].
    + exists kw0, cs0. auto.
    + apply in_map_iff in Hl. destruct Hl as [[kw cs] [<- Hin]].
      exists kw, cs. auto.
  - intros [kw [cs [[Heq|Hin] Hc]]].
    + injection Heq as -> ->. now left.
    + right. exists cs. split; [|exact Hc].
      apply in_map_iff. now exists (kw, cs).
Qed.

Lemma put_program_spec : forall code p (m : Dict.t (Dict.t Z)),
  In code (Dict.keys m) ->
  exists m',
    Cache.put_program code p m = Ok m' /\
    Dict.keys m' = Dict.keys m /\
    forall c q, In q (Cache.programs_of m' c) <->
                In q (Cache.programs_of m c) \/ (c = code /\ q = p).
Proof.
  intros code p m Hin.
  destruct (DictFacts.get_some_key _ _ Hin) as [inner Hg].
  unfold Cache.put_program. rewrite Hg. eexists. split; [reflexivity|].
  split; [now apply (keys_set_present _ _ _ Hg)|].
  intros c q. unfold Cache.programs_of.
  destruct (String.eqb_spec c code) as [->|Hne].
  - rewrite DictFacts.get_set_same, Hg, DictFacts.keys_set. intuition.
  - rewrite DictFacts.get_set_other by exact Hne. intuition congruence.
Qed.

Lemma put_codes_spec : forall codes p (m : Dict.t (Dict.t Z)),
  (forall c, In c codes -> In c (Dict.keys m)) ->
  exists m',
    Cache.put_codes codes p m = Ok m' /\
    Dict.keys m' = Dict.keys m /\
    forall c q, In q (Cache.programs_of m' c) <->
                In q (Cache.programs_of m c) \/ (In c codes /\ q = p).
Proof.
  induction codes as [|code codes IH]; simpl; intros p m Hall.
  - exists m. repeat split; intuition.
  - destruct (put_program_spec code p m (Hall _ (or_introl eq_refl)))
      as [m1 [-> [Hk1 Hp1]]].
    destruct (IH p m1) as [m2 [Hrun [Hk2 Hp2]]].
    { intros c Hc. rewrite Hk1. apply Hall. now right. }
    exists m2. split; [exact Hrun|]. split; [congruence|].
    intros c q. rewrite Hp2, Hp1. intuition.
Qed.

Section ProgramMappingFacts.

Variable lower : string -> string.

Lemma scan_keywords_spec : forall (keyword_codes : list (string * list string))
    program (m : Dict.t (Dict.t Z)),
  (forall keyword cs c, In (keyword, cs) keyword_codes -> In c cs ->
     In c (Dict.keys m)) ->
  exists m',
    Cache.scan_keywords lower keyword_codes program m = Ok m' /\
    Dict.keys m' = Dict.keys m /\
    forall c q, In q (Cache.programs_of m' c) <->
      In q (Cache.programs_of m c) \/
      (exists keyword cs,
         In (keyword, cs) keyword_codes /\
         Cache.keyword_in_title lower keyword program = true /\
         In c cs /\ q = Cache.code program).
Proof.
  induction keyword_codes as [|[kw cs] kc IH]; simpl; intros program m Hall.
  - exists m. repeat split; [tauto|]. intros [H|[? [? [[] _]]]]. exact H.
  - destruct (Cache.keyword_in_title lower kw program) eqn:Ekw.
    + destruct (put_codes_spec cs (Cache.code program) m) as [m1 [-> [Hk1 Hp1]]].
      { intros c Hc. apply (Hall kw cs c); [now left | exact Hc]. }
      destruct (IH program m1) as [m2 [Hrun [Hk2 Hp2]]].
      { intros k l c Hin Hc. rewrite Hk1. apply (Hall k l c); [now right | exact Hc]. }
      exists m2. split; [exact Hrun|]. split; [congruence|].
      intros c q. rewrite Hp2, Hp1. split.
      * intros [[H|[Hc ->]]|[k [l [Hin [Hk [Hc ->]]]]]].
        -- now left.
        -- right. exists kw, cs. auto.
        -- right. exists k, l. auto.
      * intros [H|[k [l [[Heq|Hin] [Hk [Hc ->]]]]]].
        -- left. now left.
        -- injection Heq as -> ->. left. right. auto.
        -- right. exists k, l. auto.
    + destruct (IH program m) as [m2 [Hrun [Hk2 Hp2]]].
      { intros k l c Hin Hc. apply (Hall k l c); [now right | exact Hc]. }
      exists m2. split; [exact Hrun|]. split; [exact Hk2|].
      intros c q. rewrite Hp2. split.
      * intros [H|[k [l [Hin [Hk [Hc ->]]]]]]; [now left|].
        right. exists k, l. auto.
      * intros [H|[k [l [[Heq|Hin] [Hk [Hc ->]]]]]].
        -- now left.
        -- injection Heq as -> ->. congruence.
        -- right. exists k, l. auto.
Qed.

Lemma scan_programs_spec : forall programs
    (keyword_codes : list (string * list string)) (m : Dict.t (Dict.t Z)),
  (forall keyword cs c, In (keyword, cs) keyword_codes -> In c cs ->
     In c (Dict.keys m)) ->
  exists m',
    Cache.scan_programs lower programs keyword_codes m = Ok m' /\
    Dict.keys m' = Dict.keys m /\
    forall c q, In q (Cache.programs_of m' c) <->
      In q (Cache.programs_of m c) \/
      (exists program keyword cs,
         In program programs /\
         In (keyword, cs) keyword_codes /\
         Cache.keyword_in_title lower keyword program = true /\
         In c cs /\ Cache.code program = q).
Proof.
  intros programs. induction programs as [|program programs IH]; simpl; intros kc m Hall.
  - exists m. repeat split; [tauto|]. intros [H|[? [? [? [[] _]]]]]. exact H.
  - destruct (scan_keywords_spec kc program m Hall) as [m1 [-> [Hk1 Hp1]]].
    destruct (IH kc m1) as [m2 [Hrun [Hk2 Hp2]]].
    { intros k l c Hin Hc. rewrite Hk1. now apply (Hall k l c). }
    exists m2. split; [exact Hrun|]. split; [congruence|].
    intros c q. rewrite Hp2, Hp1. split.
    + intros [[H|[k [l [Hin [Hk [Hc ->]]]]]]|[pr [k [l [Hpr Hrest]]]]].
      * now left.
      * right. exists program, k, l. auto.
      * right. exists pr, k, l. auto.
    + intros [H|[pr [k [l [[<-|Hpr] [Hin [Hk [Hc <-]]]]]]]].
      * left. now left.
      * left. right. exists k, l. auto.
      * right. exists pr, k, l. auto.
Qed.

Lemma programs_of_fresh : forall codes c,
  Cache.programs_of (Dict.of_pairs (map (fun code : string => (code, @nil (string * Z))) codes)) c = [].
Proof.
  intros codes c. unfold Cache.programs_of.
  destruct (Dict.get c _) as [inner|] eqn:E; [|reflexivity].
  apply DictFacts.get_in in E. unfold Dict.of_pairs in E.
  apply in_union in E. destruct E as [[]|E].
  apply in_map_iff in E. destruct E as [code [Heq _]].
  now injection Heq as _ <-.
Qed.

(** X14: the program mappings.  Without any keyword the reduction over
    the configured code lists has nothing to start from and raises
    TypeError; with at least one keyword the cache is always built (no
    lookup in it fails), its keys are the codes the configuration
    lists, and a program is filed under a code exactly when some keyword
    that lists the code occurs in the program's title, both lowered by
    [str.lower]. *)
Theorem cache_program_mappings_spec :
  forall (keyword_codes : Dict.t (list string)) programs,
  (keyword_codes = [] ->
   Cache.cache_program_mappings lower keyword_codes programs = Raise TypeError) /\
  (keyword_codes <> [] ->
   exists mappings,
     Cache.cache_program_mappings lower keyword_codes programs = Ok mappings /\
     (forall code, In code (Dict.keys mappings) <->
        exists keyword codes, In (keyword, codes) keyword_codes /\ In code codes) /\
     (forall code program_code,
        In program_code (Cache.programs_of mappings code) <->
        exists program keyword codes,
          In program programs /\
          In (keyword, codes) keyword_codes /\
          Cache.keyword_in_title lower keyword program = true /\
          In code codes /\
          Cache.code program = program_code)).
Proof.
  intros kc programs. split.
  - intros ->. reflexivity.
  - intros Hne. unfold Cache.cache_program_mappings.
    destruct (Cache.all_codes kc) as [codes|e] eqn:Ecodes.
    2:{ unfold Cache.all_codes in Ecodes. destruct kc as [|[k l] kc];
          [congruence | discriminate]. }
    assert (Hcodes := in_all_codes _ Ecodes).
    set (m0 := Dict.of_pairs (map (fun code : string => (code, @nil (string * Z))) codes)).
    assert (Hk0 : forall c, In c (Dict.keys m0) <-> In c codes).
    { intros c. unfold m0. rewrite DictFacts.keys_of_pairs, map_map. simpl.
      now rewrite map_id. }
    destruct (scan_programs_spec programs kc m0) as [m [Hrun [Hk Hp]]].
    { intros k l c Hin Hc. apply Hk0, Hcodes. now exists k, l. }
    exists m. split; [exact Hrun|]. split.
    + intros c. rewrite Hk, Hk0. apply Hcodes.
    + intros c q. rewrite Hp. unfold m0. rewrite programs_of_fresh.
      simpl. tauto.
Qed.

End ProgramMappingFacts.

Lemma cache_program_mappings_spec_witness :
  exists mappings,
    Cache.cache_program_mappings PyStr.lower
      [("computer science", ["COMP#"]); ("Actuarial", ["ACTL#"])]
      [Cache.mkProgramEntry "Computer Science" "3778";
       Cache.mkProgramEntry "Actuarial Studies / Computer Science" "3155"]
      = Ok mappings /\
    (In "3155" (Cache.programs_of mappings "COMP#") /\
     In "3155" (Cache.programs_of mappings "ACTL#") /\
     ~ In "3778" (Cache.programs_of mappings "ACTL#")).
Proof.
  destruct (proj2 (cache_program_mappings_spec PyStr.lower
                     [("computer science", ["COMP#"]); ("Actuarial", ["ACTL#"])]
                     [Cache.mkProgramEntry "Computer Science" "3778";
                      Cache.mkProgramEntry "Actuarial Studies / Computer Science" "3155"]))
    as [mappings [Hrun [_ Hfiled]]].
  - discriminate.
  - exists mappings. split; [exact Hrun|]. split; [|split].
    + apply Hfiled.
      exists (Cache.mkProgramEntry "Actuarial Studies / Computer Science" "3155"),
        "computer science", ["COMP#"].
      simpl. intuition.
    + apply Hfiled.
      exists (Cache.mkProgramEntry "Actuarial Studies / Computer Science" "3155"),
        "Actuarial", ["ACTL#"].
      simpl. intuition.
    + intros Hin. apply Hfiled in Hin.
      destruct Hin as [program [keyword [codes [Hp [Hk [Ht [Hc Hcode]]]]]]].
      destruct Hp as [<-|[<-|[]]]; [|discriminate Hcode].
      destruct Hk as [Hk|[Hk|[]]]; injection Hk as <- <-.
      * destruct Hc as [Hc|[]]. discriminate Hc.
      * discriminate Ht.
Defined.

(** ** Properties of the course lookup *)

Lemma keys_del : forall (V : Type) (d : Dict.t V) k,
  ~ In k (Dict.keys (filter (fun kv => negb (String.eqb k (fst kv))) d)).
Proof.
  intros V d k Hin. unfold Dict.keys in Hin. apply in_map_iff in Hin.
  destruct Hin as [[k' v] [Hk Hin]]. simpl in Hk. subst k'.
  apply filter_In in Hin. destruct Hin as [_ Hneq]. simpl in Hneq.
  now rewrite String.eqb_refl in Hneq.
Qed.

Lemma get_del_other : forall (V : Type) (d : Dict.t V) k k',
  k' <> k ->
  Dict.get k' (filter (fun kv => negb (String.eqb k (fst kv))) d) = Dict.get k' d.
Proof.
  intros V d k k' Hne. induction d as [|[k0 v0] d IH]; simpl.
  - reflexivity.
  - destruct (String.eqb_spec k k0) as [->|Hk]; simpl.
    + apply String.eqb_neq in Hne. now rewrite Hne.
    + now rewrite IH.
Qed.

Lemma get_absent : forall (V : Type) (d : Dict.t V) k,
  ~ In k (Dict.keys d) -> Dict.get k d = None.
Proof. intros V d k H. now apply DictFacts.get_none. Qed.

Lemma get_setdefault_other : forall (d : Courses.doc) k v k',
  k' <> k -> Dict.get k' (Courses.setdefault k v d) = Dict.get k' d.
Proof.
  intros d k v k' Hne. unfold Courses.setdefault.
  destruct (Dict.mem k d); [reflexivity|].
  now apply DictFacts.get_set_other.
Qed.

Lemma setdefault_nonempty : forall (d : Courses.doc) k v,
  Courses.truthy (Some (Courses.setdefault k v d)) = true \/ False ->
  Courses.setdefault k v d <> [].
Proof. intros d k v [H|[]] E. rewrite E in H. discriminate. Qed.

Lemma set_nonempty : forall (V : Type) (d : Dict.t V) k v,
  exists kv rest, Dict.set k v d = kv :: rest.
Proof.
  intros V [|[k0 v0] d] k v; simpl.
  - now eexists _, _.
  - destruct (String.eqb k k0); now eexists _, _.
Qed.

Lemma in_insert_desc : forall y l x,
  In x (Courses.insert_desc y l) <-> x = y \/ In x l.
Proof.
  intros y. induction l as [|a l IH]; simpl; intros x.
  - intuition.
  - destruct (a <? y)%Z; simpl; [intuition|]. rewrite IH. intuition.
Qed.

Lemma in_sorted_reverse : forall l x,
  In x (Courses.sorted_reverse l) <-> In x l.
Proof.
  induction l as [|a l IH]; simpl; intros x.
  - tauto.
  - rewrite in_insert_desc, IH. intuition.
Qed.

Lemma insert_desc_sorted : forall y l,
  StronglySorted Z.ge l -> StronglySorted Z.ge (Courses.insert_desc y l).
Proof.
  intros y. induction l as [|a l IH]; simpl; intros Hs.
  - repeat constructor.
  - inversion Hs as [|? ? Hs' Hall]; subst.
    destruct (Z.ltb_spec a y) as [Hlt|Hge].
    + constructor; [exact Hs|]. constructor; [lia|].
      rewrite Forall_forall in *. intros x Hx. specialize (Hall x Hx). lia.
    + constructor; [now apply IH|].
      rewrite Forall_forall in *. intros x Hx.
      apply in_insert_desc in Hx. destruct Hx as [->|Hx]; [lia | now apply Hall].
Qed.

Lemma sorted_reverse_sorted : forall l,
  StronglySorted Z.ge (Courses.sorted_reverse l).
Proof.
  induction l as [|a l IH]; simpl; [constructor | now apply insert_desc_sorted].
Qed.

Section RouteFacts.

Variable coursesCOL : string -> option Courses.doc.
Variable archivesDB : string -> string -> option Courses.doc.
Variable ARCHIVED_YEARS : list Z.

Local Abbreviation search_archives := (Courses.search_archives archivesDB).
Local Abbreviation get_course := (Courses.get_course coursesCOL archivesDB ARCHIVED_YEARS).
Local Abbreviation get_legacy_course := (Courses.get_legacy_course archivesDB).

(** the loop either finds nothing in any year, or stops at a year *)
Lemma search_archives_cases : forall years courseCode res,
  Courses.truthy res = false ->
  (Courses.truthy (search_archives years courseCode res) = false /\
   forall y, In y years -> archivesDB (Courses.str y) courseCode = None) \/
  (exists y found,
     In y years /\
     archivesDB (Courses.str y) courseCode = Some found /\
     search_archives years courseCode res = Some (Courses.mark_legacy found)).
Proof.
  induction years as [|year rest IH]; simpl; intros courseCode res Hres.
  - left. split; [exact Hres | intros y []].
  - destruct (archivesDB (Courses.str year) courseCode) as [found|] eqn:E.
    + right. exists year, found. auto.
    + destruct (IH courseCode None eq_refl) as [[Hf Hall]|[y [found [Hin [Hy Hs]]]]].
      * left. split; [exact Hf|]. intros y [<-|Hin]; [exact E | now apply Hall].
      * right. exists y, found. auto.
Qed.

(** over years in descending order the loop stops at the latest year
    that holds the course *)
Lemma search_archives_latest : forall years courseCode res y found,
  StronglySorted Z.ge years ->
  In y years ->
  archivesDB (Courses.str y) courseCode = Some found ->
  (forall y', In y' years -> (y < y')%Z ->
     archivesDB (Courses.str y') courseCode = None) ->
  search_archives years courseCode res = Some (Courses.mark_legacy found).
Proof.
  induction years as [|year rest IH]; simpl;
    intros courseCode res y found Hs Hin Hy Hlater.
  - contradiction.
  - inversion Hs as [|? ? Hs' Hall]; subst.
    destruct (Z.eq_dec year y) as [->|Hne].
    + now rewrite Hy.
    + destruct Hin as [Heq|Hin]; [contradiction|].
      rewrite Forall_forall in Hall. specialize (Hall y Hin).
      rewrite (Hlater year (or_introl eq_refl)) by lia.
      apply (IH courseCode None y found Hs' Hin Hy).
      intros y' Hy' Hlt. apply Hlater; [now right | exact Hlt].
Qed.

Ltac destruct_search Hf Hall y found Hin Hy :=
  match goal with
  | |- context [Courses.search_archives ?db ?years ?c ?res] =>
      let Hs := fresh "Hs" in
      destruct (@search_archives_cases years c res eq_refl)
        as [[Hf Hall]|[y [found [Hin [Hy Hs]]]]]; [|rewrite Hs]
  end.

Lemma mark_legacy_shape : forall found,
  exists kv rest, Courses.mark_legacy found = kv :: rest.
Proof. intros found. apply set_nonempty. Qed.

(** what a returned document looks like, from the document found *)
Lemma respond_spec : forall res out,
  Courses.respond res = Ok out ->
  ~ In "_id" (Dict.keys out) /\
  In "school" (Dict.keys out) /\
  (forall excl, Dict.get "exclusions" out = Some (Courses.VDict excl) ->
     ~ In "leftover_plaintext" (Dict.keys excl)) /\
  (forall k, k <> "_id" -> k <> "school" -> k <> "exclusions" ->
     Dict.get k out = Dict.get k res).
Proof.
  intros res out. unfold Courses.respond, Courses.del_item.
  set (r1 := Courses.setdefault "school" Courses.VNone res).
  destruct (Dict.mem "_id" r1) eqn:Eid; [|discriminate].
  set (r2 := filter _ r1).
  assert (Hid : ~ In "_id" (Dict.keys r2)) by apply keys_del.
  assert (Hschool : In "school" (Dict.keys r2)).
  { assert (H1 : exists v, Dict.get "school" r1 = Some v).
    { unfold r1, Courses.setdefault, Dict.mem.
      destruct (Dict.get "school" res) as [v|] eqn:E.
      - now exists v.
      - eexists. apply DictFacts.get_set_same. }
    destruct H1 as [v Hv].
    assert (H2 : Dict.get "school" r2 = Some v).
    { unfold r2. rewrite get_del_other; [exact Hv | discriminate]. }
    apply DictFacts.get_in in H2. unfold Dict.keys. apply in_map_iff.
    now exists ("school", v). }
  assert (Hother : forall k, k <> "_id" -> k <> "school" ->
            Dict.get k r2 = Dict.get k res).
  { intros k H1 H2. unfold r2. rewrite get_del_other by exact H1.
    unfold r1. now apply get_setdefault_other. }
  unfold Courses.del_leftover, Courses.del_item.
  destruct (Dict.get "exclusions" r2) as [v|] eqn:Eex; simpl.
  2:{ intros H. injection H as <-. repeat split; try assumption.
      - intros excl Hex. congruence.
      - intros k H1 H2 _. now apply Hother. }
  destruct v as [| | | | |excl]; simpl; try discriminate.
  destruct (Dict.mem "leftover_plaintext" excl) eqn:Emem; simpl.
  - intros H. injection H as <-. repeat split.
    + intros Hin. apply Hid. apply DictFacts.keys_set in Hin.
      destruct Hin as [Hin|Hin]; [discriminate | exact Hin].
    + apply DictFacts.keys_set. now right.
    + intros excl' Hex. rewrite DictFacts.get_set_same in Hex.
      injection Hex as <-. apply keys_del.
    + intros k H1 H2 H3. rewrite DictFacts.get_set_other by exact H3.
      now apply Hother.
  - intros H. injection H as <-. repeat split; try assumption.
    + intros excl' Hex. rewrite Eex in Hex. injection Hex as <-.
      unfold Dict.mem in Emem.
      destruct (Dict.get "leftover_plaintext" excl) eqn:E; [discriminate|].
      now apply DictFacts.get_none.
    + intros k H1 H2 _. now apply Hother.
Qed.

Lemma respond_not_http : forall res s d,
  Courses.respond res <> Raise (HTTPException s d).
Proof.
  intros res s d. unfold Courses.respond, Courses.del_item.
  destruct (Dict.mem "_id" _); [|discriminate].
  unfold Courses.del_leftover, Courses.del_item.
  destruct (Dict.get "exclusions" _) as [[| | | | |excl]|]; simpl; try discriminate.
  destruct (Dict.mem "leftover_plaintext" excl); simpl; discriminate.
Qed.

(** X15: [get_course] answers 400 exactly when the course is neither in
    the live collection nor in the archive of any archived year, and the
    detail then names the course code; it raises no other HTTP error. *)
Theorem get_course_not_found : forall courseCode,
  (get_course courseCode
     = Raise (HTTPException 400
                ("Course code " ++ courseCode ++ " was not found")%string) <->
   Courses.truthy (coursesCOL courseCode) = false /\
   forall year, In year ARCHIVED_YEARS ->
     archivesDB (Courses.str year) courseCode = None) /\
  (forall status_code detail,
     get_course courseCode = Raise (HTTPException status_code detail) ->
     status_code = 400%Z /\
     detail = ("Course code " ++ courseCode ++ " was not found")%string).
Proof.
  intros courseCode.
  assert (Hmain : forall s d,
            get_course courseCode = Raise (HTTPException s d) ->
            (s = 400%Z /\
             d = ("Course code " ++ courseCode ++ " was not found")%string) /\
            Courses.truthy (coursesCOL courseCode) = false /\
            forall year, In year ARCHIVED_YEARS ->
              archivesDB (Courses.str year) courseCode = None).
  { intros s d. unfold Courses.get_course.
    destruct (coursesCOL courseCode) as [[|kv live]|] eqn:Elive; cbv beta iota.
    - destruct_search Hf Hall y found Hin Hy.
      + destruct (search_archives _ _ _) as [[|? ?]|]; try discriminate Hf;
          intros H; injection H as <- <-; (split; [now split|]);
          (split; [reflexivity|]); intros year Hyear;
          apply Hall, in_sorted_reverse, Hyear.
      + destruct (mark_legacy_shape found) as [kv [rest ->]].
        intros H. now apply respond_not_http in H.
    - destruct (set_nonempty (kv :: live) "is_legacy" (Courses.VBool false))
        as [kv' [rest ->]].
      intros H. now apply respond_not_http in H.
    - destruct_search Hf Hall y found Hin Hy.
      + destruct (search_archives _ _ _) as [[|? ?]|]; try discriminate Hf;
          intros H; injection H as <- <-; (split; [now split|]);
          (split; [reflexivity|]); intros year Hyear;
          apply Hall, in_sorted_reverse, Hyear.
      + destruct (mark_legacy_shape found) as [kv [rest ->]].
        intros H. now apply respond_not_http in H. }
  split; [split|].
  - intros H. now apply Hmain in H.
  - intros [Hlive Hall]. unfold Courses.get_course.
    assert (Hsearch : forall res, Courses.truthy res = false ->
              Courses.truthy
                (search_archives (Courses.sorted_reverse ARCHIVED_YEARS)
                   courseCode res) = false).
    { intros res Hres.
      destruct (search_archives_cases (Courses.sorted_reverse ARCHIVED_YEARS)
                  courseCode res Hres) as [[Hf _]|[y [found [Hin [Hy _]]]]].
      - exact Hf.
      - apply (proj1 (in_sorted_reverse _ _)) in Hin.
        rewrite (Hall y Hin) in Hy. discriminate. }
    destruct (coursesCOL courseCode) as [[|kv live]|]; try discriminate Hlive.
    + specialize (Hsearch (Some []) eq_refl).
      now destruct (search_archives _ _ _) as [[|? ?]|].
    + specialize (Hsearch None eq_refl).
      now destruct (search_archives _ _ _) as [[|? ?]|].
  - intros s d H. now apply Hmain in H.
Qed.

(** X16: a course that is not live is answered from the latest archived
    year that holds it, whatever the order of the configured years: the
    document of that year, marked as legacy and given an empty
    raw_requirements unless it has one, is what the final steps of
    [get_course] work on. *)
Theorem get_course_latest_archive : forall courseCode year found,
  Courses.truthy (coursesCOL courseCode) = false ->
  In year ARCHIVED_YEARS ->
  archivesDB (Courses.str year) courseCode = Some found ->
  (forall later, In later ARCHIVED_YEARS -> (year < later)%Z ->
     archivesDB (Courses.str later) courseCode = None) ->
  get_course courseCode = Courses.respond (Courses.mark_legacy found) /\
  Dict.get "is_legacy" (Courses.mark_legacy found) = Some (Courses.VBool true) /\
  (Dict.get "raw_requirements" (Courses.mark_legacy found)
     = match Dict.get "raw_requirements" found with
       | Some v => Some v
       | None => Some (Courses.VStr "")
       end) /\
  (forall k, k <> "is_legacy" -> k <> "raw_requirements" ->
     Dict.get k (Courses.mark_legacy found) = Dict.get k found).
Proof.
  intros courseCode year found Hlive Hin Hfound Hlater.
  assert (Hsearch : forall res,
            search_archives (Courses.sorted_reverse ARCHIVED_YEARS) courseCode res
            = Some (Courses.mark_legacy found)).
  { intros res. apply search_archives_latest with (y := year).
    - apply sorted_reverse_sorted.
    - now apply in_sorted_reverse.
    - exact Hfound.
    - intros y' Hy'. apply Hlater. now apply in_sorted_reverse. }
  split; [|split; [|split]].
  - unfold Courses.get_course.
    destruct (coursesCOL courseCode) as [[|kv live]|]; try discriminate Hlive;
      rewrite Hsearch; now destruct (mark_legacy_shape found) as [kv [rest ->]].
  - apply DictFacts.get_set_same.
  - unfold Courses.mark_legacy.
    rewrite DictFacts.get_set_other by discriminate.
    unfold Courses.setdefault, Dict.mem.
    destruct (Dict.get "raw_requirements" found) as [v|] eqn:E.
    + exact E.
    + apply DictFacts.get_set_same.
  - intros k H1 H2. unfold Courses.mark_legacy.
    rewrite DictFacts.get_set_other by exact H1.
    now apply get_setdefault_other.
Qed.

(** X17: every document [get_course] returns has no _id, has a school
    key, has no leftover_plaintext among its exclusions, and says
    is_legacy exactly when the course was not found live; a legacy
    answer always has raw_requirements. *)
Theorem get_course_returns : forall courseCode out,
  get_course courseCode = Ok out ->
  ~ In "_id" (Dict.keys out) /\
  In "school" (Dict.keys out) /\
  (forall excl, Dict.get "exclusions" out = Some (Courses.VDict excl) ->
     ~ In "leftover_plaintext" (Dict.keys excl)) /\
  Dict.get "is_legacy" out
    = Some (Courses.VBool (negb (Courses.truthy (coursesCOL courseCode)))) /\
  (Courses.truthy (coursesCOL courseCode) = false ->
   exists v, Dict.get "raw_requirements" out = Some v).
Proof.
  intros courseCode out. unfold Courses.get_course.
  assert (Harch : forall res,
            Courses.truthy res = false ->
            match search_archives (Courses.sorted_reverse ARCHIVED_YEARS)
                    courseCode res with
            | Some ((_ :: _) as res0) => Courses.respond res0
            | _ => Raise (HTTPException 400
                     ("Course code " ++ courseCode ++ " was not found")%string)
            end = Ok out ->
            ~ In "_id" (Dict.keys out) /\
            In "school" (Dict.keys out) /\
            (forall excl, Dict.get "exclusions" out = Some (Courses.VDict excl) ->
               ~ In "leftover_plaintext" (Dict.keys excl)) /\
            Dict.get "is_legacy" out = Some (Courses.VBool true) /\
            exists v, Dict.get "raw_requirements" out = Some v).
  { intros res Hres.
    destruct (search_archives_cases (Courses.sorted_reverse ARCHIVED_YEARS)
                courseCode res Hres) as [[Hf _]|[y [found [_ [_ ->]]]]].
    - destruct (search_archives _ _ _) as [[|? ?]|]; try discriminate Hf;
        discriminate.
    - destruct (mark_legacy_shape found) as [kv [rest Hshape]].
      rewrite Hshape, <- Hshape. intros H.
      destruct (respond_spec _ H) as [H1 [H2 [H3 H4]]].
      repeat split; try assumption.
      + rewrite H4 by discriminate. apply DictFacts.get_set_same.
      + rewrite H4 by discriminate. unfold Courses.mark_legacy.
        rewrite DictFacts.get_set_other by discriminate.
        unfold Courses.setdefault, Dict.mem.
        destruct (Dict.get "raw_requirements" found) as [v|] eqn:E.
        * now exists v.
        * eexists. apply DictFacts.get_set_same. }
  destruct (coursesCOL courseCode) as [[|kv live]|] eqn:Elive; simpl Courses.truthy.
  - intros H. destruct (Harch (Some []) eq_refl H) as [H1 [H2 [H3 [H4 H5]]]].
    repeat split; try assumption. intros _. exact H5.
  - destruct (set_nonempty (kv :: live) "is_legacy" (Courses.VBool false))
      as [kv' [rest Hshape]].
    rewrite Hshape, <- Hshape. intros H.
    destruct (respond_spec _ H) as [H1 [H2 [H3 H4]]].
    repeat split; try assumption.
    + rewrite H4 by discriminate. apply DictFacts.get_set_same.
    + discriminate.
  - intros H. destruct (Harch None eq_refl H) as [H1 [H2 [H3 [H4 H5]]]].
    repeat split; try assumption. intros _. exact H5.
Qed.

Lemma get_legacy_course_ok : forall year courseCode legacy,
  get_legacy_course year courseCode = Ok legacy ->
  exists found,
    archivesDB year courseCode = Some found /\
    Dict.mem "_id" found = true /\
    legacy = Dict.set "is_legacy" (Courses.VBool true)
               (filter (fun kv => negb (String.eqb "_id" (fst kv))) found).
Proof.
  intros year courseCode legacy. unfold Courses.get_legacy_course.
  destruct (archivesDB year courseCode) as [[|kv rest]|]; try discriminate.
  unfold Courses.del_item.
  destruct (Dict.mem "_id" (kv :: rest)) eqn:E; [|discriminate].
  intros H. injection H as <-. exists (kv :: rest). auto.
Qed.

(** X18: for a course that is not live, [get_course] and
    [get_legacy_course] at the latest archived year that holds the course
    return, when both return, documents that agree on every key except
    the three [get_course] alone adjusts: raw_requirements, school and
    exclusions. *)
Theorem get_course_agrees_with_legacy : forall courseCode year legacy out,
  Courses.truthy (coursesCOL courseCode) = false ->
  In year ARCHIVED_YEARS ->
  (forall later, In later ARCHIVED_YEARS -> (year < later)%Z ->
     archivesDB (Courses.str later) courseCode = None) ->
  get_legacy_course (Courses.str year) courseCode = Ok legacy ->
  get_course courseCode = Ok out ->
  forall k, k <> "raw_requirements" -> k <> "school" -> k <> "exclusions" ->
    Dict.get k legacy = Dict.get k out.
Proof.
  intros courseCode year legacy out Hlive Hin Hlater Hleg Hout k Hk1 Hk2 Hk3.
  destruct (get_legacy_course_ok _ _ Hleg) as [doc [Efound [_ ->]]].
  clear Hleg.
  assert (Hsearch :
            search_archives (Courses.sorted_reverse ARCHIVED_YEARS) courseCode
              (coursesCOL courseCode)
            = Some (Courses.mark_legacy doc)).
  { apply search_archives_latest with (y := year).
    - apply sorted_reverse_sorted.
    - now apply in_sorted_reverse.
    - exact Efound.
    - intros y' Hy'. apply Hlater. now apply in_sorted_reverse. }
  assert (Hrun : Courses.respond (Courses.mark_legacy doc) = Ok out).
  { unfold Courses.get_course in Hout.
    destruct (coursesCOL courseCode) as [[|kv' live]|]; try discriminate Hlive;
      rewrite Hsearch in Hout;
      now destruct (mark_legacy_shape doc) as [kv0 [rest Hs]];
      rewrite Hs in Hout |- *. }
  destruct (respond_spec _ Hrun) as [Hid [_ [_ Hother]]].
  destruct (String.eqb_spec k "is_legacy") as [->|Hleg].
  - rewrite DictFacts.get_set_same, Hother by discriminate.
    symmetry. apply DictFacts.get_set_same.
  - rewrite DictFacts.get_set_other by exact Hleg.
    destruct (String.eqb_spec k "_id") as [->|Hnid].
    + transitivity (@None Courses.value);
        [apply get_absent; apply keys_del | symmetry; apply get_absent; exact Hid].
    + rewrite get_del_other by exact Hnid.
      rewrite Hother by assumption. unfold Courses.mark_legacy.
      rewrite DictFacts.get_set_other by exact Hleg.
      symmetry. now apply get_setdefault_other.
Qed.

End RouteFacts.

Lemma get_course_not_found_witness :
  Courses.get_course CourseDemo.coursesCOL CourseDemo.archivesDB
    CourseDemo.ARCHIVED_YEARS "COMP1234"
  = Raise (HTTPException 400 "Course code COMP1234 was not found").
Proof.
  apply (proj2 (proj1 (@get_course_not_found CourseDemo.coursesCOL
                         CourseDemo.archivesDB CourseDemo.ARCHIVED_YEARS
                         "COMP1234"))).
  split; [reflexivity | intros year _; reflexivity].
Defined.

Lemma get_course_latest_archive_witness :
  Courses.get_course CourseDemo.coursesCOL CourseDemo.archivesDB
    CourseDemo.ARCHIVED_YEARS "ENGG1000"
  = Courses.respond (Courses.mark_legacy CourseDemo.engg1000_2020).
Proof.
  apply (@get_course_latest_archive CourseDemo.coursesCOL CourseDemo.archivesDB
           CourseDemo.ARCHIVED_YEARS "ENGG1000" 2020%Z CourseDemo.engg1000_2020).
  - reflexivity.
  - simpl. auto.
  - reflexivity.
  - intros later [<-|[<-|[<-|[]]]] Hlt; try lia; reflexivity.
Defined.

Lemma get_course_returns_witness :
  Dict.get "is_legacy" CourseDemo.comp1511_out = Some (Courses.VBool false).
Proof.
  exact (proj1 (proj2 (proj2 (proj2
           (@get_course_returns CourseDemo.coursesCOL CourseDemo.archivesDB
              CourseDemo.ARCHIVED_YEARS "COMP1511" CourseDemo.comp1511_out
              eq_refl))))).
Defined.

Lemma get_course_agrees_with_legacy_witness :
  Dict.get "terms" CourseDemo.engg1000_legacy
  = Dict.get "terms" CourseDemo.engg1000_out.
Proof.
  apply (@get_course_agrees_with_legacy CourseDemo.coursesCOL
           CourseDemo.archivesDB CourseDemo.ARCHIVED_YEARS "ENGG1000" 2020%Z
           CourseDemo.engg1000_legacy CourseDemo.engg1000_out).
  - reflexivity.
  - simpl. auto.
  - intros later [<-|[<-|[<-|[]]]] Hlt; try lia; reflexivity.
  - reflexivity.
  - reflexivity.
  - discriminate.
  - discriminate.
  - discriminate.
Defined.

(** ** Properties of the processor driver *)

Section DriverFacts.

Variable call : Driver.processor -> result unit.

Lemma for_stages_log : forall keep stages log out log',
  Driver.for_stages call keep stages log = (out, log') ->
  forall f, In f log' ->
    In f log \/ exists stage, In (stage, f) stages /\ keep stage = true.
Proof.
  intros keep. induction stages as [|[stage function] rest IH]; simpl;
    intros log out log' H f Hf.
  - injection H as _ <-. now left.
  - destruct (keep stage) eqn:Ek.
    + destruct (call function) as [[]|e].
      * destruct (IH _ _ _ H f Hf) as [Hin|[s [Hs Hk]]].
        -- apply in_app_or in Hin. destruct Hin as [Hin|[<-|[]]].
           ++ now left.
           ++ right. exists stage. auto.
        -- right. exists s. auto.
      * injection H as _ <-. apply in_app_or in Hf.
        destruct Hf as [Hin|[<-|[]]]; [now left|].
        right. exists stage. auto.
    + destruct (IH _ _ _ H f Hf) as [Hin|[s [Hs Hk]]]; [now left|].
      right. exists s. auto.
Qed.

Lemma for_types_log : forall keep types log out log',
  Driver.for_types call keep types log = (out, log') ->
  forall f, In f log' ->
    In f log \/
    exists t type stage,
      In (t, type) types /\ In (stage, f) type /\ keep stage = true.
Proof.
  intros keep. induction types as [|[t type] rest IH]; simpl;
    intros log out log' H f Hf.
  - injection H as _ <-. now left.
  - destruct (Driver.for_stages call keep type log) as [o l] eqn:E.
    assert (Hl : forall g, In g l ->
              In g log \/ exists stage, In (stage, g) type /\ keep stage = true)
      by apply (for_stages_log _ _ _ E).
    assert (Hstop : (o, l) = (out, log') ->
              In f log \/
              exists t0 type0 stage,
                ((t, type) = (t0, type0) \/ In (t0, type0) rest) /\
                In (stage, f) type0 /\ keep stage = true).
    { intros Heq. injection Heq as _ <-.
      destruct (Hl f Hf) as [Hin|[s [Hs Hk]]]; [now left|].
      right. exists t, type, s. auto. }
    destruct o; try (now apply Hstop).
    destruct (IH _ _ _ H f Hf) as [Hin|[t0 [type0 [s [Ht [Hs Hk]]]]]].
    + destruct (Hl f Hin) as [Hin'|[s [Hs Hk]]]; [now left|].
      right. exists t, type, s. auto.
    + right. exists t0, type0, s. auto.
Qed.

(** in [run] a scraper is registered under the stage "scrape" only *)
Lemma scrapers_registered : forall t type stage f,
  In (t, type) Driver.run -> In (stage, f) type ->
  Driver.is_scraper f = true -> stage = "scrape".
Proof.
  intros t type stage f Ht Hs Hf. simpl in Ht.
  destruct Ht as [Ht|[Ht|[Ht|[]]]]; injection Ht as <- <-;
    simpl in Hs; destruct Hs as [Hs|[Hs|[Hs|[]]]]; injection Hs as <- <-;
    (reflexivity || discriminate Hf).
Qed.

Lemma lookup_run : forall type stages,
  Driver.lookup type Driver.run = Some stages ->
  In (Driver.key type, stages) Driver.run /\
  (type = Some "program" \/ type = Some "specialisation" \/ type = Some "course").
Proof.
  intros [t|] stages H; simpl in H; [|discriminate].
  destruct (String.eqb_spec t "program") as [->|_].
  { injection H as <-. simpl. auto. }
  destruct (String.eqb_spec t "specialisation") as [->|_].
  { injection H as <-. simpl. auto. }
  destruct (String.eqb_spec t "course") as [->|_]; [|discriminate].
  injection H as <-. simpl. auto.
Qed.

Lemma lookup_in : forall (V : Type) arg (d : Dict.t V) v,
  Driver.lookup arg d = Some v -> exists a, arg = Some a /\ In (a, v) d.
Proof.
  intros V [a|] d v H; simpl in H; [|discriminate].
  exists a. split; [reflexivity | now apply DictFacts.get_in].
Qed.

Lemma all_stages_log : forall type out log f,
  Driver.all_stages call type = (out, log) -> In f log ->
  (type = Some "program" \/ type = Some "specialisation" \/ type = Some "course") /\
  exists stage stages,
    In (Driver.key type, stages) Driver.run /\ In (stage, f) stages.
Proof.
  intros type out log f. unfold Driver.all_stages.
  destruct (Driver.lookup type Driver.run) as [stages|] eqn:E.
  - intros H Hf. destruct (lookup_run _ E) as [Hin Htype].
    split; [exact Htype|].
    destruct (for_stages_log _ _ _ H f Hf) as [[]|[stage [Hs _]]].
    now exists stage, stages.
  - intros H. injection H as _ <-. intros [].
Qed.

(** X19: the driver runs a scraper only when the stage asked for is
    "scrape", or when every stage of a program, specialisation or course
    run was asked for and the prompt was answered with "y".  In
    particular the data fix run, asked for or confirmed at the prompt,
    runs none. *)
Theorem scrapers_need_confirmation : forall type stage answer f,
  In f (snd (Driver.main call type stage answer)) ->
  Driver.is_scraper f = true ->
  stage = Some "scrape" \/
  (stage = Some "all" /\ answer = "y" /\
   (type = Some "program" \/ type = Some "specialisation" \/
    type = Some "course")).
Proof.
  intros type stage answer f Hf Hscr.
  assert (Hfix : forall out log,
            Driver.for_types call (fun stage => negb (String.eqb stage "scrape"))
              Driver.run [] = (out, log) -> In f log -> False).
  { intros out log H Hin.
    destruct (for_types_log _ _ _ H f Hin) as [[]|[t [ty [s [Ht [Hs Hk]]]]]].
    rewrite (@scrapers_registered _ _ _ _ Ht Hs Hscr) in Hk. discriminate. }
  assert (Hrest : forall type stage,
            In f (snd
              (if Driver.arg_is type "data-fix" && Driver.arg_is stage "all"
               then Driver.for_types call
                      (fun stage => negb (String.eqb stage "scrape")) Driver.run []
               else if Driver.arg_is stage "all"
               then
                 if existsb (Driver.arg_is type)
                      ["program"; "specialisation"; "course"; "gened"]
                 then if String.eqb answer "y"
                      then Driver.all_stages call type else (Driver.Returned, [])
                 else Driver.all_stages call type
               else Driver.one_stage call type stage)) ->
            stage = Some "scrape" \/
            (stage = Some "all" /\ answer = "y" /\
             (type = Some "program" \/ type = Some "specialisation" \/
              type = Some "course"))).
  { clear Hf. intros ty st Hf.
    destruct (Driver.arg_is ty "data-fix" && Driver.arg_is st "all").
    { exfalso. eapply Hfix; [apply surjective_pairing | exact Hf]. }
    destruct (Driver.arg_is st "all") eqn:Eall.
    - assert (Hst : st = Some "all").
      { destruct st as [s|]; simpl in Eall; [|discriminate].
        apply String.eqb_eq in Eall. now subst. }
      destruct (existsb (Driver.arg_is ty) _) eqn:Ein.
      + destruct (String.eqb_spec answer "y") as [->|_]; [|destruct Hf].
        destruct (all_stages_log ty _ (surjective_pairing _) Hf) as [Hty _].
        right. auto.
      + exfalso.
        destruct (all_stages_log ty _ (surjective_pairing _) Hf) as [Hty _].
        destruct Hty as [-> | [-> | ->]]; discriminate Ein.
    - left. unfold Driver.one_stage in Hf.
      destruct (Driver.lookup ty Driver.run) as [stages|] eqn:Ety; [|destruct Hf].
      destruct (Driver.lookup st stages) as [g|] eqn:Est; [|destruct Hf].
      assert (Hg : f = g).
      { destruct (call g) as [[]|[]]; simpl in Hf;
          destruct Hf as [Hf|[]]; now symmetry. }
      subst g. destruct (lookup_run _ Ety) as [Hrun _].
      destruct (lookup_in _ _ Est) as [s [-> Hs]].
      now rewrite (@scrapers_registered _ _ _ _ Hrun Hs Hscr). }
  unfold Driver.main in Hf.
  destruct type as [t|]; [now apply Hrest|].
  destruct stage as [s|]; [now apply Hrest|].
  destruct (String.eqb answer "y"); [|destruct Hf].
  exfalso. eapply Hfix; [apply surjective_pairing | exact Hf].
Qed.

(** X20: asking for every stage of a type that [run] does not register
    ends in an uncaught KeyError before any function is called: this is
    so for "condition" and the other types of the help text, and for
    "gened", which the driver lists among the types with scrapers, once
    the prompt is answered with "y". *)
Theorem all_stages_of_unregistered_type : forall type answer,
  type <> "data-fix" -> type <> "program" -> type <> "specialisation" ->
  type <> "course" ->
  (type = "gened" -> answer = "y") ->
  Driver.main call (Some type) (Some "all") answer
    = (Driver.Raised (KeyError type), []).
Proof.
  intros type answer H1 H2 H3 H4 Hgened.
  apply String.eqb_neq in H1, H2, H3, H4.
  assert (Hlook : Driver.all_stages call (Some type)
                  = (Driver.Raised (KeyError type), [])).
  { unfold Driver.all_stages, Driver.lookup, Driver.run, Driver.key.
    cbn [Dict.get]. now rewrite H2, H3, H4. }
  unfold Driver.main. cbn [existsb]. unfold Driver.arg_is.
  rewrite H1, H2, H3, H4, String.eqb_refl. cbn [andb orb].
  destruct (String.eqb_spec type "gened") as [Hg|_]; cbn [orb].
  - rewrite (Hgened Hg), String.eqb_refl. exact Hlook.
  - exact Hlook.
Qed.

(** X21: asking for one stage never ends in a KeyError and calls at most
    one function: an unknown type or stage is reported and the script
    returns, and a KeyError raised inside the function that was called
    is swallowed in the same way. *)
Theorem one_stage_hides_key_errors : forall type stage answer,
  Driver.arg_is stage "all" = false ->
  (type <> None \/ stage <> None) ->
  (length (snd (Driver.main call type stage answer)) <= 1)%nat /\
  fst (Driver.main call type stage answer) <> Driver.Exited /\
  forall k, fst (Driver.main call type stage answer)
            <> Driver.Raised (KeyError k).
Proof.
  intros type stage answer Hall Hargs.
  assert (Hmain : Driver.main call type stage answer
                  = Driver.one_stage call type stage).
  { unfold Driver.main.
    destruct type as [t|]; [|destruct stage as [s|]; [|tauto]];
      rewrite Hall, andb_false_r; reflexivity. }
  rewrite Hmain. unfold Driver.one_stage.
  destruct (Driver.lookup type Driver.run) as [stages|];
    [|simpl; repeat split; [lia | discriminate | discriminate]].
  destruct (Driver.lookup stage stages) as [g|];
    [|simpl; repeat split; [lia | discriminate | discriminate]].
  destruct (call g) as [[]|[]]; simpl; repeat split;
    try lia; try discriminate.
Qed.

End DriverFacts.

Lemma scrapers_need_confirmation_witness :
  Some "scrape" = Some "scrape" \/
  (Some "scrape" = Some "all" /\ "n" = "y" /\
   (Some "course" = Some "program" \/ Some "course" = Some "specialisation" \/
    Some "course" = Some "course")).
Proof.
  apply (@scrapers_need_confirmation (fun _ => Ok tt) (Some "course")
           (Some "scrape") "n" Driver.scrape_course_data).
  - simpl. now left.
  - reflexivity.
Defined.

Lemma all_stages_of_unregistered_type_witness :
  Driver.main (fun _ => Ok tt) (Some "gened") (Some "all") "y"
    = (Driver.Raised (KeyError "gened"), []).
Proof.
  apply (@all_stages_of_unregistered_type (fun _ => Ok tt) "gened" "y");
    try discriminate; reflexivity.
Defined.

Lemma one_stage_hides_key_errors_witness :
  (length (snd (Driver.main (fun _ => Raise (KeyError "code")) (Some "course")
                  (Some "process") "")) <= 1)%nat /\
  fst (Driver.main (fun _ => Raise (KeyError "code")) (Some "course")
         (Some "process") "") = Driver.Returned.
Proof.
  split; [|reflexivity].
  apply (@one_stage_hides_key_errors (fun _ => Raise (KeyError "code"))
           (Some "course") (Some "process") "").
  - reflexivity.
  - left. discriminate.
Defined.
